(** * GymParrot: the pose and movement comparison engine

    A shallow embedding of the scoring code of the GymParrot repository
    ([src/services/ComparisonService.ts], [src/services/MediaPipeService.ts],
    [src/utils/validation.ts], [src/utils/constants.ts]) and the properties
    the specification states about it, followed by the activity store that
    calls the validation code ([src/services/ActivityService.ts]).

    Numbers.  A JavaScript number is an IEEE-754 double.  The embedding keeps
    the special values the code branches on ([NaN], [+Infinity], [-Infinity])
    and idealises the finite ones as exact rationals: finite arithmetic does
    not round, overflow or underflow, and there is a single zero.  Every
    operation returns its finite results in lowest terms, so that equal
    numbers are equal terms.  [Math.sqrt] is the square root truncated to
    2^-64; [Math.exp], which ECMAScript leaves implementation-approximated,
    is a parameter on finite arguments. *)

From Stdlib Require Import QArith Qround Qreduction Qcanon Qabs Lqa Lia ZArith.
From Stdlib Require Import List String Ascii Bool Arith DecimalString.
From Stdlib Require Import DecimalN DecimalPos Sorted Permutation.
Import ListNotations.

(** ** JavaScript numbers *)

Module JS.

Local Open Scope Q_scope.

Inductive number : Type :=
| NaN
| PInf
| NInf
| Fin (q : Q).

(** A finite result, in lowest terms. *)
Definition fin (q : Q) : number := Fin (Qred q).

Definition of_nat (n : nat) : number := Fin (inject_Z (Z.of_nat n)).

(** Sign of a rational: [Gt] positive, [Eq] zero, [Lt] negative. *)
Definition Qsign (q : Q) : comparison := (Qnum q ?= 0)%Z.

Definition isNaN (a : number) : bool :=
  match a with NaN => true | _ => false end.

(** ToBoolean on numbers: [0] and [NaN] are falsy. *)
Definition truthy (a : number) : bool :=
  match a with
  | NaN => false
  | Fin q => negb (Qeq_bool q 0)
  | _ => true
  end.

Definition neg (a : number) : number :=
  match a with
  | NaN => NaN
  | PInf => NInf
  | NInf => PInf
  | Fin q => fin (- q)
  end.

Definition add (a b : number) : number :=
  match a, b with
  | NaN, _ | _, NaN => NaN
  | PInf, NInf | NInf, PInf => NaN
  | PInf, _ | _, PInf => PInf
  | NInf, _ | _, NInf => NInf
  | Fin p, Fin q => fin (p + q)
  end.

Definition sub (a b : number) : number :=
  match a, b with
  | NaN, _ | _, NaN => NaN
  | PInf, PInf | NInf, NInf => NaN
  | PInf, _ | _, NInf => PInf
  | NInf, _ | _, PInf => NInf
  | Fin p, Fin q => fin (p - q)
  end.

(** An infinity of the sign [s]; zero times infinity is [NaN]. *)
Definition signed_inf (s : comparison) : number :=
  match s with Gt => PInf | Lt => NInf | Eq => NaN end.

Definition flip (s : comparison) : comparison := CompOpp s.

Definition mul (a b : number) : number :=
  match a, b with
  | NaN, _ | _, NaN => NaN
  | PInf, PInf | NInf, NInf => PInf
  | PInf, NInf | NInf, PInf => NInf
  | PInf, Fin q | Fin q, PInf => signed_inf (Qsign q)
  | NInf, Fin q | Fin q, NInf => signed_inf (flip (Qsign q))
  | Fin p, Fin q => fin (p * q)
  end.

(** Division.  The single zero of the model is the positive one, so a
    non-zero finite number over zero is the infinity of its own sign. *)
Definition div (a b : number) : number :=
  match a, b with
  | NaN, _ | _, NaN => NaN
  | (PInf | NInf), (PInf | NInf) => NaN
  | PInf, Fin q => match Qsign q with Lt => NInf | _ => PInf end
  | NInf, Fin q => match Qsign q with Lt => PInf | _ => NInf end
  | Fin _, (PInf | NInf) => Fin 0
  | Fin p, Fin q =>
      match Qsign q with
      | Eq => signed_inf (Qsign p)
      | _ => fin (p / q)
      end
  end.

(** The relational operators; every comparison with [NaN] is false. *)
Definition ltb (a b : number) : bool :=
  match a, b with
  | NaN, _ | _, NaN => false
  | _, NInf => false
  | NInf, _ => true
  | PInf, _ => false
  | _, PInf => true
  | Fin p, Fin q => match p ?= q with Lt => true | _ => false end
  end.

Definition gtb (a b : number) : bool := ltb b a.

Definition leb (a b : number) : bool :=
  match a, b with
  | NaN, _ | _, NaN => false
  | NInf, _ => true
  | _, PInf => true
  | _, NInf => false
  | PInf, _ => false
  | Fin p, Fin q => match p ?= q with Gt => false | _ => true end
  end.

Definition geb (a b : number) : bool := leb b a.

(** Strict equality [===] on numbers. *)
Definition strictEq (a b : number) : bool :=
  match a, b with
  | PInf, PInf | NInf, NInf => true
  | Fin p, Fin q => Qeq_bool p q
  | _, _ => false
  end.

Module Math.

Definition max (a b : number) : number :=
  if isNaN a || isNaN b then NaN else if ltb a b then b else a.

Definition min (a b : number) : number :=
  if isNaN a || isNaN b then NaN else if ltb b a then b else a.

Definition floor (a : number) : number :=
  match a with
  | Fin q => Fin (inject_Z (Qfloor q))
  | _ => a
  end.

(** Square root of a rational, truncated to 64 binary digits after the
    point. *)
Definition Qsqrt (q : Q) : Q :=
  Z.sqrt (Qfloor (q * inject_Z (2 ^ 128))) # (2 ^ 64).

Definition sqrt (a : number) : number :=
  match a with
  | NaN | NInf => NaN
  | PInf => PInf
  | Fin q => match Qsign q with Lt => NaN | _ => fin (Qsqrt q) end
  end.

(** [Math.exp]: the special cases are fixed by ECMAScript, the value on a
    finite argument is whatever the engine's approximation gives. *)
Definition exp (exp_approx : Q -> Q) (a : number) : number :=
  match a with
  | NaN => NaN
  | PInf => PInf
  | NInf => Fin 0
  | Fin q => fin (exp_approx q)
  end.

End Math.

(** [a || d] for an optional number [a]: [undefined], [0] and [NaN] are
    falsy and give [d]. *)
Definition or_default (a : option number) (d : number) : number :=
  match a with
  | Some n => if truthy n then n else d
  | None => d
  end.

(** ToNumber of a property that is a number or absent. *)
Definition to_number (a : option number) : number :=
  match a with Some n => n | None => NaN end.

(** [Number.prototype.toFixed(1)]: sign, then the magnitude rounded to one
    decimal, ties away from zero.  (Magnitudes of 10^21 and more, which
    JavaScript prints in exponent form, do not occur: the callers format
    percentages.) *)
Definition digits (z : Z) : string := NilZero.string_of_uint (N.to_uint (Z.to_N z)).

Definition toFixed1 (a : number) : string :=
  match a with
  | NaN => "NaN"
  | PInf => "Infinity"
  | NInf => "-Infinity"
  | Fin q =>
      let n := Qfloor (Qabs q * 10 + (1 # 2)) in
      ((match Qsign q with Lt => "-" | _ => "" end)
         ++ digits (n / 10) ++ "." ++ digits (n mod 10))%string
  end.

(** [arr[i]] for a numeric index: [undefined] unless [i] is a natural
    number below the length. *)
Definition index {A : Type} (arr : list A) (i : number) : option A :=
  match i with
  | Fin q =>
      if Qeq_bool q (inject_Z (Qfloor q)) && (0 <=? Qfloor q)%Z
      then nth_error arr (Z.to_nat (Qfloor q))
      else None
  | _ => None
  end.

End JS.

(** ** Data model ([src/types]) *)

Module Types.
Import JS.

(** [interface PoseLandmark { x: number; y: number; z: number;
    visibility?: number }]. *)
Record PoseLandmark : Type := mkPoseLandmark {
  x : number;
  y : number;
  z : number;
  visibility : option number
}.

(** The comparison service checks its landmarks again at run time
    ([!landmark1], [typeof landmark1.x !== 'number']), so its arrays are
    taken as they may arrive: a slot holds [null]/[undefined] or an object
    whose properties are each a number or absent. *)
Record LandmarkObject : Type := mkLandmarkObject {
  prop_x : option number;
  prop_y : option number;
  prop_z : option number;
  prop_visibility : option number
}.

Definition slot : Type := option LandmarkObject.

Definition to_slot (l : PoseLandmark) : slot :=
  Some (mkLandmarkObject (Some (x l)) (Some (y l)) (Some (z l)) (visibility l)).

(** An argument declared as an array: an array, or a value ([null],
    [undefined]) for which [Array.isArray] is false and [!v] is true. *)
Inductive arg (A : Type) : Type :=
| NotArray
| Arr (elems : list A).
Arguments NotArray {A}.
Arguments Arr {A} elems.

Record TimestampedLandmarks : Type := mkTimestampedLandmarks {
  timestamp : number;
  landmarks : list slot
}.

Inductive DifficultyLevel : Type := soft | medium | hard.

Record ComparisonResult : Type := mkComparisonResult {
  isMatch : bool;
  score : number;
  feedback : list string;
  suggestions : list string
}.

(** [arr[i]] on an array of slots; out of range reads [undefined]. *)
Definition get (arr : list slot) (i : nat) : slot :=
  match nth_error arr i with
  | Some e => e
  | None => None
  end.

Definition includes (l : list nat) (i : nat) : bool := existsb (Nat.eqb i) l.

(** A slot that holds an object, not [null] or [undefined]. *)
Definition isObject (s : slot) : bool :=
  match s with Some _ => true | None => false end.

(** [TimestampedLandmarks] as its interface types it, for the code that
    does not test its landmarks again. *)
Module Typed.

Record TimestampedLandmarks : Type := mkTimestampedLandmarks {
  timestamp : number;
  landmarks : list PoseLandmark
}.

End Typed.

End Types.

(** ** JavaScript strings, maps and sorting *)

Module Text.

(** A string is the sequence of its UTF-16 code units. *)
Definition text : Type := list N.

(** A string literal of the source. *)
Definition lit (s : string) : text := map N_of_ascii (list_ascii_of_string s).

(** The code units [String.prototype.trim] strips: WhiteSpace and
    LineTerminator of ECMAScript. *)
Definition isWhiteSpace (c : N) : bool :=
  existsb (N.eqb c)
    [0x9; 0xA; 0xB; 0xC; 0xD; 0x20; 0xA0; 0x1680; 0x2028; 0x2029; 0x202F;
     0x205F; 0x3000; 0xFEFF]%N
  || ((0x2000 <=? c)%N && (c <=? 0x200A)%N).

Fixpoint trimStart (s : text) : text :=
  match s with
  | c :: rest => if isWhiteSpace c then trimStart rest else s
  | [] => []
  end.

Definition trimEnd (s : text) : text := rev (trimStart (rev s)).

Definition trim (s : text) : text := trimEnd (trimStart s).

(** [s.slice(0, n)]. *)
Definition slice0 (s : text) (n : nat) : text := firstn n s.

(** [a === b] on strings. *)
Fixpoint eqb (a b : text) : bool :=
  match a, b with
  | [], [] => true
  | c :: a', d :: b' => N.eqb c d && eqb a' b'
  | _, _ => false
  end.

(** A non-negative integer inside a template literal: its decimal digits
    (Number::toString prints integers below 10^21 so). *)
Definition of_N (n : N) : text := lit (NilZero.string_of_uint (N.to_uint n)).

(** The double quote, for the messages that contain one. *)
Definition quote : string := String (ascii_of_nat 34) EmptyString.

End Text.

(** [Map], in insertion order: [set] on a present key replaces the value in
    place, on a new key appends. *)
Module JSMap.
Import Text.

Section Map.

Variable V : Type.

Definition t : Type := list (text * V).

Definition has (key : text) (m : t) : bool :=
  existsb (fun entry => eqb (fst entry) key) m.

Definition get (key : text) (m : t) : option V :=
  match find (fun entry => eqb (fst entry) key) m with
  | Some entry => Some (snd entry)
  | None => None
  end.

Definition set (key : text) (value : V) (m : t) : t :=
  if has key m
  then map (fun entry => if eqb (fst entry) key then (key, value) else entry) m
  else m ++ [(key, value)].

Definition delete (key : text) (m : t) : t :=
  filter (fun entry => negb (eqb (fst entry) key)) m.

Definition values (m : t) : list V := map snd m.

End Map.

Arguments has {V} key m.
Arguments get {V} key m.
Arguments set {V} key value m.
Arguments delete {V} key m.
Arguments values {V} m.

End JSMap.

(** [Array.prototype.sort] with a comparator.  The sort is stable, so for a
    comparator that orders the elements consistently the result is the one
    stable arrangement, which insertion from the right computes: an element
    moves behind those it compares greater than ([comparefn a b > 0]). *)
Module JSArray.
Import JS.

Section Sort.

Variable A : Type.
Variable comparefn : A -> A -> number.

Fixpoint insert (a : A) (sorted : list A) : list A :=
  match sorted with
  | [] => [a]
  | b :: rest =>
      if gtb (comparefn a b) (Fin 0) then b :: insert a rest
      else a :: b :: rest
  end.

Definition sort (l : list A) : list A := fold_right insert [] l.

End Sort.

Arguments insert {A} comparefn a sorted.
Arguments sort {A} comparefn l.

End JSArray.

(** ** Activities ([src/types]) *)

Module Activities.
Import JS Types Text.

Inductive ActivityType : Type := pose | movement.

Module Metadata.

Record ActivityMetadata : Type := mkActivityMetadata {
  name : text;
  type : ActivityType;
  createdBy : text;
  duration : option number;
  isPublic : bool
}.

End Metadata.

(** An element of [landmarks: PoseLandmark[] | TimestampedLandmarks[]]:
    the service tells the two apart element by element, with
    ['timestamp' in item]. *)
Inductive Item : Type :=
| PoseItem (landmark : PoseLandmark)
| FrameItem (frame : Typed.TimestampedLandmarks).

(** A valid [Date], as its time value in milliseconds. *)
Definition Date : Type := Z.

Definition getTime (date : Date) : number := Fin (inject_Z date).

Record Activity : Type := mkActivity {
  id : text;
  type : ActivityType;
  name : text;
  createdBy : text;
  createdAt : Date;
  duration : option number;
  isPublic : bool;
  landmarks : list Item;
  poseData : option (list PoseLandmark);
  movementData : option (list Typed.TimestampedLandmarks)
}.

Record ActivityError : Type := mkActivityError {
  message : string;
  code : string
}.

(** A frame as [createMovementActivity] may receive it: it tests
    [typeof frame.timestamp] and [Array.isArray(frame.landmarks)] itself. *)
Record FrameObject : Type := mkFrameObject {
  prop_timestamp : option number;
  prop_landmarks : arg PoseLandmark
}.

End Activities.

(** ** [src/utils/constants.ts] *)

Module Constants.
Import JS Types.
Local Open Scope Q_scope.

Definition DIFFICULTY_THRESHOLDS (d : DifficultyLevel) : number :=
  match d with
  | soft => Fin 0.7
  | medium => Fin 0.8
  | hard => Fin 0.9
  end.

(** [ERROR_MESSAGES], as far as the services below use it. *)
Module ERROR_MESSAGES.

Definition MEDIAPIPE_INIT_FAILED : string :=
  "Failed to initialize pose detection. Please refresh and try again."%string.

Definition POSE_DETECTION_FAILED : string :=
  "Pose detection failed. Please ensure you are visible in the camera."%string.

End ERROR_MESSAGES.

End Constants.

(** ** [src/services/ComparisonService.ts] *)

Module ComparisonService.
Import JS Types Constants.
Local Open Scope Q_scope.
Local Open Scope string_scope.
Local Open Scope list_scope.

(** String concatenation, as in a template literal. *)
Local Infix "+++" := String.append (right associativity, at level 60).

(** A thrown exception is [None]; [try]/[catch] is a match on the result. *)
Definition bind {A B : Type} (m : option A) (k : A -> option B) : option B :=
  match m with
  | Some a => k a
  | None => None
  end.
Notation "'let*' p ':=' m 'in' k" := (bind m (fun p => k))
  (at level 10, p pattern, m at level 100, k at level 200).

Definition keyLandmarkIndices : list nat :=
  [0; 11; 12; 13; 14; 15; 16; 23; 24; 25; 26; 27; 28]%nat.

(** The body of the scoring loop down to its last [continue]: [None] when
    the pair is skipped, the Euclidean distance of the pair otherwise. *)
Definition pairDistance (landmark1 landmark2 : slot) : option number :=
  match landmark1, landmark2 with
  | Some l1, Some l2 =>
      match prop_x l1, prop_y l1, prop_z l1, prop_x l2, prop_y l2, prop_z l2 with
      | Some x1, Some y1, Some z1, Some x2, Some y2, Some z2 =>
          if isNaN x1 || isNaN y1 || isNaN z1 || isNaN x2 || isNaN y2 || isNaN z2
          then None
          else if ltb (or_default (prop_visibility l1) (Fin 1)) (Fin 0.3)
                  || ltb (or_default (prop_visibility l2) (Fin 1)) (Fin 0.3)
          then None
          else
            let dx := sub x1 x2 in
            let dy := sub y1 y2 in
            let dz := sub z1 z2 in
            let distance := Math.sqrt (add (add (mul dx dx) (mul dy dy)) (mul dz dz)) in
            if isNaN distance then None else Some distance
      | _, _, _, _, _, _ => None
      end
  | _, _ => None
  end.

Definition weightOf (i : nat) : number :=
  if includes keyLandmarkIndices i then Fin 2 else Fin 1.

(** One iteration: the pair [(totalDistance, validComparisons)] after
    index [i]. *)
Definition similarityStep (pose1 pose2 : list slot)
    (acc : number * number) (i : nat) : number * number :=
  match pairDistance (get pose1 i) (get pose2 i) with
  | None => acc
  | Some distance =>
      let weight := weightOf i in
      (add (fst acc) (mul distance weight), add (snd acc) weight)
  end.

Definition similarityLoop (pose1 pose2 : list slot) : number * number :=
  let minLength := Nat.min (List.length pose1) (List.length pose2) in
  fold_left (similarityStep pose1 pose2) (seq 0 minLength) (Fin 0, Fin 0).

Definition calculateSimilarityScore (pose1 pose2 : arg slot) : number :=
  match pose1, pose2 with
  | Arr p1, Arr p2 =>
      if (List.length p1 =? 0)%nat || (List.length p2 =? 0)%nat then Fin 0
      else
        let '(totalDistance, validComparisons) := similarityLoop p1 p2 in
        if strictEq validComparisons (Fin 0) then Fin 0
        else
          let averageDistance := div totalDistance validComparisons in
          let maxExpectedDistance := Fin 0.5 in
          let similarity :=
            Math.max (Fin 0) (sub (Fin 1) (div averageDistance maxExpectedDistance)) in
          Math.min (Fin 1) similarity
  | _, _ => Fin 0
  end.

(** *** Sequence alignment and temporal weighting *)

(** Run [f] over the indices [0 .. n-1] in order, stopping at the first
    exception. *)
Fixpoint forEach {A : Type} (f : nat -> option A) (indices : list nat)
    : option (list A) :=
  match indices with
  | [] => Some []
  | i :: rest =>
      let* a := f i in
      let* others := forEach f rest in
      Some (a :: others)
  end.

Definition normalizeSequenceLength (sequence : list TimestampedLandmarks)
    (targetLength : nat) : option (list TimestampedLandmarks) :=
  if (List.length sequence =? targetLength)%nat then Some sequence
  else
    let ratio := div (of_nat (List.length sequence)) (of_nat targetLength) in
    forEach
      (fun i =>
         let sourceIndex := Math.floor (mul (of_nat i) ratio) in
         let clampedIndex :=
           Math.min sourceIndex (sub (of_nat (List.length sequence)) (Fin 1)) in
         let* frame := index sequence clampedIndex in
         Some (mkTimestampedLandmarks (timestamp frame) (landmarks frame)))
      (seq 0 targetLength).

Section Temporal.

Variable exp_approx : Q -> Q.

(** The Gaussian weight of frame [i] among [length] frames. *)
Definition temporalWeight (length i : nat) : number :=
  let normalizedPosition :=
    sub (mul (div (of_nat i) (sub (of_nat length) (Fin 1))) (Fin 2)) (Fin 1) in
  Math.exp exp_approx (mul (neg (mul normalizedPosition normalizedPosition)) (Fin 2)).

Definition calculateTemporalScore (frameScores : list number) : number :=
  if (List.length frameScores =? 0)%nat then Fin 0
  else
    let length := List.length frameScores in
    let weights := map (temporalWeight length) (seq 0 length) in
    let '(weightedSum, totalWeight) :=
      fold_left
        (fun acc sw =>
           (add (fst acc) (mul (fst sw) (snd sw)), add (snd acc) (snd sw)))
        (combine frameScores weights) (Fin 0, Fin 0) in
    if gtb totalWeight (Fin 0) then div weightedSum totalWeight else Fin 0.

End Temporal.

(** *** Feedback *)

(** [frameScores.slice(from, to)] and [frameScores.slice(from)]. *)
Definition slice {A : Type} (l : list A) (from to : nat) : list A :=
  firstn (to - from) (skipn from l).

(** [.reduce((a, b) => a + b, 0)]. *)
Definition sum (l : list number) : number := fold_left add l (Fin 0).

(** [Math.floor(length / 3)] and [Math.floor(2 * length / 3)] are taken on
    a length, where they are the integer quotients (see
    [floor_div_of_nat] below). *)
Definition analyzeMovementPhases (frameScores : list number) : list string :=
  let length := List.length frameScores in
  if (length <? 3)%nat then []
  else
    let third := (length / 3)%nat in
    let twoThirds := (2 * length / 3)%nat in
    let beginningScore := div (sum (slice frameScores 0 third)) (of_nat third) in
    let middleScore :=
      div (sum (slice frameScores third twoThirds)) (of_nat third) in
    let endScore :=
      div (sum (skipn twoThirds frameScores))
          (sub (of_nat length) (of_nat twoThirds)) in
    (if ltb beginningScore (Fin 0.6) then ["Work on your starting position"] else [])
      ++ (if ltb middleScore (Fin 0.6)
          then ["Focus on the middle phase of the movement"] else [])
      ++ (if ltb endScore (Fin 0.6)
          then ["Pay attention to your ending position"] else []).

Definition percent (a : number) : string := toFixed1 (mul a (Fin 100)).

Definition generateMovementFeedback (frameScores : list number)
    (overallScore threshold : number) : list string :=
  (if geb overallScore threshold
   then "Excellent movement! Overall similarity: " +++ percent overallScore +++ "%"
   else "Movement similarity: " +++ percent overallScore
          +++ "% (target: " +++ percent threshold +++ "%)")
    :: analyzeMovementPhases frameScores.

Definition generateMovementSuggestions (recorded current : list TimestampedLandmarks)
    (difficulty : DifficultyLevel) : list string :=
  (if ltb (of_nat (List.length current)) (mul (of_nat (List.length recorded)) (Fin 0.8))
   then ["Try to complete the full movement sequence"]
   else if gtb (of_nat (List.length current)) (mul (of_nat (List.length recorded)) (Fin 1.2))
   then ["The movement seems too slow - try to match the target pace"]
   else [])
    ++ ["Focus on smooth, controlled movements";
        "Try to maintain consistent timing throughout the sequence"]
    ++ match difficulty with
       | hard => ["Pay attention to precise timing and form details"]
       | _ => []
       end.

(** The four landmark groups, in the order [Object.entries] yields them. *)
Definition bodyParts : list (string * list nat) :=
  [ ("head", [0; 1; 2; 3; 4; 5; 6; 7; 8; 9; 10]);
    ("arms", [11; 12; 13; 14; 15; 16; 17; 18; 19; 20; 21; 22]);
    ("torso", [11; 12; 23; 24]);
    ("legs", [23; 24; 25; 26; 27; 28; 29; 30; 31; 32]) ]%nat.

(** The inner loop [analyzeBodyPartDifferences] and [findMajorDifferences]
    both run over one group: the summed distance and the count of the
    landmarks compared.  Reading a property of a [null] slot throws. *)
Definition partStep (recorded current : list slot) (minLength : nat)
    (acc : number * number) (idx : nat) : option (number * number) :=
  if (idx <? minLength)%nat then
    let* landmark1 := get recorded idx in
    if geb (or_default (prop_visibility landmark1) (Fin 1)) (Fin 0.5) then
      let* landmark2 := get current idx in
      if geb (or_default (prop_visibility landmark2) (Fin 1)) (Fin 0.5) then
        let dx := sub (to_number (prop_x landmark1)) (to_number (prop_x landmark2)) in
        let dy := sub (to_number (prop_y landmark1)) (to_number (prop_y landmark2)) in
        let dz := sub (to_number (prop_z landmark1)) (to_number (prop_z landmark2)) in
        Some (add (fst acc)
                  (Math.sqrt (add (add (mul dx dx) (mul dy dy)) (mul dz dz))),
              add (snd acc) (Fin 1))
      else Some acc
    else Some acc
  else Some acc.

Fixpoint partLoop (recorded current : list slot) (minLength : nat)
    (indices : list nat) (acc : number * number) : option (number * number) :=
  match indices with
  | [] => Some acc
  | idx :: rest =>
      let* acc' := partStep recorded current minLength acc idx in
      partLoop recorded current minLength rest acc'
  end.

(** Whether a group's average distance exceeds 0.15; [false] when no
    landmark of the group was compared. *)
Definition partDiffers (recorded current : list slot) (indices : list nat)
    : option bool :=
  let minLength := Nat.min (List.length recorded) (List.length current) in
  let* (partDistance, validComparisons) :=
    partLoop recorded current minLength indices (Fin 0, Fin 0) in
  if gtb validComparisons (Fin 0)
  then Some (gtb (div partDistance validComparisons) (Fin 0.15))
  else Some false.

Definition toUpperCase (c : ascii) : ascii :=
  let n := nat_of_ascii c in
  if (97 <=? n)%nat && (n <=? 122)%nat then ascii_of_nat (n - 32) else c.

(** [partName.charAt(0).toUpperCase() + partName.slice(1)]. *)
Definition capitalize (s : string) : string :=
  match s with
  | EmptyString => EmptyString
  | String c rest => String (toUpperCase c) rest
  end.

Fixpoint analyzeParts (recorded current : list slot)
    (parts : list (string * list nat)) : option (list string) :=
  match parts with
  | [] => Some []
  | (partName, indices) :: rest =>
      let* differs := partDiffers recorded current indices in
      let* others := analyzeParts recorded current rest in
      Some ((if differs
             then [capitalize partName +++ " positioning needs adjustment"]
             else []) ++ others)
  end.

Definition analyzeBodyPartDifferences (recorded current : list slot)
    : option (list string) :=
  analyzeParts recorded current bodyParts.

Record Differences : Type := mkDifferences {
  arms : bool;
  legs : bool;
  torso : bool;
  head : bool
}.

Definition groupIndices (name : string) : list nat :=
  match find (fun p => String.eqb (fst p) name) bodyParts with
  | Some p => snd p
  | None => []
  end.

Definition findMajorDifferences (recorded current : list slot)
    : option Differences :=
  let* h := partDiffers recorded current (groupIndices "head") in
  let* a := partDiffers recorded current (groupIndices "arms") in
  let* t := partDiffers recorded current (groupIndices "torso") in
  let* l := partDiffers recorded current (groupIndices "legs") in
  Some (mkDifferences a l t h).

Definition generatePoseFeedback (recorded current : list slot)
    (score threshold : number) : option (list string) :=
  let headline :=
    if geb score threshold
    then "Great job! Pose similarity: " +++ percent score +++ "%"
    else "Pose similarity: " +++ percent score
           +++ "% (target: " +++ percent threshold +++ "%)" in
  let* bodyPartFeedback := analyzeBodyPartDifferences recorded current in
  Some (headline :: bodyPartFeedback).

Definition generatePoseSuggestions (recorded current : list slot)
    (difficulty : DifficultyLevel) : option (list string) :=
  let* differences := findMajorDifferences recorded current in
  let suggestions :=
    (if arms differences
     then ["Adjust your arm position to match the target pose"] else [])
      ++ (if legs differences
          then ["Check your leg positioning and stance"] else [])
      ++ (if torso differences
          then ["Align your torso and spine position"] else [])
      ++ (if head differences
          then ["Adjust your head position and gaze direction"] else [])
      ++ match difficulty with
         | hard => ["Focus on precise positioning - small adjustments matter"]
         | soft => ["Get the general pose shape right - precision will come with practice"]
         | medium => []
         end in
  Some (match suggestions with
        | [] => ["Keep practicing to improve your pose accuracy"]
        | _ => suggestions
        end).

(** *** The two comparisons *)

Section Orchestration.

(** [this.calculateSimilarityScore], as the two methods call it. *)
Variable scoreOf : arg slot -> arg slot -> number.

Definition comparePosesWith (recorded current : arg slot)
    (difficulty : DifficultyLevel) : ComparisonResult :=
  match recorded, current with
  | Arr r, Arr c =>
      if (List.length r =? 0)%nat || (List.length c =? 0)%nat then
        mkComparisonResult false (Fin 0)
          ["Missing pose landmarks"] ["Ensure pose is detected properly"]
      else
        let attempt :=
          let score := scoreOf (Arr r) (Arr c) in
          let threshold := DIFFICULTY_THRESHOLDS difficulty in
          let isMatch := geb score threshold in
          let* feedback := generatePoseFeedback r c score threshold in
          let* suggestions := generatePoseSuggestions r c difficulty in
          Some (mkComparisonResult isMatch score feedback suggestions) in
        match attempt with
        | Some result => result
        | None =>
            mkComparisonResult false (Fin 0)
              ["Error comparing poses"]
              ["Try again with better lighting and pose visibility"]
        end
  | _, _ =>
      mkComparisonResult false (Fin 0)
        ["Invalid pose data provided"]
        ["Ensure both poses have valid landmark data"]
  end.

Variable exp_approx : Q -> Q.

Definition compareMovementSequenceWith
    (recorded current : arg TimestampedLandmarks)
    (difficulty : DifficultyLevel) : ComparisonResult :=
  match recorded, current with
  | Arr r, Arr c =>
      if (List.length r =? 0)%nat || (List.length c =? 0)%nat then
        mkComparisonResult false (Fin 0)
          ["Missing movement data"] ["Complete the full movement sequence"]
      else
        let attempt :=
          let* normalizedRecorded := normalizeSequenceLength r (List.length c) in
          let* normalizedCurrent := normalizeSequenceLength c (List.length r) in
          let minLength :=
            Nat.min (List.length normalizedRecorded) (List.length normalizedCurrent) in
          let* frameScores :=
            forEach
              (fun i =>
                 let* frame1 := nth_error normalizedRecorded i in
                 let* frame2 := nth_error normalizedCurrent i in
                 Some (scoreOf (Arr (landmarks frame1)) (Arr (landmarks frame2))))
              (seq 0 minLength) in
          let overallScore := calculateTemporalScore exp_approx frameScores in
          let threshold := DIFFICULTY_THRESHOLDS difficulty in
          let isMatch := geb overallScore threshold in
          let feedback := generateMovementFeedback frameScores overallScore threshold in
          let suggestions := generateMovementSuggestions r c difficulty in
          Some (mkComparisonResult isMatch overallScore feedback suggestions) in
        match attempt with
        | Some result => result
        | None =>
            mkComparisonResult false (Fin 0)
              ["Error comparing movement sequences"]
              ["Try performing the movement more slowly and clearly"]
        end
  | _, _ =>
      mkComparisonResult false (Fin 0)
        ["Invalid movement data provided"]
        ["Ensure both movements have valid sequence data"]
  end.

End Orchestration.

Definition comparePoses : arg slot -> arg slot -> DifficultyLevel -> ComparisonResult :=
  comparePosesWith calculateSimilarityScore.

Definition compareMovementSequence (exp_approx : Q -> Q)
    : arg TimestampedLandmarks -> arg TimestampedLandmarks ->
      DifficultyLevel -> ComparisonResult :=
  compareMovementSequenceWith calculateSimilarityScore exp_approx.

End ComparisonService.

(** ** [src/services/MediaPipeService.ts] *)

Module MediaPipeService.
Import JS Types Constants.
Local Open Scope Q_scope.
Local Open Scope string_scope.
Local Open Scope list_scope.

Definition normalizeLandmark (landmark : PoseLandmark) : PoseLandmark :=
  {| x := Math.max (Fin 0) (Math.min (Fin 1) (x landmark));
     y := Math.max (Fin 0) (Math.min (Fin 1) (y landmark));
     z := z landmark;
     visibility :=
       match visibility landmark with
       | Some v => Some (Math.max (Fin 0) (Math.min (Fin 1) v))
       | None => None
       end |}.

Record PoseQuality : Type := mkPoseQuality {
  isValid : bool;
  issues : list string
}.

Definition keyLandmarkIndices : list nat := [0; 11; 12; 23; 24]%nat.

(** [keyLandmarkIndices.filter(index => landmark && (landmark.visibility
    === undefined || landmark.visibility < 0.5))]. *)
Definition lowVisibilityLandmarks (landmarks : list PoseLandmark) : list nat :=
  filter
    (fun idx =>
       match nth_error landmarks idx with
       | Some landmark =>
           match visibility landmark with
           | None => true
           | Some v => ltb v (Fin 0.5)
           end
       | None => false
       end)
    keyLandmarkIndices.

Definition invalidCoords (landmarks : list PoseLandmark) : list PoseLandmark :=
  filter
    (fun landmark =>
       ltb (x landmark) (Fin 0) || gtb (x landmark) (Fin 1)
       || ltb (y landmark) (Fin 0) || gtb (y landmark) (Fin 1))
    landmarks.

Definition string_of_nat (n : nat) : string :=
  NilZero.string_of_uint (Nat.to_uint n).

Definition validatePoseQuality (landmarks : list PoseLandmark) : PoseQuality :=
  if (List.length landmarks =? 0)%nat
  then mkPoseQuality false ["No landmarks detected"]
  else
    let issues :=
      (if negb (List.length landmarks =? 33)%nat
       then [String.append "Expected 33 landmarks, got "
               (string_of_nat (List.length landmarks))]
       else [])
        ++ (if (2 <? List.length (lowVisibilityLandmarks landmarks))%nat
            then ["Too many key landmarks have low visibility"] else [])
        ++ (if (0 <? List.length (invalidCoords landmarks))%nat
            then ["Some landmarks have invalid coordinates"] else []) in
    mkPoseQuality (List.length issues =? 0)%nat issues.

(** *** Detection results

    [PoseLandmarkerResult] of the detector: one landmark list per detected
    pose, or no [landmarks] field at all. *)
Module Detection.

Record PoseLandmarkerResult : Type := mkPoseLandmarkerResult {
  landmarks : option (list (list PoseLandmark))
}.

End Detection.

(** The first pose of the result, every landmark normalized; an absent or
    empty [landmarks] gives the empty list. *)
Definition extractLandmarks (result : Detection.PoseLandmarkerResult)
    : list PoseLandmark :=
  match Detection.landmarks result with
  | None => []
  | Some [] => []
  | Some (landmarks :: _) =>
      map (fun landmark =>
             normalizeLandmark
               (mkPoseLandmark (x landmark) (y landmark) (z landmark)
                               (visibility landmark)))
          landmarks
  end.

(** [landmarks.map(l => l.visibility || 0).filter(v => v > 0)], averaged. *)
Definition getPoseConfidence (landmarks : list PoseLandmark) : number :=
  if (List.length landmarks =? 0)%nat then Fin 0
  else
    let visibilityScores :=
      filter (fun visibility => gtb visibility (Fin 0))
             (map (fun landmark => or_default (visibility landmark) (Fin 0))
                  landmarks) in
    if (List.length visibilityScores =? 0)%nat then Fin 0
    else div (fold_left add visibilityScores (Fin 0))
             (of_nat (List.length visibilityScores)).

(** *** Recorded movement sequences *)
Module Sequence.

Record Stats : Type := mkStats {
  totalFrames : nat;
  duration : number;
  averageConfidence : number;
  frameRate : number
}.

Record Quality : Type := mkQuality {
  isValid : bool;
  issues : list string;
  stats : Stats
}.

(** The loop [for (i = 1; i < sequence.length; i++)] that collects the
    gaps of more than 200 ms between consecutive frames. *)
Fixpoint timeGaps (sequence : list Typed.TimestampedLandmarks) : list number :=
  match sequence with
  | previous :: (current :: _) as rest =>
      let gap := sub (Typed.timestamp current) (Typed.timestamp previous) in
      (if gtb gap (Fin 200) then [gap] else []) ++ timeGaps rest
  | _ => []
  end.

Definition validateMovementSequence (sequence : list Typed.TimestampedLandmarks) : Quality :=
  match sequence with
  | [] =>
      mkQuality false ["No movement data recorded"]
                (mkStats 0 (Fin 0) (Fin 0) (Fin 0))
  | first :: _ =>
      let totalFrames := List.length sequence in
      let duration := sub (Typed.timestamp (last sequence first)) (Typed.timestamp first) in
      let frameRate := div (of_nat totalFrames) (div duration (Fin 1000)) in
      let confidenceScores :=
        map (fun frame => getPoseConfidence (Typed.landmarks frame)) sequence in
      let averageConfidence :=
        div (fold_left add confidenceScores (Fin 0))
            (of_nat (List.length confidenceScores)) in
      let issues :=
        (if ltb duration (Fin 1000)
         then ["Movement sequence too short (minimum 1 second)"] else [])
          ++ (if ltb frameRate (Fin 10)
              then ["Frame rate too low for smooth movement tracking"] else [])
          ++ (if ltb averageConfidence (Fin 0.5)
              then ["Average pose confidence too low"] else [])
          ++ (if gtb (of_nat (List.length (timeGaps sequence)))
                     (mul (of_nat (List.length sequence)) (Fin 0.1))
              then ["Too many gaps in movement tracking"] else []) in
      mkQuality (List.length issues =? 0)%nat issues
                (mkStats totalFrames duration averageConfidence frameRate)
  end.

End Sequence.

(** *** Calls into the detector library and the browser

    What the service does not compute itself is an input of the model: what
    loading the detector, a detection or a caller's callback answers. *)

Record MediaPipeError : Type := mkMediaPipeError {
  message : string;
  code : string
}.

(** A thrown value: an instance of [MediaPipeError]; another [Error], with
    its [message] and its [String()]; or anything else, with its
    [String()]. *)
Inductive thrown : Type :=
| OwnError (error : MediaPipeError)
| ErrorObject (message text : string)
| OtherValue (text : string).

Inductive answer (A : Type) : Type :=
| Returns (value : A)
| Throws (error : thrown).
Arguments Returns {A} value.
Arguments Throws {A} error.

(** [error instanceof Error ? error.message : "Unknown error"]. *)
Definition messageOf (error : thrown) : string :=
  match error with
  | OwnError e => message e
  | ErrorObject m _ => m
  | OtherValue _ => "Unknown error"
  end.

(** How a promise stands: settled one way or the other, or still pending. *)
Inductive promise (A : Type) : Type :=
| Resolved (value : A)
| Rejected (error : MediaPipeError)
| Pending.
Arguments Resolved {A} value.
Arguments Rejected {A} error.
Arguments Pending {A}.

(** The service's state is whether its detector is there
    ([poseLandmarker] set and [isInitialized]); [load] is what fetching the
    library and creating the detector answers. *)
Definition initializePoseLandmarker (load : answer unit) (initialized : bool)
    : promise unit * bool :=
  if initialized then (Resolved tt, true)
  else
    match load with
    | Returns _ => (Resolved tt, true)
    | Throws error =>
        (Rejected
           (mkMediaPipeError
              (ERROR_MESSAGES.MEDIAPIPE_INIT_FAILED ++ ": " ++ messageOf error)
              "INIT_FAILED"),
         false)
    end.

(** The [catch] of the two detection methods. *)
Definition detectionFailed {A : Type} (error : thrown) : promise A :=
  Rejected
    (mkMediaPipeError
       (ERROR_MESSAGES.POSE_DETECTION_FAILED ++ ": " ++ messageOf error)
       "DETECTION_FAILED").

(** [detect] is what [detectForVideo] answers: a result, [null], or a
    throw. *)
Definition detectPoseFromVideo (load : answer unit)
    (detect : answer (option Detection.PoseLandmarkerResult))
    (initialized : bool)
    : promise Detection.PoseLandmarkerResult * bool :=
  match initializePoseLandmarker load initialized with
  | (Rejected error, initialized') => (Rejected error, initialized')
  | (_, initialized') =>
      (match detect with
       | Throws error => detectionFailed error
       | Returns None =>
           detectionFailed
             (OwnError (mkMediaPipeError ERROR_MESSAGES.POSE_DETECTION_FAILED
                                         "DETECTION_FAILED"))
       | Returns (Some result) => Resolved result
       end,
       initialized')
  end.

Definition detectSinglePose (load : answer unit) (readyState : number)
    (detect : answer (option Detection.PoseLandmarkerResult))
    (initialized : bool)
    : promise Detection.PoseLandmarkerResult * bool :=
  match initializePoseLandmarker load initialized with
  | (Rejected error, initialized') => (Rejected error, initialized')
  | (_, initialized') =>
      (if ltb readyState (Fin 2)
       then detectionFailed
              (OwnError (mkMediaPipeError "Video not ready for pose detection"
                                          "VIDEO_NOT_READY"))
       else
         match detect with
         | Throws error => detectionFailed error
         | Returns None =>
             detectionFailed
               (OwnError (mkMediaPipeError ERROR_MESSAGES.POSE_DETECTION_FAILED
                                           "DETECTION_FAILED"))
         | Returns (Some result) =>
             match Detection.landmarks result with
             | None | Some [] =>
                 detectionFailed
                   (OwnError (mkMediaPipeError "No pose detected in video frame"
                                               "NO_POSE_DETECTED"))
             | Some (_ :: _) => Resolved result
             end
         end,
       initialized')
  end.

(** [dispose]. *)
Definition dispose (initialized : bool) : bool := false.

(** *** Movement tracking

    [startMovementTracking] installs [trackFrame] as the animation-frame
    callback.  One call of the callback is a [Tick]: the time it is called
    with, what the detector answers if it is asked, and what [onProgress]
    does if it is called.  The callbacks [onPoseDetected], [onComplete] and
    [onError] act on the caller's state and return, as those of
    [recordMovementSequence] do; [onProgress] is the caller's own and may
    throw. *)

Record Tick : Type := mkTick {
  currentTime : number;
  detected : answer (option Detection.PoseLandmarkerResult);
  progress : answer unit
}.

Record Tracker : Type := mkTracker {
  isTracking : bool;
  lastFrameTime : number
}.

Section Tracking.

Variable S : Type.
Variable onPoseDetected : list PoseLandmark -> number -> S -> S.
Variable hasProgress : bool.
Variable onComplete : S -> S.
Variable onError : MediaPipeError -> S -> S.

Variable startTime : number.
Variable duration : number.
Variable frameRate : number.

(** The [catch] of [trackFrame]. *)
Definition trackingFailed (error : thrown) (tracker : Tracker) (caller : S)
    : Tracker * S :=
  (mkTracker false (lastFrameTime tracker),
   onError
     (match error with
      | OwnError e => e
      | ErrorObject _ text | OtherValue text =>
          mkMediaPipeError ("Movement tracking failed: " ++ text)
                           "TRACKING_FAILED"
      end)
     caller).

(** [result && result.landmarks && result.landmarks.length > 0]. *)
Definition hasPose (result : option Detection.PoseLandmarkerResult) : bool :=
  match result with
  | Some r =>
      match Detection.landmarks r with
      | Some (_ :: _) => true
      | _ => false
      end
  | None => false
  end.

Definition trackFrame (tick : Tick) (state : Tracker * S) : Tracker * S :=
  let (tracker, caller) := state in
  let frameInterval := div (Fin 1000) frameRate in
  if negb (isTracking tracker) then state
  else if ltb (sub (currentTime tick) (lastFrameTime tracker)) frameInterval
  then state
  else
    let tracker := mkTracker (isTracking tracker) (currentTime tick) in
    let elapsed := sub (currentTime tick) startTime in
    if geb elapsed duration
    then (mkTracker false (lastFrameTime tracker), onComplete caller)
    else
      match detected tick with
      | Throws error => trackingFailed error tracker caller
      | Returns result =>
          let caller :=
            match result with
            | Some r =>
                if hasPose result
                then onPoseDetected (extractLandmarks r) elapsed caller
                else caller
            | None => caller
            end in
          if hasProgress
          then
            match progress tick with
            | Returns _ => (tracker, caller)
            | Throws error => trackingFailed error tracker caller
            end
          else (tracker, caller)
      end.

(** The stop function [startMovementTracking] returns. *)
Definition stopTracking (state : Tracker * S) : Tracker * S :=
  (mkTracker false (lastFrameTime (fst state)), snd state).

End Tracking.

(** [recordMovementSequence]: the caller's state is the sequence recorded
    so far and the promise it returned. *)
Record Recording : Type := mkRecording {
  sequence : list Typed.TimestampedLandmarks;
  returned : promise (list Typed.TimestampedLandmarks)
}.

(** [{ frameRate = 30, onProgress, minPoseConfidence = 0.5 } = options]. *)
Record RecordingOptions : Type := mkRecordingOptions {
  frameRate : option number;
  onProgress : bool;
  minPoseConfidence : option number
}.

Definition orDefault (a : option number) (d : number) : number :=
  match a with
  | Some v => v
  | None => d
  end.

Definition recordPose (minPoseConfidence : number)
    (landmarks : list PoseLandmark) (timestamp : number)
    (recording : Recording) : Recording :=
  let confidence := getPoseConfidence landmarks in
  if geb confidence minPoseConfidence
  then
    mkRecording
      (sequence recording
         ++ [Typed.mkTimestampedLandmarks timestamp
               (map (fun l => mkPoseLandmark (x l) (y l) (z l) (visibility l))
                    landmarks)])
      (returned recording)
  else recording.

(** A promise settles once. *)
Definition settle {A : Type} (p result : promise A) : promise A :=
  match p with
  | Pending => result
  | _ => p
  end.

(** [onComplete] and [onError] as [recordMovementSequence] passes them:
    [resolve(sequence)] and [reject(error)]. *)
Definition resolveSequence (recording : Recording) : Recording :=
  mkRecording (sequence recording)
              (settle (returned recording) (Resolved (sequence recording))).

Definition rejectWith (error : MediaPipeError) (recording : Recording) : Recording :=
  mkRecording (sequence recording) (settle (returned recording) (Rejected error)).

(** [trackFrame] with the callbacks and options of
    [recordMovementSequence]. *)
Definition recordFrame (startTime : number) (duration : option number)
    (options : RecordingOptions) (state : Tracker * Recording) (tick : Tick)
    : Tracker * Recording :=
  trackFrame Recording
    (recordPose (orDefault (minPoseConfidence options) (Fin 0.5)))
    (onProgress options) resolveSequence rejectWith startTime
    (orDefault duration (Fin 30000))
    (orDefault (frameRate options) (Fin 30))
    tick state.

(** The promise [recordMovementSequence] returned, after the animation
    frames [ticks]; [startTime] is what [performance.now()] read. *)
Definition recordMovementSequence (load : answer unit) (startTime : number)
    (duration : option number) (options : RecordingOptions)
    (ticks : list Tick) (initialized : bool)
    : promise (list Typed.TimestampedLandmarks) * bool :=
  match initializePoseLandmarker load initialized with
  | (Rejected error, initialized') => (Rejected error, initialized')
  | (_, initialized') =>
      (returned
         (snd (fold_left (recordFrame startTime duration options) ticks
                         (mkTracker true (Fin 0), mkRecording [] Pending))),
       initialized')
  end.

End MediaPipeService.

(** ** [src/utils/validation.ts] *)

Module Validation.
Import JS Types.

Definition normalizePoseData (landmarks : list PoseLandmark) : list PoseLandmark :=
  map
    (fun landmark =>
       {| x := Math.max (Fin 0) (Math.min (Fin 1) (x landmark));
          y := Math.max (Fin 0) (Math.min (Fin 1) (y landmark));
          z := z landmark;
          visibility :=
            match visibility landmark with
            | Some v => Some (Math.max (Fin 0) (Math.min (Fin 1) v))
            | None => None
            end |})
    landmarks.

(** [validatePoseLandmark]: an object whose [x], [y] and [z] are numbers
    (its [visibility] is a number or absent in every [LandmarkObject]). *)
Definition validatePoseLandmark (landmark : slot) : bool :=
  match landmark with
  | None => false
  | Some l =>
      match prop_x l, prop_y l, prop_z l with
      | Some _, Some _, Some _ => true
      | _, _, _ => false
      end
  end.

Definition validatePoseLandmarks (landmarks : arg slot) : bool :=
  match landmarks with
  | Arr elems => forallb validatePoseLandmark elems
  | NotArray => false
  end.

Module PoseData.

Record Validity : Type := mkValidity {
  isValid : bool;
  errors : list string
}.

End PoseData.

(** The [forEach] of [validatePoseData]: one error for each landmark that
    fails [validatePoseLandmark], in index order. *)
Fixpoint invalidLandmarks (landmarks : list slot) (index : nat) : list string :=
  match landmarks with
  | [] => []
  | landmark :: rest =>
      (if negb (validatePoseLandmark landmark)
       then [String.append "Invalid landmark at index "
               (MediaPipeService.string_of_nat index)]
       else [])
        ++ invalidLandmarks rest (S index)
  end.

Definition validatePoseData (landmarks : arg slot) : PoseData.Validity :=
  match landmarks with
  | NotArray => PoseData.mkValidity false ["Landmarks must be an array"%string]
  | Arr elems =>
      if (List.length elems =? 0)%nat
      then PoseData.mkValidity false ["Landmarks array cannot be empty"%string]
      else
        let errors :=
          invalidLandmarks elems 0
            ++ (if negb (List.length elems =? 33)%nat
                then [String.append "Expected 33 landmarks for complete pose, got "
                        (MediaPipeService.string_of_nat (List.length elems))]
                else []) in
        PoseData.mkValidity (List.length errors =? 0)%nat errors
  end.

(** The guards below are applied to values of their declared types, for
    which the [typeof], [instanceof] and [Array.isArray] tests hold; what
    they still decide is whether the strings are blank. *)
Definition validateActivityMetadata
    (metadata : Activities.Metadata.ActivityMetadata) : bool :=
  (0 <? List.length (Text.trim (Activities.Metadata.name metadata)))%nat
  && (0 <? List.length (Text.trim (Activities.Metadata.createdBy metadata)))%nat.

Definition validateActivity (activity : Activities.Activity) : bool :=
  (0 <? List.length (Text.trim (Activities.id activity)))%nat
  && (0 <? List.length (Text.trim (Activities.name activity)))%nat
  && (0 <? List.length (Text.trim (Activities.createdBy activity)))%nat.

Definition sanitizeActivityName (name : Text.text) : Text.text :=
  Text.slice0 (Text.trim name) 100.

Definition isValidDifficulty (difficulty : Text.text) : bool :=
  existsb (Text.eqb difficulty)
    [Text.lit "soft"; Text.lit "medium"; Text.lit "hard"].

End Validation.

(** ** [src/services/ActivityService.ts]

    The service keeps its activities in a [Map] and numbers them with a
    counter; its methods are state transformers over the two fields.  Each
    method runs to its end without yielding before its last effect, so a call
    is one step.  Arguments are values of their declared types (array-ness
    and the frame structure, which the methods test themselves, apart); on
    them no exception other than the [ActivityError]s below arises, so every
    [catch] rethrows. *)

Module ActivityService.
Import JS Types Text Activities Validation.
Local Open Scope string_scope.
Local Open Scope list_scope.

Record Service : Type := mkService {
  activities : JSMap.t Activity;
  nextId : N
}.

(** [new ActivityService()]. *)
Definition initial : Service := mkService [] 1.

(** A promise settles: it resolves with a value or rejects with an error. *)
Inductive outcome (A : Type) : Type :=
| Resolved (value : A)
| Rejected (error : ActivityError).
Arguments Resolved {A} value.
Arguments Rejected {A} error.

Definition M (A : Type) : Type := Service -> outcome A * Service.

Definition ret {A : Type} (value : A) : M A := fun this => (Resolved value, this).

Definition throw {A : Type} (message code : string) : M A :=
  fun this => (Rejected (mkActivityError message code), this).

Definition bind {A B : Type} (m : M A) (k : A -> M B) : M B :=
  fun this =>
    match m this with
    | (Resolved value, this') => k value this'
    | (Rejected error, this') => (Rejected error, this')
    end.

Notation "x <- m ;; k" := (bind m (fun x => k))
  (at level 61, m at next level, right associativity).

(** [n + 1] on a double: exact below 2^53, where the sum rounds back. *)
Definition increment (n : N) : N := if (n <? 2 ^ 53)%N then (n + 1)%N else n.

(** [this.nextId++]. *)
Definition postIncrement : M N :=
  fun this =>
    (Resolved (nextId this), mkService (activities this) (increment (nextId this))).

(** The copy [saveActivity] stores and [getActivityById] returns. *)
Definition copyItem (item : Item) : Item :=
  match item with
  | FrameItem frame =>
      FrameItem (Typed.mkTimestampedLandmarks (Typed.timestamp frame) (Typed.landmarks frame))
  | PoseItem landmark =>
      PoseItem (mkPoseLandmark (x landmark) (y landmark) (z landmark)
                               (visibility landmark))
  end.

Definition copy (activity : Activity) : Activity :=
  mkActivity (id activity) (type activity) (name activity) (createdBy activity)
             (createdAt activity) (duration activity) (isPublic activity)
             (map copyItem (landmarks activity))
             (poseData activity) (movementData activity).

Definition saveActivity (activity : Activity) : M unit :=
  if negb (validateActivity activity)
  then throw "Activity validation failed" "VALIDATION_FAILED"
  else
    fun this =>
      (Resolved tt,
       mkService (JSMap.set (id activity) (copy activity) (activities this))
                 (nextId this)).

(** [now] is what [new Date()] reads. *)
Definition createPoseActivity (now : Date) (landmarks : arg PoseLandmark)
    (metadata : Metadata.ActivityMetadata) : M text :=
  match landmarks with
  | NotArray => throw "Invalid landmarks data" "INVALID_LANDMARKS"
  | Arr elems =>
      if (List.length elems =? 0)%nat
      then throw "Invalid landmarks data" "INVALID_LANDMARKS"
      else if negb (validateActivityMetadata metadata)
      then throw "Invalid activity metadata" "INVALID_METADATA"
      else
        match Metadata.type metadata with
        | movement =>
            throw ("Activity type must be " ++ quote ++ "pose" ++ quote
                     ++ " for pose activities") "INVALID_TYPE"
        | pose =>
            n <- postIncrement ;;
            let activityId := (lit "pose_" ++ of_N n)%list in
            let activity :=
              mkActivity activityId pose (Metadata.name metadata)
                         (Metadata.createdBy metadata) now None
                         (Metadata.isPublic metadata)
                         (map PoseItem elems) None None in
            if negb (validateActivity activity)
            then throw "Created activity failed validation" "VALIDATION_FAILED"
            else
              _ <- saveActivity activity ;;
              ret activityId
        end
  end.

(** The structure test of [createMovementActivity] on one frame, and the
    frame it stores for a frame that passes. *)
Definition checkedFrame (frame : FrameObject) : option Typed.TimestampedLandmarks :=
  match prop_timestamp frame, prop_landmarks frame with
  | Some timestamp, Arr landmarks =>
      Some (Typed.mkTimestampedLandmarks timestamp landmarks)
  | _, _ => None
  end.

Fixpoint checkedFrames (landmarkSequence : list FrameObject)
    : option (list Typed.TimestampedLandmarks) :=
  match landmarkSequence with
  | [] => Some []
  | frame :: rest =>
      match checkedFrame frame, checkedFrames rest with
      | Some f, Some fs => Some (f :: fs)
      | _, _ => None
      end
  end.

Definition createMovementActivity (now : Date)
    (landmarkSequence : arg FrameObject)
    (metadata : Metadata.ActivityMetadata) : M text :=
  match landmarkSequence with
  | NotArray => throw "Invalid landmark sequence data" "INVALID_SEQUENCE"
  | Arr elems =>
      if (List.length elems =? 0)%nat
      then throw "Invalid landmark sequence data" "INVALID_SEQUENCE"
      else if negb (validateActivityMetadata metadata)
      then throw "Invalid activity metadata" "INVALID_METADATA"
      else
        match Metadata.type metadata with
        | pose =>
            throw ("Activity type must be " ++ quote ++ "movement" ++ quote
                     ++ " for movement activities") "INVALID_TYPE"
        | movement =>
            match checkedFrames elems with
            | None =>
                throw "Invalid landmark sequence structure"
                      "INVALID_SEQUENCE_STRUCTURE"
            | Some frames =>
                n <- postIncrement ;;
                let activityId := (lit "movement_" ++ of_N n)%list in
                let activity :=
                  mkActivity activityId movement (Metadata.name metadata)
                             (Metadata.createdBy metadata) now
                             (Metadata.duration metadata)
                             (Metadata.isPublic metadata)
                             (map FrameItem frames) None None in
                if negb (validateActivity activity)
                then throw "Created activity failed validation" "VALIDATION_FAILED"
                else
                  _ <- saveActivity activity ;;
                  ret activityId
            end
        end
  end.

(** [(a, b) => b.createdAt.getTime() - a.createdAt.getTime()]. *)
Definition newestFirst (a b : Activity) : number :=
  sub (getTime (createdAt b)) (getTime (createdAt a)).

Definition getActivities : M (list Activity) :=
  fun this =>
    ret (JSArray.sort newestFirst
           (filter (fun activity => isPublic activity)
                   (JSMap.values (activities this)))) this.

Definition getActivityById (id : text) : M Activity :=
  if (List.length id =? 0)%nat
  then throw "Invalid activity ID" "INVALID_ID"
  else
    fun this =>
      match JSMap.get id (activities this) with
      | None => throw "Activity not found" "NOT_FOUND" this
      | Some activity => ret (copy activity) this
      end.

Definition getActivitiesByCreator (createdBy : text) : M (list Activity) :=
  fun this =>
    ret (JSArray.sort newestFirst
           (filter (fun activity => eqb (Activities.createdBy activity) createdBy)
                   (JSMap.values (activities this)))) this.

Definition typeEq (a b : ActivityType) : bool :=
  match a, b with
  | pose, pose => true
  | movement, movement => true
  | _, _ => false
  end.

Definition getActivitiesByType (type : ActivityType) : M (list Activity) :=
  fun this =>
    ret (JSArray.sort newestFirst
           (filter (fun activity =>
                      typeEq (Activities.type activity) type && isPublic activity)
                   (JSMap.values (activities this)))) this.

Definition deleteActivity (id : text) : M unit :=
  if (List.length id =? 0)%nat
  then throw "Invalid activity ID" "INVALID_ID"
  else
    fun this =>
      if negb (JSMap.has id (activities this))
      then throw "Activity not found" "NOT_FOUND" this
      else (Resolved tt, mkService (JSMap.delete id (activities this)) (nextId this)).

Record Stats : Type := mkStats {
  totalActivities : nat;
  poseActivities : nat;
  movementActivities : nat;
  publicActivities : nat;
  privateActivities : nat
}.

Definition getActivityStats (this : Service) : Stats :=
  let activities := JSMap.values (activities this) in
  mkStats (List.length activities)
          (List.length (filter (fun a => typeEq (type a) pose) activities))
          (List.length (filter (fun a => typeEq (type a) movement) activities))
          (List.length (filter (fun a => isPublic a) activities))
          (List.length (filter (fun a => negb (isPublic a)) activities)).

Definition clearAll (this : Service) : Service := mkService [] 1.

End ActivityService.

(** ** Histories of the activity service *)

Module History.
Import JS Types Text Activities Validation ActivityService.
Local Open Scope list_scope.

(** The activity [createPoseActivity] builds. *)
Definition poseActivity (now : Date) (n : N) (elems : list PoseLandmark)
    (metadata : Metadata.ActivityMetadata) : Activity :=
  mkActivity (lit "pose_" ++ of_N n) pose (Metadata.name metadata)
             (Metadata.createdBy metadata) now None
             (Metadata.isPublic metadata) (map PoseItem elems) None None.

Definition movementActivity (now : Date) (n : N)
    (frames : list Typed.TimestampedLandmarks)
    (metadata : Metadata.ActivityMetadata) : Activity :=
  mkActivity (lit "movement_" ++ of_N n) movement (Metadata.name metadata)
             (Metadata.createdBy metadata) now (Metadata.duration metadata)
             (Metadata.isPublic metadata) (map FrameItem frames) None None.


(** The calls that change the service through its own numbering; a direct
    [saveActivity] is not among them. *)
Inductive Call : Type :=
| CreatePose (now : Date) (landmarks : arg PoseLandmark)
             (metadata : Metadata.ActivityMetadata)
| CreateMovement (now : Date) (landmarkSequence : arg FrameObject)
                 (metadata : Metadata.ActivityMetadata)
| Delete (id : text)
| ClearAll.

Definition perform (this : Service) (call : Call) : Service :=
  match call with
  | CreatePose now landmarks metadata =>
      snd (createPoseActivity now landmarks metadata this)
  | CreateMovement now landmarkSequence metadata =>
      snd (createMovementActivity now landmarkSequence metadata this)
  | Delete id => snd (deleteActivity id this)
  | ClearAll => clearAll this
  end.

(** The service after a history of such calls on a new instance. *)
Definition replay (history : list Call) : Service :=
  fold_left perform history ActivityService.initial.

(** Every stored key was issued by the counter: it is [pose_n] or
    [movement_n] for an [n] below [nextId]. *)
Definition issued (this : Service) : Prop :=
  forall key,
    JSMap.has key (activities this) = true ->
    exists n, (n < nextId this)%N
              /\ (key = lit "pose_" ++ of_N n \/ key = lit "movement_" ++ of_N n).

(** The value a settled call resolved with, and the code it rejected
    with. *)
Definition value_of {A : Type} (settled : outcome A * Service) : option A :=
  match fst settled with
  | Resolved value => Some value
  | Rejected _ => None
  end.

Definition code_of {A : Type} (settled : outcome A * Service) : option string :=
  match fst settled with
  | Resolved _ => None
  | Rejected error => Some (code error)
  end.

End History.

(** ** The specification's wording

    Definitions that follow the sentences of the specification, to be
    compared with the code above. *)

Module Spec.
Import JS Types.
Local Open Scope Q_scope.
Local Open Scope string_scope.
Local Open Scope list_scope.

(** "either landmark is missing required numeric fields". *)
Definition missingField (s : slot) : bool :=
  match s with
  | Some l =>
      match prop_x l, prop_y l, prop_z l with
      | Some _, Some _, Some _ => false
      | _, _, _ => true
      end
  | None => true
  end.

(** "either numeric field is NaN". *)
Definition nanField (s : slot) : bool :=
  match s with
  | Some l =>
      isNaN (to_number (prop_x l)) || isNaN (to_number (prop_y l))
      || isNaN (to_number (prop_z l))
  | None => false
  end.

(** "visibility (treating absent as 1.0) is < 0.3". *)
Definition lowVisibility (s : slot) : bool :=
  match s with
  | Some l =>
      ltb (match prop_visibility l with Some v => v | None => Fin 1 end) (Fin 0.3)
  | None => false
  end.

Definition skipsPair (s1 s2 : slot) : bool :=
  missingField s1 || missingField s2 || nanField s1 || nanField s2
  || lowVisibility s1 || lowVisibility s2.

(** A visibility that is explicitly zero. *)
Definition zeroVisibility (s : slot) : bool :=
  match s with
  | Some l =>
      match prop_visibility l with
      | Some (Fin q) => Qeq_bool q 0
      | _ => false
      end
  | None => false
  end.

(** Both numbers are the same infinity, so that their difference is
    [NaN]. *)
Definition sameInfinity (a b : option number) : bool :=
  match a, b with
  | Some PInf, Some PInf | Some NInf, Some NInf => true
  | _, _ => false
  end.

Definition sameInfinityOnAnAxis (s1 s2 : slot) : bool :=
  match s1, s2 with
  | Some l1, Some l2 =>
      sameInfinity (prop_x l1) (prop_x l2)
      || sameInfinity (prop_y l1) (prop_y l2)
      || sameInfinity (prop_z l1) (prop_z l2)
  | _, _ => false
  end.

Definition isFinite (a : number) : bool :=
  match a with Fin _ => true | _ => false end.

(** A landmark with numeric, non-NaN coordinates and a visibility of at
    least 0.3 (an absent visibility counting as 1.0). *)
Definition numericLandmark (s : slot) : bool :=
  match s with
  | Some l =>
      negb (missingField s) && negb (nanField s)
      && match prop_visibility l with
         | Some v => geb v (Fin 0.3)
         | None => true
         end
  | None => false
  end.

(** The same, with finite coordinates. *)
Definition finiteLandmark (s : slot) : bool :=
  match s with
  | Some l =>
      isFinite (to_number (prop_x l)) && isFinite (to_number (prop_y l))
      && isFinite (to_number (prop_z l))
      && match prop_visibility l with
         | Some v => geb v (Fin 0.3)
         | None => true
         end
  | None => false
  end.

(** The mean of a list of scores. *)
Definition mean (l : list number) : number :=
  div (fold_left add l (Fin 0)) (of_nat (List.length l)).

(** The three thirds of a list of frame scores: boundaries at
    [floor(n/3)] and [floor(2n/3)]. *)
Definition beginning (l : list number) : list number :=
  firstn (List.length l / 3) l.

Definition middle (l : list number) : list number :=
  firstn (2 * List.length l / 3 - List.length l / 3) (skipn (List.length l / 3) l).

Definition ending (l : list number) : list number :=
  skipn (2 * List.length l / 3) l.

Definition beginningLine : string := "Work on your starting position".
Definition middleLine : string := "Focus on the middle phase of the movement".
Definition endingLine : string := "Pay attention to your ending position".

(** "for any third whose mean < 0.6, append a phase-specific coaching
    line". *)
Definition phaseLines (l : list number) : list string :=
  (if ltb (mean (beginning l)) (Fin 0.6) then [beginningLine] else [])
    ++ (if ltb (mean (middle l)) (Fin 0.6) then [middleLine] else [])
    ++ (if ltb (mean (ending l)) (Fin 0.6) then [endingLine] else []).

(** A number of the interval [0,1]. *)
Definition inUnitInterval (a : number) : bool := leb (Fin 0) a && leb a (Fin 1).

(** The key indices at which the list holds a landmark. *)
Definition presentKeyIndices (landmarks : list PoseLandmark) : list nat :=
  filter (fun idx => (idx <? List.length landmarks)%nat)
    MediaPipeService.keyLandmarkIndices.

(** The two fixed results of [comparePoses] on unusable input. *)
Definition invalidPoseResult : ComparisonResult :=
  mkComparisonResult false (Fin 0)
    ["Invalid pose data provided"] ["Ensure both poses have valid landmark data"].

Definition missingPoseResult : ComparisonResult :=
  mkComparisonResult false (Fin 0)
    ["Missing pose landmarks"] ["Ensure pose is detected properly"].

(** "Clamps into [0,1] (values outside are saturated, not rejected)", for
    one number [a] and its result [r]: a NaN stays a NaN; any other number
    ends in [0,1], at 0 when it was below, at 1 when it was above, and equal
    ([===]) to itself when it was inside. *)
Definition clampedFrom (a r : number) : Prop :=
  match a with
  | NaN => r = NaN
  | _ =>
      inUnitInterval r = true
      /\ (ltb a (Fin 0) = true -> r = Fin 0)
      /\ (gtb a (Fin 1) = true -> r = Fin 1)
      /\ (inUnitInterval a = true -> strictEq r a = true)
  end.

Definition tooManyLowVisibility : string :=
  "Too many key landmarks have low visibility".


(** A landmark that [getPoseConfidence] counts: its visibility is a number
    above 0. *)
Definition hasPositiveVisibility (landmark : PoseLandmark) : bool :=
  gtb (or_default (visibility landmark) (Fin 0)) (Fin 0).

(** A frame whose timestamp is a finite number. *)
Definition finiteTimestamp (frame : Typed.TimestampedLandmarks) : bool :=
  isFinite (Typed.timestamp frame).

(** Newest first: [b] is no newer than [a]. *)
Definition noNewer {A : Type} (time : A -> Z) (a b : A) : Prop :=
  (time b <= time a)%Z.


(** A recorded frame comes from an animation frame on which the detector
    returned a result: it holds the landmarks extracted from that result and
    the time elapsed since the start. *)
Definition recordedAt (startTime : number) (ticks : list MediaPipeService.Tick)
    (frame : Typed.TimestampedLandmarks) : Prop :=
  exists tick result,
    In tick ticks
    /\ MediaPipeService.detected tick = MediaPipeService.Returns (Some result)
    /\ Typed.landmarks frame = MediaPipeService.extractLandmarks result
    /\ Typed.timestamp frame = sub (MediaPipeService.currentTime tick) startTime.

(** What [recordMovementSequence] keeps: a frame recorded before the
    duration ran out, with the confidence asked for. *)
Definition kept (startTime : number) (duration : option number)
    (options : MediaPipeService.RecordingOptions)
    (ticks : list MediaPipeService.Tick)
    (frame : Typed.TimestampedLandmarks) : Prop :=
  recordedAt startTime ticks frame
  /\ geb (Typed.timestamp frame)
         (MediaPipeService.orDefault duration (Fin 30000)) = false
  /\ geb (MediaPipeService.getPoseConfidence (Typed.landmarks frame))
         (MediaPipeService.orDefault
            (MediaPipeService.minPoseConfidence options) (Fin 0.5)) = true.


End Spec.

(** ** Invariants of the scoring loop *)

Module Invariant.
Import JS.
Local Open Scope Q_scope.

(** A distance or a sum of distances: a non-negative rational or
    [+Infinity]. *)
Definition distanceLike (a : number) : Prop :=
  match a with
  | Fin q => 0 <= q
  | PInf => True
  | _ => False
  end.

(** A sum of weights: a non-negative rational. *)
Definition weightLike (a : number) : Prop :=
  match a with
  | Fin q => 0 <= q
  | _ => False
  end.

Definition accumulator (acc : number * number) : Prop :=
  distanceLike (fst acc) /\ weightLike (snd acc).

(** A finite number of the unit interval. *)
Definition unitNumber (a : number) : Prop :=
  match a with
  | Fin q => 0 <= q <= 1
  | _ => False
  end.

(** The accumulators while a pose is compared with itself: no distance,
    and a weight of at least [c]. *)
Definition selfAccumulator (c : Q) (acc : number * number) : Prop :=
  fst acc = Fin 0 /\ exists v, snd acc = Fin v /\ c <= v.

(** A temporal weight: NaN (the lone frame) or a non-negative number. *)
Definition weightOrNaN (a : number) : Prop :=
  match a with
  | NaN => True
  | Fin q => 0 <= q
  | _ => False
  end.

(** The two running sums of the weighted mean: the weighted sum stays
    between 0 and the sum of the weights. *)
Definition meanAccumulator (acc : number * number) : Prop :=
  match fst acc, snd acc with
  | Fin a, Fin b => 0 <= a <= b
  | NaN, NaN => True
  | _, _ => False
  end.

(** The accumulators of a body-part loop over a pose compared with
    itself: no distance, and a count. *)
Definition selfPart (acc : number * number) : Prop :=
  fst acc = Fin 0 /\ exists c, snd acc = Fin c /\ 0 <= c.

(** A visibility score that [getPoseConfidence] keeps after
    normalization: a number of (0,1]. *)
Definition positiveUnit (a : number) : Prop :=
  match a with
  | Fin q => 0 < q <= 1
  | _ => False
  end.

(** A sum of [k] such scores. *)
Definition unitSum (k : nat) (a : number) : Prop :=
  match a with
  | Fin q => 0 <= q <= inject_Z (Z.of_nat k)
  | _ => False
  end.

(** A confidence that passes a threshold of one half or more. *)
Definition upperHalf (a : number) : Prop :=
  match a with
  | Fin q => 1 # 2 <= q <= 1
  | _ => False
  end.

(** A sum of [k] such confidences. *)
Definition halfSum (k : nat) (a : number) : Prop :=
  match a with
  | Fin q => inject_Z (Z.of_nat k) * (1 # 2) <= q
  | _ => False
  end.

(** While a recording runs its promise is pending, and a resolved promise
    holds the sequence. *)
Definition disciplined
    (state : MediaPipeService.Tracker * MediaPipeService.Recording) : Prop :=
  (MediaPipeService.isTracking (fst state) = true ->
   MediaPipeService.returned (snd state) = MediaPipeService.Pending)
  /\ (forall frames,
        MediaPipeService.returned (snd state) = MediaPipeService.Resolved frames ->
        frames = MediaPipeService.sequence (snd state)).


End Invariant.

(** ** Fixtures of the repository's test suite *)

Module Fixtures.
Import JS Types.
Local Open Scope Q_scope.

(** [createTestLandmarks(baseX, baseY, baseZ)] of the ComparisonService
    tests. *)
Definition createTestLandmarks (baseX baseY baseZ : Q) : list slot :=
  map
    (fun i =>
       to_slot
         (mkPoseLandmark
            (fin (baseX + inject_Z (Z.of_nat i) * 0.01))
            (fin (baseY + inject_Z (Z.of_nat i) * 0.005))
            (fin baseZ)
            (Some (Fin 0.9))))
    (seq 0 33).

(** A Taylor polynomial of the exponential, as one admissible
    [Math.exp]. *)
Fixpoint taylor (n : nat) (q term acc : Q) (k : positive) : Q :=
  match n with
  | O => acc
  | S n' =>
      let t := Qred (term * q / (Zpos k # 1)) in
      taylor n' q t (Qred (acc + t)) (Pos.succ k)
  end.

Definition exp_taylor (q : Q) : Q := taylor 30 q 1 1 1.

(** Thirty-three landmarks that all sit at [x = +Infinity]. *)
Definition infiniteLandmarks : list slot :=
  repeat
    (Some (mkLandmarkObject (Some PInf) (Some (Fin 0)) (Some (Fin 0))
                            (Some (Fin 1))))
    33.

(** One landmark at [x = +Infinity], fully visible. *)
Definition farLandmark : slot :=
  Some (mkLandmarkObject (Some PInf) (Some (Fin 0)) (Some (Fin 0)) (Some (Fin 1))).

(** One landmark in the middle of the frame whose visibility is 0. *)
Definition hiddenLandmark : slot :=
  Some (mkLandmarkObject (Some (Fin 0.5)) (Some (Fin 0.5)) (Some (Fin 0))
                         (Some (Fin 0))).

(** A landmark whose [x] is NaN. *)
Definition nanLandmark : PoseLandmark :=
  mkPoseLandmark NaN (Fin 0.5) (Fin 0.1) None.

(** A single landmark of low visibility. *)
Definition dimLandmark : PoseLandmark :=
  mkPoseLandmark (Fin 0.5) (Fin 0.5) (Fin 0.1) (Some (Fin 0.1)).

(** [landmarks[i].visibility = v]. *)
Definition setVisibility (landmarks : list slot) (i : nat) (v : Q) : list slot :=
  firstn i landmarks
    ++ match get landmarks i with
       | Some l =>
           [Some (mkLandmarkObject (prop_x l) (prop_y l) (prop_z l) (Some (Fin v)))]
       | None => [None]
       end
    ++ skipn (S i) landmarks.

(** Two malformed landmarks in the manner of the error-handling test: one
    without a numeric [x], one without a numeric [y]. *)
Definition malformedLandmarks : list slot :=
  [ Some (mkLandmarkObject None (Some (Fin 0.5)) (Some (Fin 0.1)) None);
    Some (mkLandmarkObject (Some (Fin 0.5)) None (Some (Fin 0.1)) None) ].

(** Thirty-three typed landmarks whose key landmarks have visibility 0.3. *)
Definition dimKeyLandmarks : list PoseLandmark :=
  map
    (fun i =>
       mkPoseLandmark (Fin 0.5) (Fin 0.5) (Fin 0.1)
         (Some (if includes [0; 11; 12; 23; 24]%nat i then Fin 0.3 else Fin 0.9)))
    (seq 0 33).

(** [createTestLandmarks()] with its default arguments. *)
Definition base : list slot := createTestLandmarks 0.5 0.5 0.1.

(** A Pade quotient of the exponential, positive on every argument, as
    another admissible [Math.exp]. *)
Definition exp_pade (q : Q) : Q := 1 / (1 - q + q * q / 2).

(** The landmark of the MediaPipeService tests. *)
Definition visibleLandmark : PoseLandmark :=
  mkPoseLandmark (Fin 0.5) (Fin 0.5) (Fin 0.1) (Some (Fin 0.9)).

(** The good sequence of the MediaPipeService tests: 60 frames, 33.33 ms
    apart. *)
Definition goodSequence : list Typed.TimestampedLandmarks :=
  map
    (fun i =>
       Typed.mkTimestampedLandmarks
         (fin (inject_Z (Z.of_nat i) * 33.33)) (repeat visibleLandmark 33))
    (seq 0 60).

(** The short sequence of the same tests: two frames, 500 ms apart. *)
Definition shortSequence : list Typed.TimestampedLandmarks :=
  [ Typed.mkTimestampedLandmarks (Fin 0) [visibleLandmark];
    Typed.mkTimestampedLandmarks (Fin 500) [visibleLandmark] ].

(** The detection result of the extraction test, with out-of-bounds
    values in its second landmark. *)
Definition mockResult : MediaPipeService.Detection.PoseLandmarkerResult :=
  MediaPipeService.Detection.mkPoseLandmarkerResult
    (Some [[ visibleLandmark;
             mkPoseLandmark (Fin 1.2) (Fin (-0.1)) (Fin 0.2) (Some (Fin 1.5)) ]]).

(** A detection result with one pose of one landmark, of visibility [v]. *)
Definition poseResult (v : Q) : option MediaPipeService.Detection.PoseLandmarkerResult :=
  Some (MediaPipeService.Detection.mkPoseLandmarkerResult
          (Some [[mkPoseLandmark (Fin 0.5) (Fin 0.5) (Fin 0.1) (Some (Fin v))]])).

(** The animation frame at time [t] on which the detector sees such a
    pose. *)
Definition tickAt (t v : Q) : MediaPipeService.Tick :=
  MediaPipeService.mkTick (Fin t) (MediaPipeService.Returns (poseResult v))
                          (MediaPipeService.Returns tt).

(** Animation frames of a recording started at 990 ms: one comes too soon
    after its predecessor, one shows a pose of low confidence, and the last
    ones come after the 150 ms the recording lasts. *)
Definition recordedTicks : list MediaPipeService.Tick :=
  [ tickAt 1000 0.9; tickAt 1010 0.9; tickAt 1040 0.2; tickAt 1080 0.8;
    tickAt 1100 0.9; tickAt 1200 0.9; tickAt 1300 0.9 ].

Definition recordedFrames : list Typed.TimestampedLandmarks :=
  [ Typed.mkTimestampedLandmarks (Fin 10)
      [mkPoseLandmark (Fin 0.5) (Fin 0.5) (Fin 0.1) (Some (Fin 0.9))];
    Typed.mkTimestampedLandmarks (Fin 90)
      [mkPoseLandmark (Fin 0.5) (Fin 0.5) (Fin 0.1) (Some (Fin 0.8))] ].

(** No options: 30 frames a second, no progress callback, a confidence of
    one half. *)
Definition defaultOptions : MediaPipeService.RecordingOptions :=
  MediaPipeService.mkRecordingOptions None false None.

Import Text Activities ActivityService History.
Local Open Scope list_scope.

(** The data of the ActivityService tests. *)
Definition mockPoseLandmarks : list PoseLandmark :=
  [ mkPoseLandmark (Fin 0.5) (Fin 0.5) (Fin 0.1) (Some (Fin 0.9));
    mkPoseLandmark (Fin 0.6) (Fin 0.4) (Fin 0.2) (Some (Fin 0.8)) ].

Definition mockMovementSequence : list FrameObject :=
  [ mkFrameObject (Some (Fin 0)) (Arr mockPoseLandmarks);
    mkFrameObject (Some (Fin 33)) (Arr mockPoseLandmarks);
    mkFrameObject (Some (Fin 66)) (Arr mockPoseLandmarks) ].

Definition mockPoseMetadata : Metadata.ActivityMetadata :=
  Metadata.mkActivityMetadata (lit "Test Pose") pose (lit "testuser") None true.

Definition mockMovementMetadata : Metadata.ActivityMetadata :=
  Metadata.mkActivityMetadata (lit "Test Movement") movement (lit "testuser")
                              (Some (Fin 3000)) true.

(** The activity of the [saveActivity] test, with an identifier of the
    service's own form. *)
Definition savedActivity : Activity :=
  mkActivity (lit "pose_1") pose (lit "Test Activity") (lit "testuser") 0%Z
             None true (map PoseItem mockPoseLandmarks) None None.

(** A name of 101 characters whose hundredth is a space. *)
Definition longName : text :=
  repeat 97%N 99 ++ [32%N; 98%N].

(** Metadata whose name is [longName]. *)
Definition longNameMetadata : Metadata.ActivityMetadata :=
  Metadata.mkActivityMetadata longName pose (lit "testuser") None true.

(** A history: a pose is created and deleted, and another one created. *)
Definition history : list Call :=
  [ CreatePose 1000%Z (Arr mockPoseLandmarks) mockPoseMetadata;
    Delete (lit "pose_1");
    CreatePose 1010%Z (Arr mockPoseLandmarks) mockPoseMetadata ].

End Fixtures.

Import JS Types Constants ComparisonService Invariant Fixtures.

(** * Properties *)

(** ** Facts about numbers *)

Section NumberFacts.

Local Open Scope Q_scope.

Lemma fin_ext (p q : Q) : p == q -> fin p = fin q.
Proof. intros H. unfold fin. now rewrite (Qred_complete _ _ H). Qed.

Lemma Qsign_Lt (q : Q) : Qsign q = Lt <-> q < 0.
Proof.
  unfold Qsign, Qlt. destruct q as [n d]. simpl.
  rewrite Z.mul_1_r. now rewrite Z.compare_lt_iff.
Qed.

Lemma Qsign_Eq (q : Q) : Qsign q = Eq <-> q == 0.
Proof.
  unfold Qsign, Qeq. destruct q as [n d]. simpl.
  rewrite Z.mul_1_r. now rewrite Z.compare_eq_iff.
Qed.

Lemma Qsign_Gt (q : Q) : Qsign q = Gt <-> 0 < q.
Proof.
  unfold Qsign, Qlt. destruct q as [n d]. simpl.
  rewrite Z.mul_1_r. now rewrite Z.compare_gt_iff.
Qed.

Lemma Qsign_ext (p q : Q) : p == q -> Qsign p = Qsign q.
Proof.
  intros H. destruct (Qsign q) eqn:E.
  - apply Qsign_Eq. apply Qsign_Eq in E. now rewrite H.
  - apply Qsign_Lt. apply Qsign_Lt in E. now rewrite H.
  - apply Qsign_Gt. apply Qsign_Gt in E. now rewrite H.
Qed.

Lemma Qsign_Qred (q : Q) : Qsign (Qred q) = Qsign q.
Proof. apply Qsign_ext, Qred_correct. Qed.

(** The square of a difference does not depend on the order of the
    operands. *)
Lemma square_sub_sym (a b : number) :
  mul (sub a b) (sub a b) = mul (sub b a) (sub b a).
Proof.
  destruct a as [| | |p], b as [| | |q]; try reflexivity.
  cbn [sub mul fin]. apply fin_ext. rewrite !Qred_correct. ring.
Qed.

Lemma ltb_Fin (p q : Q) : ltb (Fin p) (Fin q) = true <-> p < q.
Proof.
  cbn [ltb]. rewrite Qlt_alt. destruct (p ?= q); split; congruence.
Qed.

Lemma leb_Fin (p q : Q) : leb (Fin p) (Fin q) = true <-> p <= q.
Proof.
  cbn [leb]. rewrite Qle_alt. destruct (p ?= q); split; congruence.
Qed.

Lemma ltb_Fin_false (p q : Q) : ltb (Fin p) (Fin q) = false <-> q <= p.
Proof.
  rewrite <- not_true_iff_false, ltb_Fin. split; intros H.
  - now apply Qnot_lt_le.
  - now apply Qle_not_lt.
Qed.

Lemma Qsqrt_nonneg (q : Q) : 0 <= Math.Qsqrt q.
Proof.
  unfold Math.Qsqrt, Qle. simpl. rewrite Z.mul_1_r. apply Z.sqrt_nonneg.
Qed.

Lemma sqrt_distanceLike (a : number) :
  isNaN (Math.sqrt a) = false -> distanceLike (Math.sqrt a).
Proof.
  destruct a as [| | |q]; cbn [Math.sqrt isNaN]; try discriminate; try easy.
  destruct (Qsign q); cbn [isNaN fin distanceLike]; try discriminate;
    intros _; rewrite Qred_correct; apply Qsqrt_nonneg.
Qed.

Lemma add_distanceLike (a b : number) :
  distanceLike a -> distanceLike b -> distanceLike (add a b).
Proof.
  destruct a as [| | |p], b as [| | |q]; cbn [add fin distanceLike]; try easy.
  intros Hp Hq. rewrite Qred_correct. lra.
Qed.

Lemma mul_distanceLike (a : number) (w : Q) :
  0 < w -> distanceLike a -> distanceLike (mul a (Fin w)).
Proof.
  intros Hw. destruct a as [| | |p]; cbn [mul fin distanceLike]; try easy.
  - intros _. apply Qsign_Gt in Hw. now rewrite Hw.
  - intros Hp. rewrite Qred_correct. nra.
Qed.

Lemma add_weightLike (a : number) (w : Q) :
  0 <= w -> weightLike a -> weightLike (add a (Fin w)).
Proof.
  intros Hw. destruct a as [| | |p]; cbn [add fin weightLike]; try easy.
  intros Hp. rewrite Qred_correct. lra.
Qed.

Lemma Qsquare_nonneg (d : Q) : 0 <= d * d.
Proof. nra. Qed.

Lemma add_NaN_r (a : number) : add a NaN = NaN.
Proof. now destruct a. Qed.

Lemma sqrt_defined (a : number) : distanceLike a -> isNaN (Math.sqrt a) = false.
Proof.
  destruct a as [| | |q]; cbn [distanceLike Math.sqrt isNaN]; try easy.
  intros Hq. destruct (Qsign q) eqn:E; try reflexivity.
  apply Qsign_Lt in E. lra.
Qed.

(** The square of a difference of two numbers: [NaN] when both are the
    same infinity, a non-negative number or [+Infinity] otherwise. *)
Lemma square_diff_cases (a b : number) :
  isNaN a = false -> isNaN b = false ->
  (Spec.sameInfinity (Some a) (Some b) = true
   /\ mul (sub a b) (sub a b) = NaN)
  \/ (Spec.sameInfinity (Some a) (Some b) = false
      /\ distanceLike (mul (sub a b) (sub a b))).
Proof.
  destruct a as [| | |p], b as [| | |q]; try discriminate; intros _ _;
    try (left; split; reflexivity); right; (split; [reflexivity|]);
    try (cbn [sub mul distanceLike]; exact I).
  cbn [sub mul fin distanceLike]. rewrite !Qred_correct. apply Qsquare_nonneg.
Qed.

Lemma fin_inject_Z (z : Z) : fin (inject_Z z) = Fin (inject_Z z).
Proof.
  unfold fin. f_equal. apply Qred_identity. cbn. apply Z.gcd_1_r.
Qed.

Lemma sub_of_nat (n m : nat) :
  (m <= n)%nat -> sub (of_nat n) (of_nat m) = of_nat (n - m).
Proof.
  intros H. unfold of_nat. cbn [sub].
  rewrite <- fin_inject_Z. apply fin_ext.
  rewrite Nat2Z.inj_sub by assumption.
  unfold Zminus. rewrite inject_Z_plus, inject_Z_opp. ring.
Qed.

(** [Math.floor(n / 3)] and [Math.floor(2 * n / 3)] on a length [n] are the
    integer quotients the embedding of [analyzeMovementPhases] uses. *)
Lemma floor_div_of_nat (n : nat) :
  Math.floor (div (of_nat n) (Fin 3)) = of_nat (n / 3)
  /\ Math.floor (div (mul (Fin 2) (of_nat n)) (Fin 3)) = of_nat (2 * n / 3).
Proof.
  unfold of_nat. split.
  - cbn [div mul]. replace (Qsign 3) with Gt by reflexivity.
    cbn [fin Math.floor]. do 2 f_equal.
    rewrite (Qfloor_comp _ _ (Qred_correct _)).
    rewrite Nat2Z.inj_div. apply eq_sym, (Zdiv_Qdiv (Z.of_nat n) 3).
  - cbn [div mul fin]. replace (Qsign 3) with Gt by reflexivity.
    cbn [fin Math.floor]. do 2 f_equal.
    rewrite (Qfloor_comp _ _ (Qred_correct _)).
    rewrite Nat2Z.inj_div, Nat2Z.inj_mul.
    rewrite (Zdiv_Qdiv (Z.of_nat 2 * Z.of_nat n) (Z.of_nat 3)).
    apply Qfloor_comp. rewrite Qred_correct, inject_Z_mult. reflexivity.
Qed.

End NumberFacts.

(** ** The similarity scorer *)

Section Scorer.

Local Open Scope Q_scope.

Lemma pairDistance_sym (a b : slot) : pairDistance a b = pairDistance b a.
Proof.
  destruct a as [[[x1|] [y1|] [z1|] v1]|], b as [[[x2|] [y2|] [z2|] v2]|];
    try reflexivity.
  unfold pairDistance; cbn [prop_x prop_y prop_z prop_visibility].
  rewrite (square_sub_sym x1 x2), (square_sub_sym y1 y2), (square_sub_sym z1 z2).
  destruct (isNaN x1), (isNaN y1), (isNaN z1), (isNaN x2), (isNaN y2), (isNaN z2);
    cbn [orb]; try reflexivity.
  destruct (ltb (or_default v1 (Fin 1)) (Fin 0.3)),
           (ltb (or_default v2 (Fin 1)) (Fin 0.3)); reflexivity.
Qed.

Lemma similarityStep_sym (p1 p2 : list slot) (acc : number * number) (i : nat) :
  similarityStep p1 p2 acc i = similarityStep p2 p1 acc i.
Proof. unfold similarityStep. now rewrite pairDistance_sym. Qed.

Lemma fold_left_ext_all {A B : Type} (f g : A -> B -> A) (l : list B) (a : A) :
  (forall x y, f x y = g x y) -> fold_left f l a = fold_left g l a.
Proof.
  intros H. revert a. induction l as [|b l IH]; intros a; simpl.
  - reflexivity.
  - now rewrite H, IH.
Qed.

Lemma similarityLoop_sym (p1 p2 : list slot) :
  similarityLoop p1 p2 = similarityLoop p2 p1.
Proof.
  unfold similarityLoop. rewrite (Nat.min_comm (List.length p2)).
  apply fold_left_ext_all. intros. apply similarityStep_sym.
Qed.

(** C4.  The similarity score is symmetric: for all landmark sets [A] and
    [B] (arrays of any length and content, or no array at all),
    [calculateSimilarityScore(A, B)] equals
    [calculateSimilarityScore(B, A)]. *)
Theorem calculateSimilarityScore_symmetric (A B : arg slot) :
  calculateSimilarityScore A B = calculateSimilarityScore B A.
Proof.
  destruct A as [|p1], B as [|p2]; try reflexivity.
  unfold calculateSimilarityScore.
  rewrite (similarityLoop_sym p2 p1), (orb_comm (List.length p2 =? 0)%nat).
  reflexivity.
Qed.

Lemma weightOf_cases (i : nat) : weightOf i = Fin 2 \/ weightOf i = Fin 1.
Proof. unfold weightOf. destruct (includes keyLandmarkIndices i); auto. Qed.

Lemma pairDistance_distanceLike (a b : slot) (d : number) :
  pairDistance a b = Some d -> distanceLike d.
Proof.
  destruct a as [[[x1|] [y1|] [z1|] v1]|], b as [[[x2|] [y2|] [z2|] v2]|];
    try discriminate.
  unfold pairDistance; cbn [prop_x prop_y prop_z prop_visibility].
  destruct (_ || _); [discriminate|].
  destruct (_ || _); [discriminate|].
  destruct (isNaN _) eqn:E; [discriminate|].
  intros [= <-]. now apply sqrt_distanceLike.
Qed.

Lemma similarityStep_accumulator (p1 p2 : list slot) (acc : number * number) (i : nat) :
  accumulator acc -> accumulator (similarityStep p1 p2 acc i).
Proof.
  intros [Ht Hv]. unfold similarityStep.
  destruct (pairDistance _ _) as [d|] eqn:E; [|now split].
  apply pairDistance_distanceLike in E.
  split; cbn [fst snd].
  - apply add_distanceLike; [assumption|].
    destruct (weightOf_cases i) as [-> | ->]; apply mul_distanceLike;
      (assumption || reflexivity).
  - destruct (weightOf_cases i) as [-> | ->]; apply add_weightLike;
      (assumption || discriminate).
Qed.

Lemma fold_left_invariant {A B : Type} (P : A -> Prop) (f : A -> B -> A)
    (l : list B) (a : A) :
  P a -> (forall x y, P x -> P (f x y)) -> P (fold_left f l a).
Proof.
  intros Ha Hf. revert a Ha. induction l as [|b l IH]; intros a Ha; simpl; auto.
Qed.

Lemma similarityLoop_accumulator (p1 p2 : list slot) :
  accumulator (similarityLoop p1 p2).
Proof.
  unfold similarityLoop. apply fold_left_invariant.
  - split; cbn; lra.
  - intros. now apply similarityStep_accumulator.
Qed.

Lemma clamp_unit (c : Q) :
  c <= 1 -> unitNumber (Math.min (Fin 1) (Math.max (Fin 0) (Fin c))).
Proof.
  intros Hc. unfold Math.max. cbn [isNaN orb].
  destruct (ltb (Fin 0) (Fin c)) eqn:E0; unfold Math.min; cbn [isNaN orb].
  - apply ltb_Fin in E0.
    destruct (ltb (Fin c) (Fin 1)) eqn:E1; cbn [unitNumber]; lra.
  - destruct (ltb (Fin 0) (Fin 1)) eqn:E1; cbn [unitNumber]; lra.
Qed.

(** The last lines of the scorer, from the two accumulators on. *)
Lemma similarity_unit (t v : number) :
  distanceLike t -> weightLike v -> strictEq v (Fin 0) = false ->
  unitNumber
    (Math.min (Fin 1)
       (Math.max (Fin 0) (sub (Fin 1) (div (div t v) (Fin 0.5))))).
Proof.
  destruct v as [| | |q]; cbn [weightLike]; try easy.
  intros Ht Hq Hz. cbn [strictEq] in Hz.
  assert (Hpos : 0 < q).
  { destruct (Qeq_dec q 0) as [H0|H0].
    - apply Qeq_bool_iff in H0. congruence.
    - lra. }
  assert (Hs : Qsign q = Gt) by now apply Qsign_Gt.
  destruct t as [| | |p]; cbn [distanceLike] in Ht; try easy.
  - cbn [div]. rewrite Hs. vm_compute. split; discriminate.
  - cbn [div]. rewrite Hs. cbn [fin div sub].
    replace (Qsign 0.5) with Gt by reflexivity.
    cbn [fin sub]. apply clamp_unit.
    rewrite !Qred_correct.
    assert (0 <= p / q) by (apply Qle_shift_div_l; lra).
    assert (0 <= (p / q) / 0.5) by (apply Qle_shift_div_l; lra).
    lra.
Qed.

Lemma unitNumber_leb (a : number) :
  unitNumber a -> leb (Fin 0) a = true /\ leb a (Fin 1) = true.
Proof.
  destruct a as [| | |q]; cbn [unitNumber]; try easy.
  intros [H0 H1]. split; now apply leb_Fin.
Qed.

(** C5.  For all inputs [A] and [B] -- arrays that are empty, of different
    lengths or hold malformed landmarks, or no array at all --
    [calculateSimilarityScore(A, B)] lies in the closed interval [0, 1]. *)
Theorem calculateSimilarityScore_bounded (A B : arg slot) :
  leb (Fin 0) (calculateSimilarityScore A B) = true
  /\ leb (calculateSimilarityScore A B) (Fin 1) = true.
Proof.
  apply unitNumber_leb.
  destruct A as [|p1], B as [|p2]; try (cbn; lra).
  unfold calculateSimilarityScore.
  destruct (_ || _); [cbn; lra|].
  pose proof (similarityLoop_accumulator p1 p2) as [Ht Hv].
  destruct (similarityLoop p1 p2) as [t v]. cbn [fst snd] in Ht, Hv.
  destruct (strictEq v (Fin 0)) eqn:E; [cbn; lra|].
  now apply similarity_unit.
Qed.

(** *** A pose compared with itself *)

Lemma sub_self (a : Q) : sub (Fin a) (Fin a) = Fin 0.
Proof.
  cbn [sub]. transitivity (fin 0); [|reflexivity]. apply fin_ext. ring.
Qed.

Lemma visible_not_low (w : number) :
  geb w (Fin 0.3) = true -> ltb (or_default (Some w) (Fin 1)) (Fin 0.3) = false.
Proof.
  unfold geb. destruct w as [| | |q]; cbn [leb or_default truthy]; try easy.
  intros H. change (leb (Fin 0.3) (Fin q) = true) in H. apply leb_Fin in H.
  destruct (negb _); [|reflexivity]. apply ltb_Fin_false. exact H.
Qed.

Lemma pairDistance_self (s : slot) :
  Spec.finiteLandmark s = true -> pairDistance s s = Some (Fin 0).
Proof.
  destruct s as [[[[| | |a]|] [[| | |b]|] [[| | |c]|] v]|]; try discriminate.
  cbn [Spec.finiteLandmark prop_x prop_y prop_z prop_visibility to_number
       Spec.isFinite andb].
  intros Hv.
  assert (Hlow : ltb (or_default v (Fin 1)) (Fin 0.3) = false).
  { destruct v as [w|]; [now apply visible_not_low | reflexivity]. }
  unfold pairDistance; cbn [prop_x prop_y prop_z prop_visibility isNaN orb].
  rewrite Hlow, !sub_self. reflexivity.
Qed.

Lemma get_finite (L : list slot) (i : nat) :
  forallb Spec.finiteLandmark L = true -> (i < List.length L)%nat ->
  Spec.finiteLandmark (get L i) = true.
Proof.
  intros HL Hi. unfold get.
  destruct (nth_error L i) as [s|] eqn:E.
  - rewrite forallb_forall in HL. apply HL. eapply nth_error_In, E.
  - apply nth_error_None in E. lia.
Qed.

Lemma similarityStep_self (L : list slot) (c : Q) (acc : number * number) (i : nat) :
  forallb Spec.finiteLandmark L = true -> (i < List.length L)%nat ->
  selfAccumulator c acc -> selfAccumulator (c + 1) (similarityStep L L acc i).
Proof.
  intros HL Hi [Ht [v [Hv Hc]]]. unfold similarityStep.
  rewrite (pairDistance_self _ (get_finite L i HL Hi)).
  destruct acc as [t w]. cbn [fst snd] in *. subst t w.
  destruct (weightOf_cases i) as [-> | ->]; (split; [reflexivity|]);
    cbn [snd add fin]; eexists; (split; [reflexivity|]);
    rewrite Qred_correct; lra.
Qed.

Lemma similarityLoop_self (L : list slot) (indices : list nat) :
  forallb Spec.finiteLandmark L = true ->
  forall (c : Q) (acc : number * number),
    Forall (fun i => (i < List.length L)%nat) indices ->
    selfAccumulator c acc ->
    selfAccumulator (c + inject_Z (Z.of_nat (List.length indices)))
      (fold_left (similarityStep L L) indices acc).
Proof.
  intros HL. induction indices as [|i rest IH]; intros c acc Hin Hacc.
  - cbn [fold_left List.length]. destruct Hacc as [Ht [v [Hv Hc]]].
    split; [assumption|]. exists v. split; [assumption|].
    change (inject_Z (Z.of_nat 0)) with 0. lra.
  - inversion Hin as [|? ? Hi Hrest]; subst.
    cbn [fold_left].
    pose proof (IH (c + 1) _ Hrest (similarityStep_self L c acc i HL Hi Hacc))
      as [Ht [v [Hv Hc]]].
    split; [assumption|]. exists v. split; [assumption|].
    cbn [List.length]. rewrite Nat2Z.inj_succ, <- Z.add_1_r, inject_Z_plus.
    change (inject_Z 1) with 1. lra.
Qed.

(** A non-empty pose with finite, visible landmarks scores 1 against
    itself. *)
Lemma identical_poses_score_one (L : list slot) :
  L <> [] -> forallb Spec.finiteLandmark L = true ->
  calculateSimilarityScore (Arr L) (Arr L) = Fin 1.
Proof.
  intros Hne HL. unfold calculateSimilarityScore.
  destruct L as [|s L']; [congruence|]. set (L := s :: L') in *.
  cbn [List.length Nat.eqb orb].
  assert (Hloop : selfAccumulator
            (0 + inject_Z (Z.of_nat (List.length (seq 0 (List.length L)))))
            (similarityLoop L L)).
  { unfold similarityLoop. rewrite Nat.min_id.
    apply similarityLoop_self; [assumption| |split; [reflexivity|]].
    - apply Forall_forall. intros i Hi. apply in_seq in Hi. lia.
    - exists 0. split; [reflexivity|lra]. }
  rewrite length_seq in Hloop.
  destruct Hloop as [Ht [v [Hv Hc]]].
  destruct (similarityLoop L L) as [t w]. cbn [fst snd] in Ht, Hv. subst t w.
  assert (Hpos : 1 <= v).
  { subst L. cbn [List.length] in Hc.
    rewrite Nat2Z.inj_succ, <- Z.add_1_r, inject_Z_plus in Hc.
    assert (0 <= inject_Z (Z.of_nat (List.length L'))).
    { change 0 with (inject_Z 0). rewrite <- Zle_Qle. lia. }
    change (inject_Z 1) with 1 in Hc. lra. }
  assert (Hz : strictEq (Fin v) (Fin 0) = false).
  { cbn [strictEq]. apply not_true_iff_false. rewrite Qeq_bool_iff. lra. }
  rewrite Hz. cbn [div].
  assert (Hs : Qsign v = Gt) by (apply Qsign_Gt; lra).
  rewrite Hs.
  replace (fin (0 / v)) with (Fin 0).
  - reflexivity.
  - transitivity (fin 0); [reflexivity|]. apply fin_ext. field. lra.
Qed.

(** C3, as amended.  For every 33-landmark set [L] whose landmarks all have
    finite numeric [x], [y], [z] and a visibility of at least 0.3 (an absent
    visibility counting as 1.0), [calculateSimilarityScore(L, L)] equals
    1.0. *)
Theorem identical_pose_similarity (L : list slot) :
  List.length L = 33%nat ->
  forallb Spec.finiteLandmark L = true ->
  calculateSimilarityScore (Arr L) (Arr L) = Fin 1.
Proof.
  intros Hlen HL. apply identical_poses_score_one; [|assumption].
  intros ->. discriminate.
Qed.

Lemma identical_pose_similarity_witness :
  calculateSimilarityScore (Arr (createTestLandmarks 0.5 0.5 0.1))
                           (Arr (createTestLandmarks 0.5 0.5 0.1)) = Fin 1.
Proof.
  apply (identical_pose_similarity (createTestLandmarks 0.5 0.5 0.1)).
  - reflexivity.
  - vm_compute. reflexivity.
Defined.

(** C3, as stated, fails: thirty-three landmarks with numeric, non-NaN
    coordinates and full visibility, all at [x = +Infinity], score 0 against
    themselves (every difference [Infinity - Infinity] is [NaN], so every
    pair is skipped). *)
Lemma infinite_pose_similarity :
  List.length infiniteLandmarks = 33%nat
  /\ forallb Spec.numericLandmark infiniteLandmarks = true
  /\ calculateSimilarityScore (Arr infiniteLandmarks) (Arr infiniteLandmarks)
     = Fin 0
  /\ calculateSimilarityScore (Arr infiniteLandmarks) (Arr infiniteLandmarks)
     <> Fin 1.
Proof.
  repeat split; try (vm_compute; reflexivity).
  vm_compute. discriminate.
Qed.

(** *** Which pairs the loop skips *)

Lemma effective_visibility (v : option number) (l : LandmarkObject) :
  prop_visibility l = v ->
  Spec.zeroVisibility (Some l) = false ->
  ltb (or_default v (Fin 1)) (Fin 0.3) = Spec.lowVisibility (Some l).
Proof.
  intros <-. cbn [Spec.zeroVisibility Spec.lowVisibility].
  destruct (prop_visibility l) as [[| | |q]|]; cbn [or_default truthy]; try reflexivity.
  intros ->. reflexivity.
Qed.

Lemma pairDistance_skips (s1 s2 : slot) :
  Spec.zeroVisibility s1 = false -> Spec.zeroVisibility s2 = false ->
  pairDistance s1 s2 = None <->
  Spec.skipsPair s1 s2 || Spec.sameInfinityOnAnAxis s1 s2 = true.
Proof.
  intros Hz1 Hz2.
  destruct s1 as [l1|]; [|split; reflexivity].
  destruct s2 as [l2|];
    [|split; [intros _; unfold Spec.skipsPair; cbn [Spec.missingField];
              now rewrite orb_true_r | reflexivity]].
  unfold pairDistance.
  rewrite (effective_visibility _ l1 eq_refl Hz1), (effective_visibility _ l2 eq_refl Hz2).
  unfold Spec.skipsPair, Spec.sameInfinityOnAnAxis, Spec.missingField, Spec.nanField.
  generalize (Spec.lowVisibility (Some l1)) as b1.
  generalize (Spec.lowVisibility (Some l2)) as b2.
  clear Hz1 Hz2. intros b2 b1.
  destruct l1 as [[x1|] [y1|] [z1|] v1], l2 as [[x2|] [y2|] [z2|] v2];
    cbn [prop_x prop_y prop_z to_number orb];
    try (split; [reflexivity | reflexivity]);
    try (split; intros _; [now rewrite ?orb_true_r | reflexivity]).
  destruct (isNaN x1) eqn:Ex1; [split; reflexivity|].
  destruct (isNaN y1) eqn:Ey1; [split; reflexivity|].
  destruct (isNaN z1) eqn:Ez1; [split; reflexivity|].
  destruct (isNaN x2) eqn:Ex2; [split; reflexivity|].
  destruct (isNaN y2) eqn:Ey2; [split; reflexivity|].
  destruct (isNaN z2) eqn:Ez2; [split; reflexivity|].
  destruct b1; [split; reflexivity|].
  destruct b2; [split; reflexivity|].
  cbn [orb].
  destruct (square_diff_cases x1 x2 Ex1 Ex2) as [[-> ->]|[-> Hx]];
    [split; reflexivity|].
  destruct (square_diff_cases y1 y2 Ey1 Ey2) as [[-> ->]|[-> Hy]];
    [rewrite add_NaN_r; split; reflexivity|].
  destruct (square_diff_cases z1 z2 Ez1 Ez2) as [[-> ->]|[-> Hz]];
    [rewrite add_NaN_r; split; reflexivity|].
  rewrite sqrt_defined by (repeat apply add_distanceLike; assumption).
  split; discriminate.
Qed.

(** C1, as amended.  In [calculateSimilarityScore], for every index below
    [min(len(A), len(B))] at which neither landmark has a visibility of
    exactly 0, the pair is skipped -- the accumulators are left as they are
    -- if and only if either landmark is missing a required numeric field,
    one of [x], [y], [z] is NaN, either visibility (an absent one counting
    as 1.0) is below 0.3, or the two landmarks hold the same infinity on an
    axis (the distance is then NaN); every other pair adds its weighted
    distance and its weight. *)
Theorem pair_skipped_iff (pose1 pose2 : list slot) (i : nat) :
  (i < Nat.min (List.length pose1) (List.length pose2))%nat ->
  Spec.zeroVisibility (get pose1 i) = false ->
  Spec.zeroVisibility (get pose2 i) = false ->
  (pairDistance (get pose1 i) (get pose2 i) = None <->
   Spec.skipsPair (get pose1 i) (get pose2 i)
   || Spec.sameInfinityOnAnAxis (get pose1 i) (get pose2 i) = true)
  /\ (forall acc,
        pairDistance (get pose1 i) (get pose2 i) = None ->
        similarityStep pose1 pose2 acc i = acc)
  /\ (forall acc d,
        pairDistance (get pose1 i) (get pose2 i) = Some d ->
        similarityStep pose1 pose2 acc i
        = (add (fst acc) (mul d (weightOf i)), add (snd acc) (weightOf i))).
Proof.
  intros _ Hz1 Hz2. split; [now apply pairDistance_skips|].
  split; intros acc; [intros H | intros d H]; unfold similarityStep;
    now rewrite H.
Qed.

Lemma pair_skipped_iff_witness :
  (pairDistance (get (createTestLandmarks 0.5 0.5 0.1) 0)
                (get (createTestLandmarks 0.7 0.3 0.2) 0) = None <->
   Spec.skipsPair (get (createTestLandmarks 0.5 0.5 0.1) 0)
                  (get (createTestLandmarks 0.7 0.3 0.2) 0)
   || Spec.sameInfinityOnAnAxis (get (createTestLandmarks 0.5 0.5 0.1) 0)
                                (get (createTestLandmarks 0.7 0.3 0.2) 0) = true).
Proof.
  apply (pair_skipped_iff (createTestLandmarks 0.5 0.5 0.1)
                          (createTestLandmarks 0.7 0.3 0.2) 0).
  - vm_compute. lia.
  - reflexivity.
  - reflexivity.
Defined.

(** C1, as stated, fails twice.  A fully visible pair at [x = +Infinity]
    meets none of the listed conditions and is skipped all the same; a
    pair whose visibility is explicitly 0 is below 0.3 and is counted all
    the same: the pose made of it scores 1 against itself. *)
Lemma pair_skipped_counterexample :
  (0 < Nat.min (List.length [farLandmark]) (List.length [farLandmark]))%nat
  /\ Spec.skipsPair (get [farLandmark] 0) (get [farLandmark] 0) = false
  /\ pairDistance (get [farLandmark] 0) (get [farLandmark] 0) = None
  /\ Spec.skipsPair (get [hiddenLandmark] 0) (get [hiddenLandmark] 0) = true
  /\ pairDistance (get [hiddenLandmark] 0) (get [hiddenLandmark] 0)
     = Some (Fin 0)
  /\ calculateSimilarityScore (Arr [hiddenLandmark]) (Arr [hiddenLandmark])
     = Fin 1.
Proof.
  repeat split; vm_compute; reflexivity.
Qed.

End Scorer.

(** ** Movement sequences *)

Section Movement.

Local Open Scope Q_scope.

Variable exp_approx : Q -> Q.

(** With a single frame the position is [0 / 0]: the weight is [NaN],
    whatever [Math.exp] approximates. *)
Lemma temporalWeight_single : temporalWeight exp_approx 1 0 = NaN.
Proof. reflexivity. Qed.

Lemma mul_NaN_r (a : number) : mul a NaN = NaN.
Proof. now destruct a. Qed.

Lemma calculateTemporalScore_single (s : number) :
  calculateTemporalScore exp_approx [s] = Fin 0.
Proof.
  unfold calculateTemporalScore.
  cbn [List.length Nat.eqb seq map combine fold_left fst snd].
  rewrite temporalWeight_single, mul_NaN_r. reflexivity.
Qed.

(** C2, at the failing input.  The aggregator gives a one-element list of
    frame scores [[s]] the score 0, not [s]: the lone frame gets the weight
    [NaN], and the guard [totalWeight > 0] then answers 0.  So
    [compareMovementSequence] over two one-frame sequences has score 0 and
    never matches, however close the two frames are. *)
Theorem single_frame_scores_zero (s : number)
    (frame1 frame2 : TimestampedLandmarks) (difficulty : DifficultyLevel) :
  calculateTemporalScore exp_approx [s] = Fin 0
  /\ calculateTemporalScore exp_approx [Fin 1] <> Fin 1
  /\ score (compareMovementSequence exp_approx (Arr [frame1]) (Arr [frame2])
              difficulty) = Fin 0
  /\ isMatch (compareMovementSequence exp_approx (Arr [frame1]) (Arr [frame2])
                difficulty) = false.
Proof.
  split; [apply calculateTemporalScore_single|].
  split; [rewrite calculateTemporalScore_single; discriminate|].
  unfold compareMovementSequence, compareMovementSequenceWith.
  cbn [List.length Nat.eqb orb normalizeSequenceLength bind Nat.min seq
       forEach nth_error].
  rewrite calculateTemporalScore_single.
  cbn [score isMatch]. split; [reflexivity|]. now destruct difficulty.
Qed.

(** *** A comparison of non-empty sequences never fails

    Resampling reads its source at an integer index below the length, so
    no frame is [undefined] and the [catch] branch is not taken. *)

Lemma forEach_total {A : Type} (f : nat -> option A) (indices : list nat) :
  (forall i, In i indices -> exists a, f i = Some a) ->
  exists out, forEach f indices = Some out
              /\ List.length out = List.length indices.
Proof.
  induction indices as [|i rest IH]; intros H.
  - exists []. split; reflexivity.
  - destruct (H i (or_introl Logic.eq_refl)) as [a Ha].
    destruct IH as [out [Hout Hlen]].
    { intros j Hj. apply H. now right. }
    exists (a :: out). cbn [forEach bind]. rewrite Ha. cbn [bind].
    rewrite Hout. cbn [bind List.length]. split; [reflexivity | now rewrite Hlen].
Qed.

(** An integer index inside the array reads an element. *)
Lemma index_integer {A : Type} (arr : list A) (z : Z) :
  (0 <= z < Z.of_nat (List.length arr))%Z ->
  exists a, index arr (Fin (inject_Z z)) = Some a.
Proof.
  intros [H0 H1]. unfold index. rewrite Qfloor_Z.
  assert (Hq : Qeq_bool (inject_Z z) (inject_Z z) = true)
    by (apply Qeq_bool_iff; reflexivity).
  rewrite Hq. assert (Hz : (0 <=? z)%Z = true) by now apply Z.leb_le.
  rewrite Hz. cbn [andb].
  destruct (nth_error arr (Z.to_nat z)) as [a|] eqn:E; [now exists a|].
  apply nth_error_None in E. lia.
Qed.

Lemma clampedIndex_integer (len i target : nat) :
  (0 < len)%nat -> (0 < target)%nat ->
  exists z, (0 <= z < Z.of_nat len)%Z
    /\ Math.min (Math.floor (mul (of_nat i) (div (of_nat len) (of_nat target))))
                (sub (of_nat len) (Fin 1))
       = Fin (inject_Z z).
Proof.
  intros Hlen Htarget.
  change (Fin 1) with (of_nat 1). rewrite sub_of_nat by lia.
  unfold of_nat at 1 2 3. cbn [div].
  assert (Hs : Qsign (inject_Z (Z.of_nat target)) = Gt).
  { apply Qsign_Gt. change 0 with (inject_Z 0). rewrite <- Zlt_Qlt. lia. }
  rewrite Hs. cbn [fin mul Math.floor].
  set (k := Qfloor _).
  assert (Hk : (0 <= k)%Z).
  { subst k. rewrite <- (Qfloor_Z 0). apply Qfloor_resp_le.
    rewrite !Qred_correct. change (inject_Z 0) with 0.
    assert (0 <= inject_Z (Z.of_nat i)).
    { change 0 with (inject_Z 0). rewrite <- Zle_Qle. lia. }
    assert (0 <= inject_Z (Z.of_nat len) / inject_Z (Z.of_nat target)).
    { apply Qle_shift_div_l.
      - change 0 with (inject_Z 0). rewrite <- Zlt_Qlt. lia.
      - rewrite Qmult_0_l. change 0 with (inject_Z 0). rewrite <- Zle_Qle. lia. }
    now apply Qmult_le_0_compat. }
  unfold Math.min, of_nat. cbn [isNaN orb].
  destruct (ltb _ _) eqn:E.
  - exists (Z.of_nat (len - 1)). split; [lia | reflexivity].
  - exists k. split; [|reflexivity]. apply ltb_Fin_false in E.
    rewrite <- Zle_Qle in E. lia.
Qed.

Lemma normalizeSequenceLength_total (sequence : list TimestampedLandmarks)
    (targetLength : nat) :
  sequence <> [] ->
  exists out, normalizeSequenceLength sequence targetLength = Some out
              /\ List.length out = targetLength.
Proof.
  intros Hne. unfold normalizeSequenceLength.
  destruct (List.length sequence =? targetLength)%nat eqn:E.
  - apply Nat.eqb_eq in E. now exists sequence.
  - destruct (forEach_total
      (fun i =>
         let sourceIndex :=
           Math.floor (mul (of_nat i)
                           (div (of_nat (List.length sequence)) (of_nat targetLength))) in
         let clampedIndex :=
           Math.min sourceIndex (sub (of_nat (List.length sequence)) (Fin 1)) in
         bind (index sequence clampedIndex)
           (fun frame => Some (mkTimestampedLandmarks (timestamp frame) (landmarks frame))))
      (seq 0 targetLength)) as [out [Hout Hlen]].
    + intros i Hi. apply in_seq in Hi. cbv zeta.
      destruct (clampedIndex_integer (List.length sequence) i targetLength)
        as [z [Hz ->]].
      * destruct sequence; [congruence | cbn; lia].
      * lia.
      * destruct (index_integer sequence z Hz) as [frame ->].
        cbn [bind]. eexists. reflexivity.
    + exists out. split; [exact Hout|]. now rewrite Hlen, length_seq.
Qed.

Lemma compareMovementSequence_feedback
    (r c : list TimestampedLandmarks) (difficulty : DifficultyLevel) :
  r <> [] -> c <> [] ->
  exists frameScores,
    List.length frameScores = Nat.min (List.length r) (List.length c)
    /\ compareMovementSequence exp_approx (Arr r) (Arr c) difficulty
       = mkComparisonResult
           (geb (calculateTemporalScore exp_approx frameScores)
               (DIFFICULTY_THRESHOLDS difficulty))
           (calculateTemporalScore exp_approx frameScores)
           (generateMovementFeedback frameScores
              (calculateTemporalScore exp_approx frameScores)
              (DIFFICULTY_THRESHOLDS difficulty))
           (generateMovementSuggestions r c difficulty).
Proof.
  intros Hr Hc. unfold compareMovementSequence, compareMovementSequenceWith.
  assert (Hg : (List.length r =? 0)%nat || (List.length c =? 0)%nat = false).
  { destruct r, c; try congruence. reflexivity. }
  rewrite Hg.
  destruct (normalizeSequenceLength_total r (List.length c) Hr) as [nr [-> Hnr]].
  destruct (normalizeSequenceLength_total c (List.length r) Hc) as [nc [-> Hnc]].
  cbn [bind].
  destruct (forEach_total
    (fun i =>
       bind (nth_error nr i) (fun frame1 =>
       bind (nth_error nc i) (fun frame2 =>
       Some (calculateSimilarityScore (Arr (landmarks frame1))
                                      (Arr (landmarks frame2))))))
    (seq 0 (Nat.min (List.length nr) (List.length nc)))) as [fs [Hfs Hlen]].
  - intros i Hi. apply in_seq in Hi.
    destruct (nth_error nr i) as [f1|] eqn:E1;
      [|apply nth_error_None in E1; lia].
    destruct (nth_error nc i) as [f2|] eqn:E2;
      [|apply nth_error_None in E2; lia].
    cbn [bind]. eexists. reflexivity.
  - exists fs. split.
    + rewrite Hlen, length_seq, Hnr, Hnc. apply Nat.min_comm.
    + rewrite Hfs. reflexivity.
Qed.

(** *** Movement phases *)

Lemma thirds_bounds (n : nat) :
  (n / 3 <= 2 * n / 3 /\ 2 * n / 3 <= n)%nat.
Proof.
  pose proof (Nat.div_mod_eq n 3). pose proof (Nat.div_mod_eq (2 * n) 3).
  pose proof (Nat.mod_upper_bound n 3). pose proof (Nat.mod_upper_bound (2 * n) 3).
  lia.
Qed.

Lemma middle_third_length (n : nat) :
  (n mod 3 <> 2 -> 2 * n / 3 - n / 3 = n / 3)%nat.
Proof.
  pose proof (Nat.div_mod_eq n 3). pose proof (Nat.div_mod_eq (2 * n) 3).
  pose proof (Nat.mod_upper_bound n 3). pose proof (Nat.mod_upper_bound (2 * n) 3).
  lia.
Qed.

Lemma beginning_mean (l : list number) :
  div (sum (slice l 0 (List.length l / 3))) (of_nat (List.length l / 3))
  = Spec.mean (Spec.beginning l).
Proof.
  unfold Spec.mean, Spec.beginning, slice, sum.
  rewrite Nat.sub_0_r. cbn [skipn].
  rewrite length_firstn, Nat.min_l; [reflexivity|].
  pose proof (thirds_bounds (List.length l)). lia.
Qed.

Lemma ending_mean (l : list number) :
  div (sum (skipn (2 * List.length l / 3) l))
      (sub (of_nat (List.length l)) (of_nat (2 * List.length l / 3)))
  = Spec.mean (Spec.ending l).
Proof.
  unfold Spec.mean, Spec.ending, sum.
  rewrite length_skipn, sub_of_nat; [reflexivity|].
  apply thirds_bounds.
Qed.

Lemma middle_mean (l : list number) :
  (List.length l mod 3 <> 2)%nat ->
  div (sum (slice l (List.length l / 3) (2 * List.length l / 3)))
      (of_nat (List.length l / 3))
  = Spec.mean (Spec.middle l).
Proof.
  intros H. unfold Spec.mean, Spec.middle, slice, sum.
  rewrite length_firstn, length_skipn, Nat.min_l.
  - now rewrite middle_third_length.
  - pose proof (thirds_bounds (List.length l)). lia.
Qed.

(** C8, as amended.  The feedback of [compareMovementSequence] on two
    non-empty sequences is the headline followed by the phase lines of its
    frame scores.  Fewer than three frame scores get no phase line.  From
    three frame scores on, the list is cut at [floor(n/3)] and
    [floor(2n/3)]; the line of the first third is appended exactly when the
    mean of that third is below 0.6, and so is the line of the last third;
    the line of the middle third likewise whenever [n mod 3] is not 2. *)
Theorem movement_phase_lines (frameScores : list number)
    (overallScore threshold : number) :
  (forall r c difficulty,
      r <> [] -> c <> [] ->
      exists scores headline,
        List.length scores = Nat.min (List.length r) (List.length c)
        /\ feedback (compareMovementSequence exp_approx (Arr r) (Arr c) difficulty)
           = headline :: analyzeMovementPhases scores)
  /\ (exists headline,
        generateMovementFeedback frameScores overallScore threshold
        = headline :: analyzeMovementPhases frameScores)
  /\ ((List.length frameScores < 3)%nat ->
      analyzeMovementPhases frameScores = [])
  /\ ((3 <= List.length frameScores)%nat ->
      exists middleLines,
        analyzeMovementPhases frameScores
        = (if ltb (Spec.mean (Spec.beginning frameScores)) (Fin 0.6)
           then [Spec.beginningLine] else [])
            ++ middleLines
            ++ (if ltb (Spec.mean (Spec.ending frameScores)) (Fin 0.6)
                then [Spec.endingLine] else [])
        /\ ((List.length frameScores mod 3 <> 2)%nat ->
            middleLines
            = if ltb (Spec.mean (Spec.middle frameScores)) (Fin 0.6)
              then [Spec.middleLine] else [])).
Proof.
  split; [|split; [|split]].
  - intros r c difficulty Hr Hc.
    destruct (compareMovementSequence_feedback r c difficulty Hr Hc)
      as [scores [Hlen ->]].
    exists scores. eexists. split; [exact Hlen | reflexivity].
  - eexists; reflexivity.
  - intros H. unfold analyzeMovementPhases.
    apply Nat.ltb_lt in H. now rewrite H.
  - intros H. unfold analyzeMovementPhases.
    apply Nat.ltb_ge in H. rewrite H.
    rewrite beginning_mean, ending_mean.
    eexists. split; [reflexivity|].
    intros Hmod. now rewrite middle_mean.
Qed.

End Movement.

Lemma movement_phase_lines_witness :
  exists middleLines,
    analyzeMovementPhases [Fin 0.5; Fin 0.9; Fin 0.9]
    = (if ltb (Spec.mean (Spec.beginning [Fin 0.5; Fin 0.9; Fin 0.9])) (Fin 0.6)
       then [Spec.beginningLine] else [])
        ++ middleLines
        ++ (if ltb (Spec.mean (Spec.ending [Fin 0.5; Fin 0.9; Fin 0.9])) (Fin 0.6)
            then [Spec.endingLine] else [])
    /\ ((List.length [Fin 0.5; Fin 0.9; Fin 0.9] mod 3 <> 2)%nat ->
        middleLines
        = if ltb (Spec.mean (Spec.middle [Fin 0.5; Fin 0.9; Fin 0.9])) (Fin 0.6)
          then [Spec.middleLine] else []).
Proof.
  apply (movement_phase_lines exp_taylor
           [Fin 0.5; Fin 0.9; Fin 0.9] (Fin 0.8) (Fin 0.7)).
  cbn [List.length]. lia.
Defined.

(** C8, as stated, fails on short lists: the lone frame score 0.5 is the
    last third of its list and its mean is below 0.6, yet no phase line is
    appended. *)
Lemma movement_phase_lines_counterexample :
  Spec.phaseLines [Fin 0.5] = [Spec.endingLine]
  /\ analyzeMovementPhases [Fin 0.5] = []
  /\ generateMovementFeedback [Fin 0.5] (Fin 0) (Fin 0.7)
     = ["Movement similarity: 0.0% (target: 70.0%)"%string].
Proof. repeat split; vm_compute; reflexivity. Qed.

(** With five frame scores the middle third holds two of them, and their
    sum is divided by [floor(5/3) = 1]: a middle third of mean 0.5 passes
    for 1.0 and gets no line. *)
Example middle_third_divisor :
  Spec.phaseLines [Fin 1; Fin 0.5; Fin 0.5; Fin 1; Fin 1] = [Spec.middleLine]
  /\ analyzeMovementPhases [Fin 1; Fin 0.5; Fin 0.5; Fin 1; Fin 1] = [].
Proof. split; vm_compute; reflexivity. Qed.

(** One frame against itself: the frame scores 1, the movement 0. *)
Example single_identical_frame :
  let frame := mkTimestampedLandmarks (Fin 0) (createTestLandmarks 0.5 0.5 0.1) in
  calculateSimilarityScore (Arr (landmarks frame)) (Arr (landmarks frame)) = Fin 1
  /\ compareMovementSequence exp_taylor (Arr [frame]) (Arr [frame]) soft
     = mkComparisonResult false (Fin 0)
         ["Movement similarity: 0.0% (target: 70.0%)"%string]
         ["Focus on smooth, controlled movements"%string;
          "Try to maintain consistent timing throughout the sequence"%string].
Proof. split; vm_compute; reflexivity. Qed.

(** ** Pose comparison *)

Section Poses.

Local Open Scope Q_scope.

(** C7.  For every difficulty, [comparePoses] with an argument that is not
    an array returns [isMatch = false], [score = 0] and the feedback
    [['Invalid pose data provided']]; with two arrays of which one is empty
    it returns [isMatch = false], [score = 0] and the feedback
    [['Missing pose landmarks']].  No scoring takes place: the result is the
    same whatever the scoring method would answer. *)
Theorem comparePoses_rejects_unusable_input
    (difficulty : DifficultyLevel) (other : arg slot) (elems : list slot) :
  (forall scoreOf,
      comparePosesWith scoreOf NotArray other difficulty = Spec.invalidPoseResult
      /\ comparePosesWith scoreOf other NotArray difficulty = Spec.invalidPoseResult
      /\ comparePosesWith scoreOf (Arr []) (Arr elems) difficulty
         = Spec.missingPoseResult
      /\ comparePosesWith scoreOf (Arr elems) (Arr []) difficulty
         = Spec.missingPoseResult)
  /\ comparePoses NotArray other difficulty = Spec.invalidPoseResult
  /\ comparePoses other NotArray difficulty = Spec.invalidPoseResult
  /\ comparePoses (Arr []) (Arr elems) difficulty = Spec.missingPoseResult
  /\ comparePoses (Arr elems) (Arr []) difficulty = Spec.missingPoseResult
  /\ isMatch Spec.invalidPoseResult = false
  /\ score Spec.invalidPoseResult = Fin 0
  /\ feedback Spec.invalidPoseResult = ["Invalid pose data provided"%string]
  /\ isMatch Spec.missingPoseResult = false
  /\ score Spec.missingPoseResult = Fin 0
  /\ In "Missing pose landmarks"%string (feedback Spec.missingPoseResult).
Proof.
  assert (H : forall scoreOf,
      comparePosesWith scoreOf NotArray other difficulty = Spec.invalidPoseResult
      /\ comparePosesWith scoreOf other NotArray difficulty = Spec.invalidPoseResult
      /\ comparePosesWith scoreOf (Arr []) (Arr elems) difficulty
         = Spec.missingPoseResult
      /\ comparePosesWith scoreOf (Arr elems) (Arr []) difficulty
         = Spec.missingPoseResult).
  { intros scoreOf. split; [|split; [|split]].
    - reflexivity.
    - now destruct other.
    - reflexivity.
    - unfold comparePosesWith. cbn [List.length Nat.eqb].
      now rewrite orb_true_r. }
  split; [exact H|].
  destruct (H calculateSimilarityScore) as (H1 & H2 & H3 & H4).
  repeat split; try assumption. now left.
Qed.

(** Whether the feedback and the suggestions can be produced does not
    depend on the score or the difficulty. *)
Lemma comparePoses_isMatch (r c : list slot) (difficulty : DifficultyLevel) :
  isMatch (comparePoses (Arr r) (Arr c) difficulty) = true ->
  (List.length r =? 0)%nat || (List.length c =? 0)%nat = false
  /\ analyzeBodyPartDifferences r c <> None
  /\ findMajorDifferences r c <> None
  /\ geb (calculateSimilarityScore (Arr r) (Arr c))
        (DIFFICULTY_THRESHOLDS difficulty) = true.
Proof.
  unfold comparePoses, comparePosesWith.
  destruct (_ || _); [discriminate|].
  unfold generatePoseFeedback, generatePoseSuggestions.
  destruct (analyzeBodyPartDifferences r c); [|discriminate].
  destruct (findMajorDifferences r c); [|discriminate].
  cbn [bind isMatch]. intros H. repeat split; (assumption || discriminate).
Qed.

Lemma comparePoses_isMatch_intro (r c : list slot) (difficulty : DifficultyLevel) :
  (List.length r =? 0)%nat || (List.length c =? 0)%nat = false ->
  analyzeBodyPartDifferences r c <> None ->
  findMajorDifferences r c <> None ->
  geb (calculateSimilarityScore (Arr r) (Arr c))
     (DIFFICULTY_THRESHOLDS difficulty) = true ->
  isMatch (comparePoses (Arr r) (Arr c) difficulty) = true.
Proof.
  intros Hg Ha Hf Hs. unfold comparePoses, comparePosesWith. rewrite Hg.
  unfold generatePoseFeedback, generatePoseSuggestions.
  destruct (analyzeBodyPartDifferences r c); [|congruence].
  destruct (findMajorDifferences r c); [|congruence].
  exact Hs.
Qed.

Lemma geb_weaken (a : number) (p q : Q) :
  q <= p -> geb a (Fin p) = true -> geb a (Fin q) = true.
Proof.
  intros Hpq. unfold geb. destruct a as [| | |r]; try easy.
  rewrite !leb_Fin. lra.
Qed.

(** C6.  With the two landmark sets fixed, the verdict of [comparePoses]
    is antitone in the difficulty: when the call with [hard] matches, so
    does the call with [medium], and when [medium] matches, so does [soft];
    the thresholds are 0.70, 0.80 and 0.90. *)
Theorem match_antitone_in_difficulty (recorded current : arg slot) :
  (isMatch (comparePoses recorded current hard) = true ->
   isMatch (comparePoses recorded current medium) = true)
  /\ (isMatch (comparePoses recorded current medium) = true ->
      isMatch (comparePoses recorded current soft) = true)
  /\ DIFFICULTY_THRESHOLDS soft = Fin 0.7
  /\ DIFFICULTY_THRESHOLDS medium = Fin 0.8
  /\ DIFFICULTY_THRESHOLDS hard = Fin 0.9.
Proof.
  split; [|split; [|repeat split]].
  - destruct recorded as [|r], current as [|c]; try discriminate.
    intros H. apply comparePoses_isMatch in H.
    destruct H as (Hg & Ha & Hf & Hs).
    apply comparePoses_isMatch_intro; try assumption.
    apply (geb_weaken _ 0.9 0.8); [lra | exact Hs].
  - destruct recorded as [|r], current as [|c]; try discriminate.
    intros H. apply comparePoses_isMatch in H.
    destruct H as (Hg & Ha & Hf & Hs).
    apply comparePoses_isMatch_intro; try assumption.
    apply (geb_weaken _ 0.8 0.7); [lra | exact Hs].
Qed.

Lemma match_antitone_in_difficulty_witness :
  isMatch (comparePoses (Arr (createTestLandmarks 0.5 0.5 0.1))
                        (Arr (createTestLandmarks 0.5 0.5 0.1)) medium) = true.
Proof.
  apply (match_antitone_in_difficulty
           (Arr (createTestLandmarks 0.5 0.5 0.1))
           (Arr (createTestLandmarks 0.5 0.5 0.1))).
  vm_compute. reflexivity.
Defined.

End Poses.

(** ** Normalization and the quality gate *)

Section Landmarks.

Import MediaPipeService Validation.
Local Open Scope Q_scope.

Lemma clamp_clampedFrom (a : number) :
  Spec.clampedFrom a (Math.max (Fin 0) (Math.min (Fin 1) a)).
Proof.
  destruct a as [| | |q]; try (vm_compute; intuition congruence).
  cbn [Spec.clampedFrom]. unfold Math.min. cbn [isNaN orb].
  unfold Spec.inUnitInterval, gtb.
  destruct (ltb (Fin q) (Fin 1)) eqn:E1; unfold Math.max; cbn [isNaN orb].
  - apply ltb_Fin in E1.
    destruct (ltb (Fin 0) (Fin q)) eqn:E0.
    + apply ltb_Fin in E0. split; [|split; [|split]].
      * apply andb_true_iff. split; apply leb_Fin; lra.
      * rewrite ltb_Fin. lra.
      * rewrite ltb_Fin. lra.
      * intros _. cbn [strictEq]. apply Qeq_bool_iff. reflexivity.
    + apply ltb_Fin_false in E0. split; [|split; [|split]].
      * reflexivity.
      * reflexivity.
      * rewrite ltb_Fin. lra.
      * rewrite andb_true_iff, !leb_Fin. intros [H _]. cbn [strictEq]. apply Qeq_bool_iff. lra.
  - apply ltb_Fin_false in E1.
    replace (ltb (Fin 0) (Fin 1)) with true by reflexivity.
    split; [|split; [|split]].
    + reflexivity.
    + rewrite ltb_Fin. lra.
    + reflexivity.
    + rewrite andb_true_iff, !leb_Fin. intros [_ H]. cbn [strictEq].
      apply Qeq_bool_iff. lra.
Qed.

(** C9, as amended.  For every landmark, normalization -- [normalizeLandmark]
    and [normalizePoseData] alike -- clamps an [x] and a [y] that are not
    NaN into [0,1], saturating what is out of range, and returns a NaN as
    NaN; it returns [z] unchanged; it clamps a present visibility the same
    way and leaves an absent one absent; it rejects no input: every landmark
    of the list has its normalized landmark in the result. *)
Theorem normalization_clamps (landmark : PoseLandmark) (landmarks : list PoseLandmark) :
  Spec.clampedFrom (x landmark) (x (normalizeLandmark landmark))
  /\ Spec.clampedFrom (y landmark) (y (normalizeLandmark landmark))
  /\ z (normalizeLandmark landmark) = z landmark
  /\ match visibility landmark with
     | Some v =>
         exists r, visibility (normalizeLandmark landmark) = Some r
                   /\ Spec.clampedFrom v r
     | None => visibility (normalizeLandmark landmark) = None
     end
  /\ normalizePoseData landmarks = map normalizeLandmark landmarks
  /\ List.length (normalizePoseData landmarks) = List.length landmarks.
Proof.
  repeat split; try apply clamp_clampedFrom.
  - cbn [normalizeLandmark visibility].
    destruct (visibility landmark) as [v|]; [|reflexivity].
    eexists. split; [reflexivity | apply clamp_clampedFrom].
  - unfold normalizePoseData. apply length_map.
Qed.

(** C9, as stated, fails on NaN: the normalized [x] of a landmark whose [x]
    is NaN is NaN, which is not in [0,1]. *)
Lemma normalization_keeps_NaN :
  x (normalizeLandmark nanLandmark) = NaN
  /\ Spec.inUnitInterval (x (normalizeLandmark nanLandmark)) = false
  /\ map x (normalizePoseData [nanLandmark]) = [NaN].
Proof. repeat split. Qed.

Lemma filter_length_le {A : Type} (f g : A -> bool) (l : list A) :
  (forall a, f a = true -> g a = true) ->
  (List.length (filter f l) <= List.length (filter g l))%nat.
Proof.
  intros H. induction l as [|a l IH]; cbn [filter]; [lia|].
  destruct (f a) eqn:E.
  - rewrite (H a E). cbn [List.length]. lia.
  - destruct (g a); cbn [List.length]; lia.
Qed.

Lemma lowVisibility_present (landmarks : list PoseLandmark) (idx : nat) :
  match nth_error landmarks idx with
  | Some landmark =>
      match visibility landmark with
      | Some v => ltb v (Fin 0.5)
      | None => true
      end
  | None => false
  end = true ->
  (idx <? List.length landmarks)%nat = true.
Proof.
  destruct (nth_error landmarks idx) eqn:E; [|discriminate].
  intros _. apply Nat.ltb_lt, nth_error_Some. congruence.
Qed.

Lemma tooMany_iff (landmarks : list PoseLandmark) :
  In Spec.tooManyLowVisibility (issues (validatePoseQuality landmarks)) <->
  (2 < List.length (lowVisibilityLandmarks landmarks))%nat.
Proof.
  unfold validatePoseQuality.
  destruct (List.length landmarks =? 0)%nat eqn:E0.
  - apply Nat.eqb_eq in E0. destruct landmarks; [|discriminate].
    cbn. split; [intros [H|[]]; discriminate | lia].
  - cbn [issues]. rewrite !in_app_iff.
    destruct (2 <? List.length (lowVisibilityLandmarks landmarks))%nat eqn:E2.
    + apply Nat.ltb_lt in E2. split; [intros _; exact E2|].
      intros _. right. left. now left.
    + apply Nat.ltb_ge in E2. split; [|lia].
      intros [H|[H|H]].
      * destruct (negb _); [|destruct H]. destruct H as [H|[]]. discriminate.
      * destruct H.
      * destruct (0 <? _)%nat; [|destruct H]. destruct H as [H|[]]. discriminate.
Qed.

(** C10.  In [validatePoseQuality] the low-visibility count over the key
    indices 0, 11, 12, 23, 24 only takes indices at which the list holds a
    landmark; the issue 'Too many key landmarks have low visibility' is
    raised exactly when more than two are counted, so a list too short to
    reach the third key index -- a single landmark, say -- never raises
    it. *)
Theorem short_list_not_low_visibility (landmarks : list PoseLandmark) :
  incl (lowVisibilityLandmarks landmarks) (Spec.presentKeyIndices landmarks)
  /\ (List.length (lowVisibilityLandmarks landmarks)
      <= List.length (Spec.presentKeyIndices landmarks))%nat
  /\ (In Spec.tooManyLowVisibility (issues (validatePoseQuality landmarks)) <->
      (2 < List.length (lowVisibilityLandmarks landmarks))%nat)
  /\ ((List.length landmarks <= 12)%nat ->
      ~ In Spec.tooManyLowVisibility (issues (validatePoseQuality landmarks))).
Proof.
  split; [|split; [|split]].
  - intros idx. unfold lowVisibilityLandmarks, Spec.presentKeyIndices.
    rewrite !filter_In. intros [Hin H]. split; [assumption|].
    now apply lowVisibility_present.
  - apply filter_length_le. apply lowVisibility_present.
  - apply tooMany_iff.
  - intros Hlen. rewrite tooMany_iff.
    pose proof (filter_length_le _ _ keyLandmarkIndices
                  (lowVisibility_present landmarks)) as Hle.
    fold (lowVisibilityLandmarks landmarks) in Hle.
    assert (Hkeys : (List.length
              (filter (fun idx => (idx <? List.length landmarks)%nat)
                      keyLandmarkIndices) <= 2)%nat).
    { unfold keyLandmarkIndices. cbn [filter].
      destruct (0 <? _)%nat, (11 <? _)%nat;
        destruct (12 <? _)%nat eqn:E12; try (apply Nat.ltb_lt in E12; lia);
        destruct (23 <? _)%nat eqn:E23; try (apply Nat.ltb_lt in E23; lia);
        destruct (24 <? _)%nat eqn:E24; try (apply Nat.ltb_lt in E24; lia);
        cbn [List.length]; lia. }
    lia.
Qed.

Lemma short_list_not_low_visibility_witness :
  ~ In Spec.tooManyLowVisibility (issues (validatePoseQuality [dimLandmark])).
Proof.
  apply (short_list_not_low_visibility [dimLandmark]).
  cbn [List.length]. lia.
Defined.

End Landmarks.

(** ** Results of the two comparisons *)

Section Results.

Local Open Scope Q_scope.

Lemma calculateSimilarityScore_unit (A B : arg slot) :
  unitNumber (calculateSimilarityScore A B).
Proof.
  destruct A as [|p1], B as [|p2]; try (cbn; lra).
  unfold calculateSimilarityScore.
  destruct (_ || _); [cbn; lra|].
  pose proof (similarityLoop_accumulator p1 p2) as [Ht Hv].
  destruct (similarityLoop p1 p2) as [t v]. cbn [fst snd] in Ht, Hv.
  destruct (strictEq v (Fin 0)) eqn:E; [cbn; lra|].
  now apply similarity_unit.
Qed.

Lemma threshold_positive (d : DifficultyLevel) :
  geb (Fin 0) (DIFFICULTY_THRESHOLDS d) = false.
Proof. now destruct d. Qed.

Lemma generatePoseSuggestions_nonempty (r c : list slot) (d : DifficultyLevel)
    (l : list string) :
  generatePoseSuggestions r c d = Some l -> l <> [].
Proof.
  unfold generatePoseSuggestions.
  destruct (findMajorDifferences r c) as [diff|]; [|discriminate].
  cbn [bind]. intros [= <-].
  destruct (_ ++ _) eqn:E; [discriminate|]. discriminate.
Qed.

(** X1.  Every result of [comparePoses] -- a verdict, an error or a guard
    answer -- is coherent: [isMatch] is [score >= threshold], the score lies
    in [0,1], and neither the feedback nor the suggestions are empty. *)
Theorem comparePoses_result (recorded current : arg slot) (difficulty : DifficultyLevel) :
  let result := comparePoses recorded current difficulty in
  isMatch result = geb (score result) (DIFFICULTY_THRESHOLDS difficulty)
  /\ leb (Fin 0) (score result) = true
  /\ leb (score result) (Fin 1) = true
  /\ feedback result <> []
  /\ suggestions result <> [].
Proof.
  cbv zeta.
  assert (Hfail : forall f s,
    f <> [] -> s <> [] ->
    let result := mkComparisonResult false (Fin 0) f s in
    isMatch result = geb (score result) (DIFFICULTY_THRESHOLDS difficulty)
    /\ leb (Fin 0) (score result) = true
    /\ leb (score result) (Fin 1) = true
    /\ feedback result <> []
    /\ suggestions result <> []).
  { intros f s Hf Hs. cbn [isMatch score feedback suggestions].
    rewrite threshold_positive. repeat split; assumption. }
  unfold comparePoses, comparePosesWith.
  destruct recorded as [|r]; [apply Hfail; discriminate|].
  destruct current as [|c]; [apply Hfail; discriminate|].
  destruct (_ || _); [apply Hfail; discriminate|].
  unfold generatePoseFeedback.
  destruct (analyzeBodyPartDifferences r c) as [lines|];
    [|apply Hfail; discriminate].
  cbn [bind].
  destruct (generatePoseSuggestions r c difficulty) as [sugg|] eqn:Es;
    [|apply Hfail; discriminate].
  cbn [bind isMatch score feedback suggestions].
  pose proof (unitNumber_leb _ (calculateSimilarityScore_unit (Arr r) (Arr c)))
    as [H0 H1].
  repeat split; try assumption; try discriminate.
  eapply generatePoseSuggestions_nonempty, Es.
Qed.

Section MovementResults.

Variable exp_approx : Q -> Q.
Hypothesis exp_nonneg : forall q, 0 <= exp_approx q.

Lemma of_nat_nonneg (n : nat) : 0 <= inject_Z (Z.of_nat n).
Proof. change 0 with (inject_Z 0). rewrite <- Zle_Qle. lia. Qed.

Lemma temporalWeight_weight (n i : nat) :
  (i < n)%nat -> weightOrNaN (temporalWeight exp_approx n i).
Proof.
  intros Hi. unfold temporalWeight.
  change (Fin 1) with (of_nat 1). rewrite sub_of_nat by lia.
  unfold of_nat. cbn [div].
  destruct (Qsign (inject_Z (Z.of_nat (n - 1)))) eqn:Es.
  - (* n = 1, hence i = 0 *)
    apply Qsign_Eq in Es.
    assert (Hn : n = 1%nat).
    { unfold Qeq in Es. cbn in Es. lia. }
    subst n. assert (i = 0%nat) by lia. subst i. exact I.
  - apply Qsign_Lt in Es. pose proof (of_nat_nonneg (n - 1)). lra.
  - cbn [fin mul sub neg Math.exp weightOrNaN]. rewrite Qred_correct.
    apply exp_nonneg.
Qed.

Lemma mean_step (acc : number * number) (s w : number) :
  meanAccumulator acc -> unitNumber s -> weightOrNaN w ->
  meanAccumulator (add (fst acc) (mul s w), add (snd acc) w).
Proof.
  destruct acc as [[| | |a] [| | |b]], s as [| | |s], w as [| | |w];
    cbn [meanAccumulator weightOrNaN unitNumber fst snd add mul fin];
    try easy.
  intros Hab Hs Hw. rewrite !Qred_correct.
  assert (0 <= s * w) by (apply Qmult_le_0_compat; lra).
  assert (s * w <= w) by nra.
  lra.
Qed.

Lemma mean_fold (pairs : list (number * number)) (acc : number * number) :
  Forall (fun sw => unitNumber (fst sw) /\ weightOrNaN (snd sw)) pairs ->
  meanAccumulator acc ->
  meanAccumulator
    (fold_left
       (fun acc sw =>
          (add (fst acc) (mul (fst sw) (snd sw)), add (snd acc) (snd sw)))
       pairs acc).
Proof.
  intros H. revert acc. induction H as [|sw pairs [Hs Hw] _ IH]; intros acc Hacc.
  - exact Hacc.
  - cbn [fold_left]. apply IH. now apply mean_step.
Qed.

Lemma calculateTemporalScore_unit (frameScores : list number) :
  Forall unitNumber frameScores ->
  unitNumber (calculateTemporalScore exp_approx frameScores).
Proof.
  intros Hs. unfold calculateTemporalScore.
  destruct (List.length frameScores =? 0)%nat; [cbn [unitNumber]; lra|].
  match goal with
  | |- context [fold_left ?f ?l ?a] =>
      assert (Hacc : meanAccumulator (fold_left f l a))
  end.
  { apply mean_fold; [|cbn [meanAccumulator fst snd]; lra].
    apply Forall_forall. intros [s w] Hin. cbn [fst snd].
    pose proof (in_combine_l _ _ _ _ Hin) as Hl.
    pose proof (in_combine_r _ _ _ _ Hin) as Hr.
    split.
    - rewrite Forall_forall in Hs. now apply Hs.
    - apply in_map_iff in Hr. destruct Hr as [i [<- Hi]].
      apply in_seq in Hi. apply temporalWeight_weight. lia. }
  destruct (fold_left _ _ _) as [[| | |a] [| | |b]];
    cbn [meanAccumulator fst snd] in Hacc; try easy.
  unfold gtb. destruct (ltb (Fin 0) (Fin b)) eqn:E;
    [|cbn [unitNumber]; lra].
  apply ltb_Fin in E. cbn [div].
  assert (Hsg : Qsign b = Gt) by now apply Qsign_Gt.
  rewrite Hsg. cbn [fin unitNumber]. rewrite Qred_correct.
  split.
  - apply Qle_shift_div_l; lra.
  - apply Qle_shift_div_r; lra.
Qed.

Lemma forEach_Forall {A : Type} (P : A -> Prop) (f : nat -> option A)
    (indices : list nat) (out : list A) :
  (forall i a, f i = Some a -> P a) ->
  forEach f indices = Some out -> Forall P out.
Proof.
  intros H. revert out. induction indices as [|i rest IH]; intros out.
  - intros [= <-]. constructor.
  - cbn [forEach]. destruct (f i) as [a|] eqn:E; [|discriminate].
    cbn [bind]. destruct (forEach f rest) as [others|]; [|discriminate].
    cbn [bind]. intros [= <-]. constructor; [eapply H, E | now apply IH].
Qed.

(** X2.  With a [Math.exp] that returns no negative number, every result
    of [compareMovementSequence] is coherent in the same way: [isMatch] is
    [score >= threshold], the score lies in [0,1], and the feedback and the
    suggestions are not empty. *)
Theorem compareMovementSequence_result
    (recorded current : arg TimestampedLandmarks) (difficulty : DifficultyLevel) :
  let result := compareMovementSequence exp_approx recorded current difficulty in
  isMatch result = geb (score result) (DIFFICULTY_THRESHOLDS difficulty)
  /\ leb (Fin 0) (score result) = true
  /\ leb (score result) (Fin 1) = true
  /\ feedback result <> []
  /\ suggestions result <> [].
Proof.
  cbv zeta.
  assert (Hfail : forall f s,
    f <> [] -> s <> [] ->
    let result := mkComparisonResult false (Fin 0) f s in
    isMatch result = geb (score result) (DIFFICULTY_THRESHOLDS difficulty)
    /\ leb (Fin 0) (score result) = true
    /\ leb (score result) (Fin 1) = true
    /\ feedback result <> []
    /\ suggestions result <> []).
  { intros f s Hf Hs. cbn [isMatch score feedback suggestions].
    rewrite threshold_positive. repeat split; assumption. }
  unfold compareMovementSequence, compareMovementSequenceWith.
  destruct recorded as [|r]; [apply Hfail; discriminate|].
  destruct current as [|c]; [apply Hfail; discriminate|].
  destruct (_ || _); [apply Hfail; discriminate|].
  destruct (normalizeSequenceLength r (List.length c)) as [nr|];
    [|apply Hfail; discriminate].
  destruct (normalizeSequenceLength c (List.length r)) as [nc|];
    [|apply Hfail; discriminate].
  cbn [bind].
  destruct (forEach _ _) as [frameScores|] eqn:Ef; [|apply Hfail; discriminate].
  cbn [bind isMatch score feedback suggestions].
  assert (Hunit : Forall unitNumber frameScores).
  { eapply forEach_Forall; [|exact Ef]. intros i a. cbv beta.
    destruct (nth_error nr i) as [f1|]; [|discriminate].
    destruct (nth_error nc i) as [f2|]; [|discriminate].
    cbn [bind]. intros H.
    replace a with (calculateSimilarityScore (Arr (landmarks f1))
                                             (Arr (landmarks f2)))
      by congruence.
    apply calculateSimilarityScore_unit. }
  pose proof (unitNumber_leb _ (calculateTemporalScore_unit frameScores Hunit))
    as [H0 H1].
  repeat split; try assumption.
  - unfold generateMovementFeedback. discriminate.
  - unfold generateMovementSuggestions.
    destruct (ltb _ _); [discriminate|]. destruct (gtb _ _); discriminate.
Qed.

End MovementResults.

Lemma exp_pade_nonneg (q : Q) : 0 <= exp_pade q.
Proof.
  unfold exp_pade.
  assert (H : 0 < 1 - q + q * q / 2).
  { setoid_replace (1 - q + q * q / 2) with (((1 - q) * (1 - q) + 1) / 2) by field.
    pose proof (Qsquare_nonneg (1 - q)).
    apply Qlt_shift_div_l; lra. }
  apply Qle_shift_div_l; lra.
Qed.

Lemma compareMovementSequence_result_witness :
  let frame := mkTimestampedLandmarks (Fin 0) base in
  let result :=
    compareMovementSequence exp_pade (Arr [frame; frame; frame])
                            (Arr [frame; frame]) medium in
  isMatch result = geb (score result) (DIFFICULTY_THRESHOLDS medium)
  /\ leb (Fin 0) (score result) = true
  /\ leb (score result) (Fin 1) = true
  /\ feedback result <> []
  /\ suggestions result <> [].
Proof.
  apply (compareMovementSequence_result exp_pade exp_pade_nonneg).
Defined.

End Results.

(** ** Poses compared with themselves and with each other *)

Section PosePairs.

Local Open Scope Q_scope.

Lemma get_object (L : list slot) (i : nat) :
  forallb isObject L = true -> (i < List.length L)%nat ->
  exists l, get L i = Some l.
Proof.
  intros HL Hi. unfold get.
  destruct (nth_error L i) as [s|] eqn:E.
  - rewrite forallb_forall in HL. apply nth_error_In in E. apply HL in E.
    destruct s as [l|]; [now exists l | discriminate].
  - apply nth_error_None in E. lia.
Qed.

Lemma finite_self_distance (l : LandmarkObject) :
  Spec.finiteLandmark (Some l) = true ->
  Math.sqrt
    (add (add (mul (sub (to_number (prop_x l)) (to_number (prop_x l)))
                   (sub (to_number (prop_x l)) (to_number (prop_x l))))
              (mul (sub (to_number (prop_y l)) (to_number (prop_y l)))
                   (sub (to_number (prop_y l)) (to_number (prop_y l)))))
         (mul (sub (to_number (prop_z l)) (to_number (prop_z l)))
              (sub (to_number (prop_z l)) (to_number (prop_z l)))))
  = Fin 0.
Proof.
  destruct l as [[[| | |a]|] [[| | |b]|] [[| | |c]|] v]; try discriminate.
  intros _. cbn [prop_x prop_y prop_z to_number]. rewrite !sub_self. reflexivity.
Qed.

Lemma partStep_self (L : list slot) (acc : number * number) (idx : nat) :
  forallb Spec.finiteLandmark L = true ->
  selfPart acc ->
  exists acc', partStep L L (List.length L) acc idx = Some acc' /\ selfPart acc'.
Proof.
  intros HL Hacc. unfold partStep.
  destruct (idx <? List.length L)%nat eqn:E; [|now exists acc].
  apply Nat.ltb_lt in E.
  pose proof (get_finite L idx HL E) as Hfin.
  destruct (get L idx) as [l|]; [|discriminate].
  cbn [bind].
  destruct (geb _ _); [|now exists acc].
  rewrite (finite_self_distance l Hfin).
  eexists. split; [reflexivity|].
  destruct Hacc as [Ht [c [Hc Hc0]]]. destruct acc as [t w].
  cbn [fst snd] in *. subst t w. split; [reflexivity|].
  cbn [snd add fin]. eexists. split; [reflexivity|].
  rewrite Qred_correct. lra.
Qed.

Lemma partLoop_self (L : list slot) (indices : list nat) (acc : number * number) :
  forallb Spec.finiteLandmark L = true ->
  selfPart acc ->
  exists acc', partLoop L L (List.length L) indices acc = Some acc' /\ selfPart acc'.
Proof.
  intros HL. revert acc. induction indices as [|idx rest IH]; intros acc Hacc.
  - now exists acc.
  - cbn [partLoop].
    destruct (partStep_self L acc idx HL Hacc) as [acc1 [-> H1]].
    cbn [bind]. now apply IH.
Qed.

Lemma partDiffers_self (L : list slot) (indices : list nat) :
  forallb Spec.finiteLandmark L = true ->
  partDiffers L L indices = Some false.
Proof.
  intros HL. unfold partDiffers. rewrite Nat.min_id.
  destruct (partLoop_self L indices (Fin 0, Fin 0) HL) as [[t w] [-> H]].
  { split; [reflexivity|]. exists 0. split; [reflexivity | lra]. }
  cbn [bind]. destruct H as [Ht [c [Hc Hc0]]]. cbn [fst snd] in Ht, Hc.
  subst t w. unfold gtb at 1.
  destruct (ltb (Fin 0) (Fin c)) eqn:E; [|reflexivity].
  apply ltb_Fin in E. cbn [div].
  assert (Hs : Qsign c = Gt) by now apply Qsign_Gt.
  rewrite Hs.
  replace (fin (0 / c)) with (Fin 0); [reflexivity|].
  transitivity (fin 0); [reflexivity|]. apply fin_ext. field. lra.
Qed.

(** X3.  A non-empty pose whose landmarks are finite and visible, compared
    with itself, matches at every difficulty: the score is 1, the feedback
    is the one line 'Great job! Pose similarity: 100.0%' with no body part
    named, and the only suggestion is the one of the difficulty. *)
Theorem identical_poses_match (L : list slot) (difficulty : DifficultyLevel) :
  L <> [] -> forallb Spec.finiteLandmark L = true ->
  comparePoses (Arr L) (Arr L) difficulty
  = mkComparisonResult true (Fin 1)
      ["Great job! Pose similarity: 100.0%"%string]
      match difficulty with
      | hard => ["Focus on precise positioning - small adjustments matter"%string]
      | soft => ["Get the general pose shape right - precision will come with practice"%string]
      | medium => ["Keep practicing to improve your pose accuracy"%string]
      end.
Proof.
  intros Hne HL. unfold comparePoses, comparePosesWith.
  assert (Hg : (List.length L =? 0)%nat = false).
  { destruct L; [congruence | reflexivity]. }
  rewrite Hg. cbn [orb].
  rewrite (identical_poses_score_one L Hne HL).
  unfold generatePoseFeedback, generatePoseSuggestions,
    analyzeBodyPartDifferences, findMajorDifferences.
  cbn [bodyParts analyzeParts].
  rewrite !partDiffers_self by assumption.
  now destruct difficulty.
Qed.

Lemma identical_poses_match_witness :
  comparePoses (Arr base) (Arr base) hard
  = mkComparisonResult true (Fin 1)
      ["Great job! Pose similarity: 100.0%"%string]
      ["Focus on precise positioning - small adjustments matter"%string].
Proof.
  apply (identical_poses_match base hard).
  - discriminate.
  - vm_compute. reflexivity.
Defined.

Lemma partStep_sym (r c : list slot) (acc : number * number) (idx : nat) :
  forallb isObject r = true -> forallb isObject c = true ->
  partStep r c (Nat.min (List.length r) (List.length c)) acc idx
  = partStep c r (Nat.min (List.length r) (List.length c)) acc idx.
Proof.
  intros Hr Hc. unfold partStep.
  destruct (idx <? _)%nat eqn:E; [|reflexivity].
  apply Nat.ltb_lt in E.
  destruct (get_object r idx Hr) as [l1 ->]; [lia|].
  destruct (get_object c idx Hc) as [l2 ->]; [lia|].
  cbn [bind].
  rewrite (square_sub_sym (to_number (prop_x l1))),
          (square_sub_sym (to_number (prop_y l1))),
          (square_sub_sym (to_number (prop_z l1))).
  destruct (geb (or_default (prop_visibility l1) (Fin 1)) (Fin 0.5)),
           (geb (or_default (prop_visibility l2) (Fin 1)) (Fin 0.5));
    reflexivity.
Qed.

Lemma partLoop_sym (r c : list slot) (indices : list nat) (acc : number * number) :
  forallb isObject r = true -> forallb isObject c = true ->
  partLoop r c (Nat.min (List.length r) (List.length c)) indices acc
  = partLoop c r (Nat.min (List.length r) (List.length c)) indices acc.
Proof.
  intros Hr Hc. revert acc. induction indices as [|idx rest IH]; intros acc.
  - reflexivity.
  - cbn [partLoop]. rewrite partStep_sym by assumption.
    destruct (partStep c r _ acc idx) as [acc'|]; [|reflexivity].
    cbn [bind]. apply IH.
Qed.

Lemma partDiffers_sym (r c : list slot) (indices : list nat) :
  forallb isObject r = true -> forallb isObject c = true ->
  partDiffers r c indices = partDiffers c r indices.
Proof.
  intros Hr Hc. unfold partDiffers.
  rewrite (Nat.min_comm (List.length c)). now rewrite partLoop_sym.
Qed.

Lemma score_sym (p1 p2 : list slot) :
  calculateSimilarityScore (Arr p1) (Arr p2)
  = calculateSimilarityScore (Arr p2) (Arr p1).
Proof.
  unfold calculateSimilarityScore.
  rewrite (similarityLoop_sym p2 p1), (orb_comm (List.length p2 =? 0)%nat).
  reflexivity.
Qed.

(** X4.  When neither array holds a [null] slot, [comparePoses] gives the
    same result -- verdict, score, feedback and suggestions -- whichever
    pose is passed first. *)
Theorem comparePoses_symmetric (recorded current : list slot)
    (difficulty : DifficultyLevel) :
  forallb isObject recorded = true -> forallb isObject current = true ->
  comparePoses (Arr recorded) (Arr current) difficulty
  = comparePoses (Arr current) (Arr recorded) difficulty.
Proof.
  intros Hr Hc. unfold comparePoses, comparePosesWith.
  rewrite (orb_comm (List.length current =? 0)%nat).
  rewrite (score_sym current recorded).
  unfold generatePoseFeedback, generatePoseSuggestions,
    analyzeBodyPartDifferences, findMajorDifferences.
  cbn [bodyParts analyzeParts].
  rewrite !(partDiffers_sym current recorded) by assumption.
  reflexivity.
Qed.

Lemma comparePoses_symmetric_witness :
  comparePoses (Arr base) (Arr (createTestLandmarks 0.7 0.3 0.2)) medium
  = comparePoses (Arr (createTestLandmarks 0.7 0.3 0.2)) (Arr base) medium.
Proof.
  apply (comparePoses_symmetric base (createTestLandmarks 0.7 0.3 0.2) medium);
    reflexivity.
Defined.

(** With a [null] slot the order matters: the visibility of the first
    landmark decides whether the second one is read at all. *)
Example null_slot_breaks_symmetry :
  let dim :=
    Some (mkLandmarkObject (Some (Fin 0)) (Some (Fin 0)) (Some (Fin 0))
                           (Some (Fin 0.1))) in
  feedback (comparePoses (Arr [dim]) (Arr [None]) medium)
  <> feedback (comparePoses (Arr [None]) (Arr [dim]) medium).
Proof. vm_compute. discriminate. Qed.

End PosePairs.

(** ** Resampling *)

Section Resampling.

Local Open Scope Q_scope.












End Resampling.

(** ** Detection results and recorded sequences *)

Section Recording.

Import MediaPipeService Validation.
Local Open Scope Q_scope.
Local Open Scope string_scope.
Local Open Scope list_scope.


Lemma clamp_Fin (q : Q) :
  Math.max (Fin 0) (Math.min (Fin 1) (Fin q))
  = if ltb (Fin q) (Fin 1)
    then if ltb (Fin 0) (Fin q) then Fin q else Fin 0
    else Fin 1.
Proof.
  unfold Math.min. cbn [isNaN orb].
  destruct (ltb (Fin q) (Fin 1)); unfold Math.max; cbn [isNaN orb];
    reflexivity.
Qed.

Lemma clamp_idempotent (a : number) :
  Math.max (Fin 0) (Math.min (Fin 1) (Math.max (Fin 0) (Math.min (Fin 1) a)))
  = Math.max (Fin 0) (Math.min (Fin 1) a).
Proof.
  destruct a as [| | |q]; try reflexivity.
  rewrite (clamp_Fin q).
  destruct (ltb (Fin q) (Fin 1)) eqn:E1; [|reflexivity].
  destruct (ltb (Fin 0) (Fin q)) eqn:E0; [|reflexivity].
  now rewrite clamp_Fin, E1, E0.
Qed.

(** X6. Normalization is idempotent: normalizing a landmark that is
    already normalized changes nothing, for [normalizeLandmark] and for
    [normalizePoseData] over a whole list, NaN and infinite fields
    included. *)
Theorem normalizeLandmark_idempotent (landmark : PoseLandmark)
    (landmarks : list PoseLandmark) :
  normalizeLandmark (normalizeLandmark landmark) = normalizeLandmark landmark
  /\ normalizePoseData (normalizePoseData landmarks) = normalizePoseData landmarks.
Proof.
  assert (H : forall l, normalizeLandmark (normalizeLandmark l) = normalizeLandmark l).
  { intros l. unfold normalizeLandmark. cbn [x y z visibility].
    rewrite !clamp_idempotent.
    destruct (visibility l) as [v|]; [|reflexivity].
    now rewrite clamp_idempotent. }
  split; [apply H|].
  unfold normalizePoseData. rewrite map_map. apply map_ext. intros l.
  exact (H l).
Qed.

(** A clamped number is NaN or lies in [0,1]. *)
Lemma clamp_range (a : number) :
  Math.max (Fin 0) (Math.min (Fin 1) a) = NaN
  \/ unitNumber (Math.max (Fin 0) (Math.min (Fin 1) a)).
Proof.
  pose proof (clamp_clampedFrom a) as H.
  destruct a as [| | |q]; cbn [Spec.clampedFrom] in H;
    [left; exact H| right ..];
    destruct H as [H _]; unfold Spec.inUnitInterval in H;
    apply andb_true_iff in H; destruct H as [H0 H1];
    destruct (Math.max _ _) as [| | |r]; try discriminate;
    apply leb_Fin in H0; apply leb_Fin in H1; cbn [unitNumber]; lra.
Qed.

Lemma extractLandmarks_normalized (result : Detection.PoseLandmarkerResult) :
  exists raw, extractLandmarks result = map normalizeLandmark raw.
Proof.
  unfold extractLandmarks.
  destruct (Detection.landmarks result) as [[|landmarks rest]|].
  - now exists [].
  - exists landmarks. apply map_ext. now intros [].
  - now exists [].
Qed.

Lemma normalized_coordinates (landmark : PoseLandmark) :
  ltb (x (normalizeLandmark landmark)) (Fin 0)
  || gtb (x (normalizeLandmark landmark)) (Fin 1)
  || ltb (y (normalizeLandmark landmark)) (Fin 0)
  || gtb (y (normalizeLandmark landmark)) (Fin 1) = false.
Proof.
  assert (H : forall a,
    ltb (Math.max (Fin 0) (Math.min (Fin 1) a)) (Fin 0) = false
    /\ gtb (Math.max (Fin 0) (Math.min (Fin 1) a)) (Fin 1) = false).
  { intros a. destruct (clamp_range a) as [-> | H]; [now split|].
    destruct (Math.max _ _) as [| | |r]; cbn [unitNumber] in H; try easy.
    unfold gtb. rewrite !ltb_Fin_false. lra. }
  cbn [normalizeLandmark x y].
  destruct (H (x landmark)) as [-> ->], (H (y landmark)) as [-> ->]. reflexivity.
Qed.

(** X7. Whatever the detector returns, the landmarks that
    [extractLandmarks] hands out never fail the coordinate check of
    [validatePoseQuality]: no landmark is counted as out of range and the
    issue "Some landmarks have invalid coordinates" is never raised on
    them. *)
Theorem extracted_coordinates_valid (result : Detection.PoseLandmarkerResult) :
  invalidCoords (extractLandmarks result) = []
  /\ ~ In "Some landmarks have invalid coordinates"%string
          (issues (validatePoseQuality (extractLandmarks result))).
Proof.
  destruct (extractLandmarks_normalized result) as [raw ->].
  assert (Hc : invalidCoords (map normalizeLandmark raw) = []).
  { unfold invalidCoords. induction raw as [|l raw IH]; [reflexivity|].
    cbn [map filter]. now rewrite normalized_coordinates. }
  split; [exact Hc|].
  unfold validatePoseQuality. rewrite Hc.
  destruct (_ =? 0)%nat.
  - cbn. intros [H|[]]. discriminate.
  - cbn [issues]. change (0 <? List.length (@nil PoseLandmark))%nat with false.
    rewrite app_nil_r.
    intros H. apply in_app_iff in H. destruct H as [H|H].
    + destruct (negb _); [|destruct H]. destruct H as [H|[]]. discriminate.
    + destruct (2 <? _)%nat; [|destruct H]. destruct H as [H|[]]. discriminate.
Qed.

Lemma filter_map_filter {A B : Type} (p : B -> bool) (f : A -> B) (l : list A) :
  filter p (map f (filter (fun a => p (f a)) l)) = filter p (map f l).
Proof.
  induction l as [|a l IH]; [reflexivity|].
  cbn [filter map]. destruct (p (f a)) eqn:E; cbn [map filter]; rewrite ?E, IH;
    reflexivity.
Qed.

(** X8. [getPoseConfidence] depends only on the landmarks whose visibility
    is a number above 0: removing the others (no visibility, 0, negative,
    NaN) leaves the confidence unchanged. *)
Theorem confidence_ignores_invisible (landmarks : list PoseLandmark) :
  getPoseConfidence landmarks
  = getPoseConfidence (filter Spec.hasPositiveVisibility landmarks).
Proof.
  unfold getPoseConfidence at 2.
  rewrite (filter_map_filter (fun v => gtb v (Fin 0))
             (fun landmark => or_default (visibility landmark) (Fin 0))).
  unfold getPoseConfidence.
  destruct (List.length landmarks =? 0)%nat eqn:E0.
  - apply Nat.eqb_eq in E0. destruct landmarks; [reflexivity | discriminate].
  - destruct (List.length (filter Spec.hasPositiveVisibility landmarks) =? 0)%nat eqn:E1;
      [|reflexivity].
    apply Nat.eqb_eq, length_zero_iff_nil in E1.
    replace (filter (fun v => gtb v (Fin 0))
               (map (fun landmark => or_default (visibility landmark) (Fin 0))
                    landmarks)) with (@nil number); [reflexivity|].
    rewrite <- (filter_map_filter (fun v => gtb v (Fin 0))
                  (fun landmark => or_default (visibility landmark) (Fin 0))).
    change (filter (fun a => gtb (or_default (visibility a) (Fin 0)) (Fin 0)) landmarks)
      with (filter Spec.hasPositiveVisibility landmarks).
    now rewrite E1.
Qed.

Lemma normalized_score (landmark : PoseLandmark) :
  gtb (or_default (visibility (normalizeLandmark landmark)) (Fin 0)) (Fin 0) = true ->
  positiveUnit (or_default (visibility (normalizeLandmark landmark)) (Fin 0)).
Proof.
  cbn [normalizeLandmark visibility].
  destruct (visibility landmark) as [v|]; [|discriminate].
  cbn [or_default].
  destruct (clamp_range v) as [-> | H]; [discriminate|].
  destruct (Math.max _ _) as [| | |r]; cbn [unitNumber] in H; try easy.
  destruct (truthy (Fin r)); [|discriminate].
  unfold gtb. rewrite ltb_Fin. cbn [positiveUnit]. lra.
Qed.

Lemma unitSum_fold (scores : list number) (k : nat) (acc : number) :
  Forall positiveUnit scores -> unitSum k acc ->
  unitSum (k + List.length scores) (fold_left add scores acc).
Proof.
  intros H. revert k acc. induction H as [|s scores Hs _ IH]; intros k acc Hacc.
  - cbn [fold_left List.length]. now rewrite Nat.add_0_r.
  - cbn [fold_left List.length]. rewrite Nat.add_succ_r.
    apply (IH (S k)).
    destruct acc as [| | |a], s as [| | |q];
      cbn [unitSum positiveUnit add fin] in *; try easy.
    rewrite Qred_correct.
    rewrite Nat2Z.inj_succ, <- Z.add_1_r, inject_Z_plus.
    change (inject_Z 1) with 1. lra.
Qed.

Lemma extracted_confidence_unit (result : Detection.PoseLandmarkerResult) :
  unitNumber (getPoseConfidence (extractLandmarks result)).
Proof.
  destruct (extractLandmarks_normalized result) as [raw ->].
  unfold getPoseConfidence.
  destruct (_ =? 0)%nat; [cbn [unitNumber]; lra|].
  set (scores := filter _ _).
  assert (Hs : Forall positiveUnit scores).
  { apply Forall_forall. intros v Hv. subst scores.
    apply filter_In in Hv. destruct Hv as [Hin Hpos].
    rewrite map_map in Hin. apply in_map_iff in Hin.
    destruct Hin as [l [<- _]]. now apply normalized_score. }
  destruct (List.length scores =? 0)%nat eqn:E; [cbn [unitNumber]; lra|].
  apply Nat.eqb_neq in E.
  pose proof (unitSum_fold scores 0 (Fin 0) Hs) as Hsum.
  cbn [Nat.add] in Hsum.
  destruct (fold_left add scores (Fin 0)) as [| | |t];
    try (exfalso; apply Hsum; cbn [unitSum]; change (inject_Z (Z.of_nat 0)) with 0; lra).
  assert (Ht : 0 <= t <= inject_Z (Z.of_nat (List.length scores))).
  { apply Hsum. cbn [unitSum]. change (inject_Z (Z.of_nat 0)) with 0. lra. }
  unfold of_nat. cbn [div].
  assert (Hpos : 0 < inject_Z (Z.of_nat (List.length scores))).
  { change 0 with (inject_Z 0). rewrite <- Zlt_Qlt. lia. }
  assert (Hsg : Qsign (inject_Z (Z.of_nat (List.length scores))) = Gt)
    by now apply Qsign_Gt.
  rewrite Hsg. cbn [fin unitNumber]. rewrite Qred_correct. split.
  - apply Qle_shift_div_l; lra.
  - apply Qle_shift_div_r; lra.
Qed.

(** X9. The confidence of extracted landmarks is a number between 0 and
    1, whatever the detector returned. *)
Theorem extracted_confidence_bounded (result : Detection.PoseLandmarkerResult) :
  leb (Fin 0) (getPoseConfidence (extractLandmarks result)) = true
  /\ leb (getPoseConfidence (extractLandmarks result)) (Fin 1) = true.
Proof.
  pose proof (extracted_confidence_unit result) as H.
  now apply unitNumber_leb.
Qed.

Lemma last_finite (sequence : list Typed.TimestampedLandmarks) (first : Typed.TimestampedLandmarks) :
  forallb Spec.finiteTimestamp sequence = true -> Spec.finiteTimestamp first = true ->
  Spec.finiteTimestamp (last sequence first) = true.
Proof.
  intros H Hf. rewrite forallb_forall in H.
  destruct sequence as [|a l]; [exact Hf|].
  apply H. rewrite (app_removelast_last first (l := a :: l)) at 2 by discriminate.
  apply in_or_app. right. now left.
Qed.

Lemma validateMovementSequence_issues (first : Typed.TimestampedLandmarks)
    (rest : list Typed.TimestampedLandmarks) :
  let sequence := first :: rest in
  let duration :=
    sub (Typed.timestamp (last sequence first)) (Typed.timestamp first) in
  let frameRate := div (of_nat (List.length sequence)) (div duration (Fin 1000)) in
  Sequence.duration (Sequence.stats (Sequence.validateMovementSequence sequence))
  = duration
  /\ Sequence.frameRate
       (Sequence.stats (Sequence.validateMovementSequence sequence)) = frameRate
  /\ (Sequence.isValid (Sequence.validateMovementSequence sequence) = true ->
      ltb duration (Fin 1000) = false /\ ltb frameRate (Fin 10) = false).
Proof.
  cbv zeta. split; [reflexivity|]. split; [reflexivity|].
  unfold Sequence.validateMovementSequence. cbn [Sequence.isValid].
  destruct (ltb (sub _ _) (Fin 1000)); [discriminate|].
  destruct (ltb (div _ _) (Fin 10)); [discriminate|].
  now split.
Qed.

(** X10. A recorded sequence with finite timestamps that
    [validateMovementSequence] accepts has at least 10 frames, lasts at
    least 1000 ms and has a frame rate of at least 10. *)
Theorem valid_sequence_has_ten_frames (sequence : list Typed.TimestampedLandmarks) :
  forallb Spec.finiteTimestamp sequence = true ->
  Sequence.isValid (Sequence.validateMovementSequence sequence) = true ->
  (10 <= List.length sequence)%nat
  /\ geb (Sequence.duration
            (Sequence.stats (Sequence.validateMovementSequence sequence)))
         (Fin 1000) = true
  /\ geb (Sequence.frameRate
            (Sequence.stats (Sequence.validateMovementSequence sequence)))
         (Fin 10) = true.
Proof.
  intros Hfin Hvalid. destruct sequence as [|first rest]; [discriminate|].
  assert (Hfirst : Spec.finiteTimestamp first = true).
  { rewrite forallb_forall in Hfin. apply Hfin. now left. }
  pose proof (last_finite (first :: rest) first Hfin Hfirst) as Hlast.
  destruct (validateMovementSequence_issues first rest) as (-> & -> & H).
  destruct (H Hvalid) as [Ed Efr]. clear H Hvalid.
  unfold Spec.finiteTimestamp in Hfirst, Hlast.
  revert Ed Efr.
  generalize (List.length (first :: rest)) as n.
  destruct (Typed.timestamp first) as [| | |t0]; try discriminate.
  destruct (Typed.timestamp (last (first :: rest) first)) as [| | |t1];
    try discriminate.
  intros n. change (sub (Fin t1) (Fin t0)) with (Fin (Qred (t1 - t0))).
  generalize (Qred (t1 - t0)) as d.
  intros d Ed. apply ltb_Fin_false in Ed.
  cbn [div]. replace (Qsign 1000) with Gt by reflexivity.
  cbn [fin].
  assert (Hd' : 1 <= Qred (d / 1000)).
  { rewrite Qred_correct. apply Qle_shift_div_l; lra. }
  unfold of_nat. cbn [div fin].
  set (d' := Qred (d / 1000)) in *. clearbody d'.
  assert (Hs : Qsign d' = Gt) by (apply Qsign_Gt; lra).
  rewrite Hs. cbn [fin].
  intros Efr. apply ltb_Fin_false in Efr. rewrite Qred_correct in Efr.
  split; [|split].
  - assert (Hq : 10 <= inject_Z (Z.of_nat n)).
    { assert (He : inject_Z (Z.of_nat n) / d' * d' == inject_Z (Z.of_nat n))
        by (field; lra).
      set (e := inject_Z (Z.of_nat n) / d') in *.
      assert (Hp : 0 <= (e - 10) * (d' - 1))
        by (apply Qmult_le_0_compat; lra).
      setoid_replace ((e - 10) * (d' - 1)) with (e * d' - e - 10 * d' + 10)
        in Hp by ring.
      rewrite He in Hp. lra. }
    change 10 with (inject_Z 10) in Hq. rewrite <- Zle_Qle in Hq. lia.
  - unfold geb. apply leb_Fin. exact Ed.
  - unfold geb. apply leb_Fin. now rewrite Qred_correct.
Qed.

Lemma valid_sequence_has_ten_frames_witness :
  (10 <= List.length goodSequence)%nat
  /\ geb (Sequence.duration
            (Sequence.stats (Sequence.validateMovementSequence goodSequence)))
         (Fin 1000) = true
  /\ geb (Sequence.frameRate
            (Sequence.stats (Sequence.validateMovementSequence goodSequence)))
         (Fin 10) = true.
Proof.
  apply (valid_sequence_has_ten_frames goodSequence); vm_compute; reflexivity.
Defined.

(** The hypothesis on the timestamps is needed: a lone frame whose
    timestamp is NaN passes every check. *)
Example nan_timestamp_is_accepted :
  Sequence.isValid
    (Sequence.validateMovementSequence
       [Typed.mkTimestampedLandmarks NaN (repeat visibleLandmark 33)]) = true.
Proof. vm_compute. reflexivity. Qed.

End Recording.

(** ** Detection *)

Section Detecting.

Import MediaPipeService Validation.
Local Open Scope Q_scope.
Local Open Scope string_scope.
Local Open Scope list_scope.



(** A video that is not ready is reported as a failed detection. *)
Example video_not_ready_is_wrapped :
  fst (detectSinglePose (Returns tt) (Fin 1) (Returns (poseResult 0.9)) false)
  = Rejected
      (mkMediaPipeError
         "Pose detection failed. Please ensure you are visible in the camera.: Video not ready for pose detection"
         "DETECTION_FAILED").
Proof. vm_compute. reflexivity. Qed.

End Detecting.

(** ** Recording a movement *)

Section Tracking.

Import MediaPipeService Validation.
Local Open Scope Q_scope.
Local Open Scope string_scope.
Local Open Scope list_scope.

Variable startTime : number.
Variable duration : option number.
Variable options : RecordingOptions.

(** What one animation frame does to a recording. *)
Lemma recordFrame_cases (state : Tracker * Recording) (tick : Tick) :
  let state' := recordFrame startTime duration options state tick in
  let elapsed := sub (currentTime tick) startTime in
  state' = state
  \/ (isTracking (fst state) = true
      /\ ltb (sub (currentTime tick) (lastFrameTime (fst state)))
             (div (Fin 1000) (orDefault (frameRate options) (Fin 30))) = false
      /\ lastFrameTime (fst state') = currentTime tick
      /\ ((isTracking (fst state') = false
           /\ snd state' = resolveSequence (snd state))
          \/ exists recording,
               (recording = snd state
                \/ geb elapsed (orDefault duration (Fin 30000)) = false
                   /\ exists result,
                        detected tick = Returns (Some result)
                        /\ recording
                           = recordPose
                               (orDefault (minPoseConfidence options) (Fin 0.5))
                               (extractLandmarks result) elapsed (snd state))
               /\ ((isTracking (fst state') = true /\ snd state' = recording)
                   \/ (isTracking (fst state') = false
                       /\ exists error, snd state' = rejectWith error recording)))).
Proof.
  cbv zeta. unfold recordFrame, trackFrame.
  destruct state as [[tracking last] recording]. cbn [fst snd isTracking lastFrameTime].
  destruct tracking; cbn [negb]; [|now left].
  destruct (ltb (sub (currentTime tick) last) _) eqn:Egate; [now left|].
  right. split; [reflexivity|]. split; [reflexivity|].
  destruct (geb (sub (currentTime tick) startTime) _) eqn:Edur.
  - cbn [fst snd lastFrameTime isTracking]. split; [reflexivity|]. left. now split.
  - destruct (detected tick) as [result|error] eqn:Ed.
    + set (recording' :=
             match result with
             | Some r =>
                 if hasPose result
                 then recordPose _ (extractLandmarks r)
                                 (sub (currentTime tick) startTime) recording
                 else recording
             | None => recording
             end).
      assert (Hr : recording' = recording
                   \/ false = false
                      /\ exists r,
                           Returns result = Returns (Some r)
                           /\ recording'
                              = recordPose
                                  (orDefault (minPoseConfidence options) (Fin 0.5))
                                  (extractLandmarks r)
                                  (sub (currentTime tick) startTime) recording).
      { subst recording'. destruct result as [r|]; [|now left].
        destruct (hasPose (Some r)); [|now left].
        right. split; [reflexivity|]. now exists r. }
      destruct (onProgress options).
      * destruct (progress tick) as [|error].
        -- cbn [fst snd lastFrameTime isTracking]. split; [reflexivity|].
           right. exists recording'. split; [exact Hr|]. left. now split.
        -- unfold trackingFailed. cbn [fst snd lastFrameTime isTracking].
           split; [reflexivity|]. right. exists recording'.
           split; [exact Hr|]. right. split; [reflexivity|]. eexists; reflexivity.
      * cbn [fst snd lastFrameTime isTracking]. split; [reflexivity|].
        right. exists recording'. split; [exact Hr|]. left. now split.
    + unfold trackingFailed. cbn [fst snd lastFrameTime isTracking].
      split; [reflexivity|]. right. exists recording.
      split; [now left|]. right. split; [reflexivity|]. eexists; reflexivity.
Qed.


Lemma recordFrame_disciplined (state : Tracker * Recording) (tick : Tick) :
  disciplined state ->
  disciplined (recordFrame startTime duration options state tick).
Proof.
  intros [Hp Hr]. unfold disciplined.
  destruct (recordFrame_cases state tick) as [-> | (Ht & _ & _ & H)];
    [now split|].
  specialize (Hp Ht).
  destruct H as [[Hf ->] | (recording & Hrec & H)].
  - split; [congruence|]. unfold resolveSequence. cbn [returned sequence].
    rewrite Hp. cbn [settle]. now intros frames [= <-].
  - assert (Hpend : returned recording = Pending).
    { destruct Hrec as [-> | (_ & result & _ & ->)]; [exact Hp|].
      unfold recordPose. now destruct (geb _ _). }
    destruct H as [[_ ->] | [Hf (error & ->)]].
    + split; [now intros _|]. rewrite Hpend. discriminate.
    + split; [congruence|]. unfold rejectWith. cbn [returned].
      rewrite Hpend. discriminate.
Qed.

Lemma copied_landmarks (landmarks : list PoseLandmark) :
  map (fun l => mkPoseLandmark (x l) (y l) (z l) (visibility l)) landmarks
  = landmarks.
Proof.
  rewrite <- (map_id landmarks) at 2. apply map_ext. now intros [].
Qed.

(** What [recordFrame] leaves in the sequence: the frames that were there,
    and at most one more. *)
Lemma recordFrame_sequence (state : Tracker * Recording) (tick : Tick) :
  let state' := recordFrame startTime duration options state tick in
  let elapsed := sub (currentTime tick) startTime in
  sequence (snd state') = sequence (snd state)
  \/ exists result,
       detected tick = Returns (Some result)
       /\ isTracking (fst state) = true
       /\ ltb (sub (currentTime tick) (lastFrameTime (fst state)))
              (div (Fin 1000) (orDefault (frameRate options) (Fin 30))) = false
       /\ geb elapsed (orDefault duration (Fin 30000)) = false
       /\ geb (getPoseConfidence (extractLandmarks result))
              (orDefault (minPoseConfidence options) (Fin 0.5)) = true
       /\ lastFrameTime (fst state') = currentTime tick
       /\ sequence (snd state')
          = sequence (snd state)
              ++ [Typed.mkTimestampedLandmarks elapsed (extractLandmarks result)].
Proof.
  cbv zeta.
  destruct (recordFrame_cases state tick) as [-> | (Ht & Hg & Hl & H)];
    [now left|].
  destruct H as [[_ ->] | (recording & Hrec & H)]; [now left|].
  assert (Hs : sequence (snd (recordFrame startTime duration options state tick))
               = sequence recording).
  { destruct H as [[_ ->] | [_ (error & ->)]]; reflexivity. }
  rewrite Hs. destruct Hrec as [-> | (Hd & result & Hres & ->)]; [now left|].
  unfold recordPose. destruct (geb (getPoseConfidence _) _) eqn:Ec; [|now left].
  right. exists result. cbn [sequence]. rewrite copied_landmarks.
  repeat split; assumption.
Qed.



Lemma run_disciplined (ticks : list Tick) (state : Tracker * Recording) :
  disciplined state ->
  disciplined (fold_left (recordFrame startTime duration options) ticks state).
Proof.
  revert state. induction ticks as [|tick ticks IH]; intros state H;
    [exact H|].
  cbn [fold_left]. apply IH. now apply recordFrame_disciplined.
Qed.

(** A resolved recording is the sequence the frames left. *)
Lemma recordMovementSequence_resolved (load : answer unit) (ticks : list Tick)
    (initialized initialized' : bool)
    (frames : list Typed.TimestampedLandmarks) :
  recordMovementSequence load startTime duration options ticks initialized
  = (Resolved frames, initialized') ->
  frames
  = sequence
      (snd (fold_left (recordFrame startTime duration options) ticks
                      (mkTracker true (Fin 0), mkRecording [] Pending))).
Proof.
  unfold recordMovementSequence.
  assert (H : disciplined (mkTracker true (Fin 0), mkRecording [] Pending)).
  { split; [reflexivity | discriminate]. }
  apply (run_disciplined ticks) in H. destruct H as [_ H].
  destruct (initializePoseLandmarker load initialized) as [[[]|error|] st];
    try discriminate; intros [= E _]; exact (H frames E).
Qed.

Lemma run_kept (ticks rest : list Tick) (state : Tracker * Recording) :
  incl rest ticks ->
  Forall (Spec.kept startTime duration options ticks) (sequence (snd state)) ->
  Forall (Spec.kept startTime duration options ticks)
    (sequence (snd (fold_left (recordFrame startTime duration options) rest state))).
Proof.
  revert state. induction rest as [|tick rest IH]; intros state Hi H;
    [exact H|].
  cbn [fold_left]. apply IH; [intros t Ht; apply Hi; now right|].
  destruct (recordFrame_sequence state tick)
    as [-> | (result & Hd & _ & _ & Hdur & Hc & _ & ->)]; [exact H|].
  apply Forall_app. split; [exact H|]. constructor; [|constructor].
  split; [|split].
  - exists tick, result. cbn [Typed.timestamp Typed.landmarks].
    repeat split; try assumption; try reflexivity. apply Hi. now left.
  - exact Hdur.
  - exact Hc.
Qed.

(** X23. Every frame of a recording that [recordMovementSequence] resolved
    with comes from an animation frame on which the detector returned a
    result: it holds the landmarks extracted from that result and the time
    elapsed since the start, which is not past the duration, and its
    confidence is at least the confidence asked for. *)
Theorem recorded_frames_are_confident (load : answer unit) (ticks : list Tick)
    (initialized initialized' : bool)
    (frames : list Typed.TimestampedLandmarks) :
  recordMovementSequence load startTime duration options ticks initialized
  = (Resolved frames, initialized') ->
  Forall
    (fun frame =>
       Spec.recordedAt startTime ticks frame
       /\ geb (Typed.timestamp frame) (orDefault duration (Fin 30000)) = false
       /\ geb (getPoseConfidence (Typed.landmarks frame))
              (orDefault (minPoseConfidence options) (Fin 0.5)) = true)
    frames.
Proof.
  intros H. apply recordMovementSequence_resolved in H. subst frames.
  apply (run_kept ticks ticks); [apply incl_refl | constructor].
Qed.







Lemma halfSum_fold (scores : list number) (k : nat) (acc : number) :
  Forall upperHalf scores -> halfSum k acc ->
  halfSum (k + List.length scores) (fold_left add scores acc).
Proof.
  intros H. revert k acc. induction H as [|c scores Hc _ IH]; intros k acc Hacc.
  - cbn [fold_left List.length]. now rewrite Nat.add_0_r.
  - cbn [fold_left List.length]. rewrite Nat.add_succ_r.
    apply (IH (S k)).
    destruct acc as [| | |a], c as [| | |q];
      cbn [halfSum upperHalf add fin] in *; try easy.
    rewrite Qred_correct.
    rewrite Nat2Z.inj_succ, <- Z.add_1_r, inject_Z_plus.
    change (inject_Z 1) with 1. lra.
Qed.

(** The mean of confidences of one half or more is no less than one
    half. *)
Lemma average_upperHalf (scores : list number) :
  scores <> [] -> Forall upperHalf scores ->
  ltb (div (fold_left add scores (Fin 0)) (of_nat (List.length scores)))
      (Fin 0.5) = false.
Proof.
  intros Hne Hs.
  pose proof (halfSum_fold scores 0 (Fin 0) Hs) as Hsum. cbn [Nat.add] in Hsum.
  assert (H0 : halfSum 0 (Fin 0)).
  { cbn [halfSum]. change (inject_Z (Z.of_nat 0)) with 0. lra. }
  specialize (Hsum H0).
  destruct (fold_left add scores (Fin 0)) as [| | |t]; try easy.
  cbn [halfSum] in Hsum.
  assert (Hpos : 0 < inject_Z (Z.of_nat (List.length scores))).
  { change 0 with (inject_Z 0). rewrite <- Zlt_Qlt.
    destruct scores; [congruence | cbn [List.length]; lia]. }
  unfold of_nat. cbn [div]. rewrite (proj2 (Qsign_Gt _) Hpos). cbn [fin].
  apply ltb_Fin_false. rewrite Qred_correct.
  apply Qle_shift_div_l; [exact Hpos|]. lra.
Qed.

(** X25. A recording made with a minimal confidence of one half or more
    (the default) never fails [validateMovementSequence] for its
    confidence: "Average pose confidence too low" is not among the
    issues. *)
Theorem recording_passes_confidence_check (load : answer unit)
    (ticks : list Tick) (initialized initialized' : bool)
    (frames : list Typed.TimestampedLandmarks) :
  leb (Fin 0.5) (orDefault (minPoseConfidence options) (Fin 0.5)) = true ->
  recordMovementSequence load startTime duration options ticks initialized
  = (Resolved frames, initialized') ->
  ~ In "Average pose confidence too low"
       (Sequence.issues (Sequence.validateMovementSequence frames)).
Proof.
  intros Hmin H. apply recordMovementSequence_resolved in H.
  assert (Hk : Forall (Spec.kept startTime duration options ticks) frames).
  { subst frames. apply (run_kept ticks ticks); [apply incl_refl | constructor]. }
  clear H.
  assert (Hc : Forall upperHalf
                 (map (fun frame => getPoseConfidence (Typed.landmarks frame))
                      frames)).
  { apply Forall_map. eapply Forall_impl; [|exact Hk].
    intros frame ((tick & result & _ & _ & -> & _) & _ & Hconf).
    pose proof (extracted_confidence_unit result) as Hu.
    destruct (getPoseConfidence (extractLandmarks result)) as [| | |c];
      cbn [unitNumber] in Hu; try easy.
    cbn [upperHalf]. split; [|lra].
    unfold geb in Hconf.
    destruct (orDefault (minPoseConfidence options) (Fin 0.5)) as [| | |m];
      try discriminate.
    apply leb_Fin in Hmin, Hconf. lra. }
  destruct frames as [|first rest].
  - cbn. intros [E|[]]. discriminate.
  - assert (Hne : map (fun frame => getPoseConfidence (Typed.landmarks frame))
                       (first :: rest) <> []) by discriminate.
    pose proof (average_upperHalf _ Hne Hc) as Havg.
    unfold Sequence.validateMovementSequence. cbv zeta. cbn [Sequence.issues].
    rewrite Havg.
    intros Hin.
    apply in_app_or in Hin. destruct Hin as [Hin|Hin].
    { revert Hin. destruct (ltb (sub _ _) (Fin 1000)); cbn [In];
        [intros [E|[]]; discriminate | intros []]. }
    apply in_app_or in Hin. destruct Hin as [Hin|Hin].
    { revert Hin. destruct (ltb (div _ _) (Fin 10)); cbn [In];
        [intros [E|[]]; discriminate | intros []]. }
    cbn [app] in Hin.
    revert Hin. destruct (gtb _ _); cbn [In]; [intros [E|[]]; discriminate | intros []].
Qed.

End Tracking.

(** ** A recording, step by step *)

Section Recorded.

Import MediaPipeService Validation.
Local Open Scope Q_scope.
Local Open Scope string_scope.
Local Open Scope list_scope.

Lemma recorded_frames_are_confident_witness :
  Forall
    (fun frame =>
       Spec.recordedAt (Fin 990) recordedTicks frame
       /\ geb (Typed.timestamp frame) (orDefault (Some (Fin 150)) (Fin 30000)) = false
       /\ geb (getPoseConfidence (Typed.landmarks frame))
              (orDefault (minPoseConfidence defaultOptions) (Fin 0.5)) = true)
    recordedFrames.
Proof.
  apply (recorded_frames_are_confident (Fin 990) (Some (Fin 150)) defaultOptions
           (Returns tt) recordedTicks false true).
  vm_compute. reflexivity.
Defined.


Lemma recording_passes_confidence_check_witness :
  ~ In "Average pose confidence too low"
       (Sequence.issues (Sequence.validateMovementSequence recordedFrames)).
Proof.
  apply (recording_passes_confidence_check (Fin 990) (Some (Fin 150))
           defaultOptions (Returns tt) recordedTicks false true);
    vm_compute; reflexivity.
Defined.

(** The recording is pending until a frame comes after the duration, and
    an answer the detector throws rejects it. *)
Example recording_settles_once :
  fst (recordMovementSequence (Returns tt) (Fin 990) (Some (Fin 150))
         defaultOptions (firstn 5 recordedTicks) false) = Pending
  /\ fst (recordMovementSequence (Returns tt) (Fin 990) (Some (Fin 150))
            defaultOptions
            [ tickAt 1000 0.9;
              mkTick (Fin 1040) (Throws (ErrorObject "boom" "Error: boom"))
                     (Returns tt);
              tickAt 1300 0.9 ]
            false)
     = Rejected (mkMediaPipeError "Movement tracking failed: Error: boom"
                                  "TRACKING_FAILED").
Proof. split; vm_compute; reflexivity. Qed.

(** Poses of low confidence are not recorded. *)
Example low_confidence_is_filtered :
  fst (recordMovementSequence (Returns tt) (Fin 0) (Some (Fin 100))
         (mkRecordingOptions None false (Some (Fin 0.5)))
         [tickAt 40 0.1; tickAt 80 0.1; tickAt 120 0.1] false)
  = Resolved [].
Proof. vm_compute. reflexivity. Qed.

End Recorded.

(** ** Validated poses *)

Section ValidatedPoses.

Import Validation.
Local Open Scope Q_scope.

Local Open Scope string_scope.
Local Open Scope list_scope.

Lemma invalidLandmarks_nil (elems : list slot) (index : nat) :
  invalidLandmarks elems index = [] <-> forallb validatePoseLandmark elems = true.
Proof.
  revert index. induction elems as [|landmark elems IH]; intros index;
    cbn [invalidLandmarks forallb]; [now split|].
  destruct (validatePoseLandmark landmark); cbn [negb andb app].
  - apply IH.
  - split; discriminate.
Qed.

Lemma validatePoseData_valid (landmarks : arg slot) :
  PoseData.isValid (validatePoseData landmarks) = true <->
  exists elems,
    landmarks = Arr elems
    /\ List.length elems = 33%nat
    /\ forallb validatePoseLandmark elems = true.
Proof.
  unfold validatePoseData. destruct landmarks as [|elems].
  - split; [discriminate | now intros (e & [=] & _)].
  - destruct (List.length elems =? 0)%nat eqn:E0.
    + apply Nat.eqb_eq in E0. split; [discriminate|].
      intros (e & [= <-] & H & _). rewrite H in E0. discriminate.
    + cbn [PoseData.isValid]. rewrite Nat.eqb_eq, length_zero_iff_nil.
      split.
      * intros H. apply app_eq_nil in H. destruct H as [Hi Hl].
        exists elems. split; [reflexivity|]. split.
        -- destruct (List.length elems =? 33)%nat eqn:E; [|discriminate].
           now apply Nat.eqb_eq.
        -- now apply (invalidLandmarks_nil elems 0).
      * intros (e & [= <-] & Hl & Hv).
        apply (invalidLandmarks_nil elems 0) in Hv. rewrite Hv, Hl.
        reflexivity.
Qed.

Lemma validated_objects (elems : list slot) :
  forallb validatePoseLandmark elems = true -> forallb isObject elems = true.
Proof.
  rewrite !forallb_forall. intros H s Hs. specialize (H s Hs).
  destruct s; [reflexivity | discriminate].
Qed.

Lemma partStep_total (r c : list slot) (acc : number * number) (idx : nat) :
  forallb isObject r = true -> forallb isObject c = true ->
  exists acc',
    partStep r c (Nat.min (List.length r) (List.length c)) acc idx = Some acc'.
Proof.
  intros Hr Hc. unfold partStep.
  destruct (idx <? _)%nat eqn:E; [|now exists acc].
  apply Nat.ltb_lt in E.
  destruct (get_object r idx Hr) as [l1 ->]; [lia|].
  destruct (get_object c idx Hc) as [l2 ->]; [lia|].
  cbn [ComparisonService.bind].
  destruct (geb (or_default (prop_visibility l1) (Fin 1)) (Fin 0.5));
    [|now exists acc].
  cbn [ComparisonService.bind].
  destruct (geb (or_default (prop_visibility l2) (Fin 1)) (Fin 0.5));
    eexists; reflexivity.
Qed.

Lemma partLoop_total (r c : list slot) (indices : list nat) (acc : number * number) :
  forallb isObject r = true -> forallb isObject c = true ->
  exists acc',
    partLoop r c (Nat.min (List.length r) (List.length c)) indices acc = Some acc'.
Proof.
  intros Hr Hc. revert acc. induction indices as [|idx rest IH]; intros acc.
  - now exists acc.
  - cbn [partLoop]. destruct (partStep_total r c acc idx Hr Hc) as [acc' ->].
    cbn [ComparisonService.bind]. apply IH.
Qed.

Lemma partDiffers_total (r c : list slot) (indices : list nat) :
  forallb isObject r = true -> forallb isObject c = true ->
  exists differs, partDiffers r c indices = Some differs.
Proof.
  intros Hr Hc. unfold partDiffers.
  destruct (partLoop_total r c indices (Fin 0, Fin 0) Hr Hc) as [[d v] ->].
  cbn [ComparisonService.bind]. destruct (gtb v (Fin 0)); eexists; reflexivity.
Qed.

Lemma analyzeParts_total (r c : list slot) (parts : list (string * list nat)) :
  forallb isObject r = true -> forallb isObject c = true ->
  exists lines, analyzeParts r c parts = Some lines.
Proof.
  intros Hr Hc. induction parts as [|[partName indices] parts [lines IH]].
  - now exists [].
  - cbn [analyzeParts].
    destruct (partDiffers_total r c indices Hr Hc) as [differs ->].
    cbn [ComparisonService.bind]. rewrite IH. cbn [ComparisonService.bind]. eexists; reflexivity.
Qed.

(** Poses whose slots all hold objects are always scored: neither
    generator throws. *)
Lemma comparePoses_objects (r c : list slot) (difficulty : DifficultyLevel) :
  r <> [] -> c <> [] ->
  forallb isObject r = true -> forallb isObject c = true ->
  let score := calculateSimilarityScore (Arr r) (Arr c) in
  let threshold := DIFFICULTY_THRESHOLDS difficulty in
  exists feedback suggestions,
    generatePoseFeedback r c score threshold = Some feedback
    /\ generatePoseSuggestions r c difficulty = Some suggestions
    /\ comparePoses (Arr r) (Arr c) difficulty
       = mkComparisonResult (geb score threshold) score feedback suggestions.
Proof.
  intros Hr0 Hc0 Hr Hc score threshold.
  assert (Hf : exists feedback,
             generatePoseFeedback r c score threshold = Some feedback).
  { unfold generatePoseFeedback, analyzeBodyPartDifferences.
    destruct (analyzeParts_total r c bodyParts Hr Hc) as [lines ->].
    cbn [ComparisonService.bind]. eexists; reflexivity. }
  assert (Hs : exists suggestions,
             generatePoseSuggestions r c difficulty = Some suggestions).
  { unfold generatePoseSuggestions, findMajorDifferences.
    destruct (partDiffers_total r c (groupIndices "head") Hr Hc) as [h ->].
    destruct (partDiffers_total r c (groupIndices "arms") Hr Hc) as [a ->].
    destruct (partDiffers_total r c (groupIndices "torso") Hr Hc) as [t ->].
    destruct (partDiffers_total r c (groupIndices "legs") Hr Hc) as [l ->].
    cbn [ComparisonService.bind]. eexists; reflexivity. }
  destruct Hf as [feedback Hf], Hs as [suggestions Hs].
  exists feedback, suggestions. split; [exact Hf|]. split; [exact Hs|].
  unfold comparePoses, comparePosesWith.
  destruct r as [|r0 r]; [congruence|]. destruct c as [|c0 c]; [congruence|].
  cbn [List.length Nat.eqb orb].
  fold score threshold. rewrite Hf. cbn [ComparisonService.bind]. rewrite Hs. reflexivity.
Qed.

(** X11. Two poses that [validatePoseData] accepts are always scored by
    [comparePoses]: both are arrays of 33 landmarks, neither feedback
    generator throws, and the result carries the similarity score, its
    comparison with the threshold and the generators' lines, never one of
    the three fixed failure results. *)
Theorem validated_poses_are_scored (recorded current : arg slot)
    (difficulty : DifficultyLevel) :
  PoseData.isValid (validatePoseData recorded) = true ->
  PoseData.isValid (validatePoseData current) = true ->
  exists r c feedback suggestions,
    recorded = Arr r /\ current = Arr c
    /\ List.length r = 33%nat /\ List.length c = 33%nat
    /\ generatePoseFeedback r c (calculateSimilarityScore recorded current)
         (DIFFICULTY_THRESHOLDS difficulty) = Some feedback
    /\ generatePoseSuggestions r c difficulty = Some suggestions
    /\ comparePoses recorded current difficulty
       = mkComparisonResult
           (geb (calculateSimilarityScore recorded current)
                (DIFFICULTY_THRESHOLDS difficulty))
           (calculateSimilarityScore recorded current) feedback suggestions.
Proof.
  intros Hr Hc.
  apply validatePoseData_valid in Hr. destruct Hr as (r & -> & Hlr & Hvr).
  apply validatePoseData_valid in Hc. destruct Hc as (c & -> & Hlc & Hvc).
  destruct (comparePoses_objects r c difficulty) as (fb & sg & Hf & Hs & E).
  - intros ->. discriminate.
  - intros ->. discriminate.
  - now apply validated_objects.
  - now apply validated_objects.
  - exists r, c, fb, sg. repeat split; assumption.
Qed.

Lemma validated_poses_are_scored_witness :
  exists r c feedback suggestions,
    Arr base = Arr r /\ Arr base = Arr c
    /\ List.length r = 33%nat /\ List.length c = 33%nat
    /\ generatePoseFeedback r c (calculateSimilarityScore (Arr base) (Arr base))
         (DIFFICULTY_THRESHOLDS medium) = Some feedback
    /\ generatePoseSuggestions r c medium = Some suggestions
    /\ comparePoses (Arr base) (Arr base) medium
       = mkComparisonResult
           (geb (calculateSimilarityScore (Arr base) (Arr base))
                (DIFFICULTY_THRESHOLDS medium))
           (calculateSimilarityScore (Arr base) (Arr base)) feedback suggestions.
Proof.
  apply (validated_poses_are_scored (Arr base) (Arr base) medium);
    vm_compute; reflexivity.
Defined.

End ValidatedPoses.

(** ** Strings *)

Section TextFacts.

Import Text.

Lemma text_eqb_eq (a b : text) : Text.eqb a b = true <-> a = b.
Proof.
  revert b. induction a as [|c a IH]; intros [|d b]; cbn [Text.eqb];
    try (split; [discriminate | discriminate]); [now split|].
  rewrite andb_true_iff, N.eqb_eq, IH. split.
  - now intros [-> ->].
  - intros [= -> ->]. now split.
Qed.

Lemma text_eqb_refl (a : text) : Text.eqb a a = true.
Proof. now apply text_eqb_eq. Qed.

Lemma text_eqb_neq (a b : text) : Text.eqb a b = false <-> a <> b.
Proof.
  rewrite <- text_eqb_eq. destruct (Text.eqb a b); split; congruence.
Qed.

Lemma forallb_rev {A : Type} (p : A -> bool) (l : list A) :
  forallb p (rev l) = forallb p l.
Proof.
  induction l as [|a l IH]; [reflexivity|].
  cbn [rev forallb]. rewrite forallb_app, IH. cbn [forallb].
  rewrite andb_true_r. apply andb_comm.
Qed.

Lemma trimStart_blank (s : text) :
  trimStart s = [] <-> forallb isWhiteSpace s = true.
Proof.
  induction s as [|c s IH]; cbn [trimStart forallb]; [now split|].
  destruct (isWhiteSpace c); cbn [andb]; [exact IH|].
  split; discriminate.
Qed.

Lemma trimStart_head (s : text) (c : N) (rest : text) :
  trimStart s = c :: rest -> isWhiteSpace c = false.
Proof.
  induction s as [|d s IH]; cbn [trimStart]; [discriminate|].
  destruct (isWhiteSpace d) eqn:E; [exact IH|].
  now intros [= <- _].
Qed.

(** What [trimStart] returns is a suffix of its argument. *)
Lemma trimStart_suffix (s : text) :
  exists blank, s = blank ++ trimStart s /\ forallb isWhiteSpace blank = true.
Proof.
  induction s as [|c s (blank & E & H)]; [now exists []|].
  cbn [trimStart]. destruct (isWhiteSpace c) eqn:Ec.
  - exists (c :: blank). cbn [app forallb]. now rewrite Ec, <- E.
  - now exists [].
Qed.

Lemma trimEnd_prefix (s : text) :
  exists blank, s = trimEnd s ++ blank /\ forallb isWhiteSpace blank = true.
Proof.
  unfold trimEnd. destruct (trimStart_suffix (rev s)) as (blank & E & H).
  exists (rev blank). split.
  - rewrite <- rev_app_distr, <- E. now rewrite rev_involutive.
  - now rewrite forallb_rev.
Qed.

Lemma trim_blank (s : text) :
  trim s = [] <-> forallb isWhiteSpace s = true.
Proof.
  unfold trim, trimEnd.
  destruct (trimStart_suffix s) as (blank & E & Hb).
  split.
  - intros H. apply (f_equal (@rev N)) in H. rewrite rev_involutive in H.
    cbn [rev] in H. apply trimStart_blank in H. rewrite forallb_rev in H.
    rewrite E, forallb_app, Hb. exact H.
  - intros H. apply trimStart_blank in H. rewrite H. reflexivity.
Qed.

Lemma trim_head (s : text) (c : N) (rest : text) :
  trim s = c :: rest -> isWhiteSpace c = false.
Proof.
  unfold trim. intros H.
  destruct (trimEnd_prefix (trimStart s)) as (blank & E & _).
  rewrite H in E. cbn [app] in E. exact (trimStart_head _ _ _ E).
Qed.

(** A string that starts with a character [trim] keeps is not blank. *)
Lemma trim_starts (c : N) (rest : text) :
  isWhiteSpace c = false -> (0 <? List.length (trim (c :: rest)))%nat = true.
Proof.
  intros Hc. destruct (trim (c :: rest)) eqn:E; [|reflexivity].
  apply trim_blank in E. cbn [forallb] in E. now rewrite Hc in E.
Qed.

End TextFacts.

(** ** Maps *)

Section MapFacts.

Import Text.

Context {V : Type}.

Lemma has_get (key : text) (m : JSMap.t V) :
  JSMap.has key m = match JSMap.get key m with Some _ => true | None => false end.
Proof.
  unfold JSMap.has, JSMap.get.
  induction m as [|entry m IH]; [reflexivity|].
  cbn [existsb find]. destruct (Text.eqb (fst entry) key); [reflexivity|].
  exact IH.
Qed.

Lemma get_set_same (key : text) (value : V) (m : JSMap.t V) :
  JSMap.get key (JSMap.set key value m) = Some value.
Proof.
  unfold JSMap.set. destruct (JSMap.has key m) eqn:H.
  - unfold JSMap.has in H. unfold JSMap.get.
    induction m as [|entry m IH]; [discriminate|].
    cbn [existsb] in H. cbn [map find].
    destruct (Text.eqb (fst entry) key) eqn:E.
    + cbn [fst]. now rewrite text_eqb_refl.
    + rewrite E. apply IH. exact H.
  - unfold JSMap.has in H. unfold JSMap.get.
    induction m as [|entry m IH].
    + cbn [app find fst]. now rewrite text_eqb_refl.
    + cbn [existsb] in H. apply orb_false_iff in H. destruct H as [E H].
      cbn [app find]. rewrite E. now apply IH.
Qed.

Lemma get_set_other (key other : text) (value : V) (m : JSMap.t V) :
  other <> key -> JSMap.get other (JSMap.set key value m) = JSMap.get other m.
Proof.
  intros Hne. unfold JSMap.set, JSMap.get.
  assert (Hk : Text.eqb key other = false) by (apply text_eqb_neq; congruence).
  destruct (JSMap.has key m).
  - induction m as [|entry m IH]; [reflexivity|].
    cbn [map find]. destruct (Text.eqb (fst entry) key) eqn:E.
    + apply text_eqb_eq in E. cbn [fst]. rewrite Hk, E, Hk. exact IH.
    + destruct (Text.eqb (fst entry) other); [reflexivity | exact IH].
  - induction m as [|entry m IH].
    + cbn [app find fst]. now rewrite Hk.
    + cbn [app find]. destruct (Text.eqb (fst entry) other); [reflexivity | exact IH].
Qed.

Lemma get_delete_same (key : text) (m : JSMap.t V) :
  JSMap.get key (JSMap.delete key m) = None.
Proof.
  unfold JSMap.get, JSMap.delete.
  induction m as [|entry m IH]; [reflexivity|].
  cbn [filter]. destruct (Text.eqb (fst entry) key) eqn:E; cbn [negb find];
    [exact IH|]. now rewrite E.
Qed.

Lemma get_delete_other (key other : text) (m : JSMap.t V) :
  other <> key -> JSMap.get other (JSMap.delete key m) = JSMap.get other m.
Proof.
  intros Hne. unfold JSMap.get, JSMap.delete.
  induction m as [|entry m IH]; [reflexivity|].
  cbn [filter find]. destruct (Text.eqb (fst entry) key) eqn:E; cbn [negb find].
  - apply text_eqb_eq in E.
    assert (Hk : Text.eqb (fst entry) other = false)
      by (apply text_eqb_neq; congruence).
    now rewrite Hk.
  - destruct (Text.eqb (fst entry) other); [reflexivity | exact IH].
Qed.

Lemma values_set_new (key : text) (value : V) (m : JSMap.t V) :
  JSMap.has key m = false ->
  JSMap.values (JSMap.set key value m) = JSMap.values m ++ [value].
Proof.
  intros H. unfold JSMap.set, JSMap.values. rewrite H. now rewrite map_app.
Qed.

Lemma length_set_present (key : text) (value : V) (m : JSMap.t V) :
  JSMap.has key m = true ->
  List.length (JSMap.values (JSMap.set key value m)) = List.length (JSMap.values m).
Proof.
  intros H. unfold JSMap.set, JSMap.values. rewrite H. now rewrite !length_map.
Qed.

Lemma has_set (key other : text) (value : V) (m : JSMap.t V) :
  JSMap.has other (JSMap.set key value m)
  = Text.eqb other key || JSMap.has other m.
Proof.
  rewrite !has_get. destruct (Text.eqb other key) eqn:E.
  - apply text_eqb_eq in E. subst other. now rewrite get_set_same.
  - apply text_eqb_neq in E. now rewrite get_set_other.
Qed.

Lemma has_delete (key other : text) (m : JSMap.t V) :
  JSMap.has other (JSMap.delete key m) = true -> JSMap.has other m = true.
Proof.
  rewrite !has_get. destruct (Text.eqb other key) eqn:E.
  - apply text_eqb_eq in E. subst other. now rewrite get_delete_same.
  - apply text_eqb_neq in E. now rewrite get_delete_other.
Qed.

End MapFacts.

(** ** Sorting *)

Section SortFacts.

Local Open Scope Z_scope.

Variable A : Type.
Variable comparefn : A -> A -> number.
Variable time : A -> Z.
Hypothesis comparefn_time :
  forall a b, gtb (comparefn a b) (Fin 0) = (time a <? time b).


Lemma insert_perm (a : A) (l : list A) :
  Permutation (JSArray.insert comparefn a l) (a :: l).
Proof.
  induction l as [|b l IH]; cbn [JSArray.insert]; [reflexivity|].
  destruct (gtb (comparefn a b) (Fin 0)); [|reflexivity].
  rewrite IH. apply perm_swap.
Qed.

Lemma sort_perm (l : list A) : Permutation (JSArray.sort comparefn l) l.
Proof.
  induction l as [|a l IH]; cbn [JSArray.sort fold_right]; [reflexivity|].
  fold (JSArray.sort comparefn l). rewrite insert_perm. now constructor.
Qed.

Lemma insert_sorted (a : A) (l : list A) :
  StronglySorted (Spec.noNewer time) l ->
  StronglySorted (Spec.noNewer time) (JSArray.insert comparefn a l).
Proof.
  induction 1 as [|b l Hs IH Hb]; cbn [JSArray.insert].
  - repeat constructor.
  - rewrite comparefn_time. destruct (time a <? time b) eqn:E.
    + apply Z.ltb_lt in E. constructor; [exact IH|].
      rewrite insert_perm. constructor; [unfold Spec.noNewer; lia | exact Hb].
    + apply Z.ltb_ge in E. constructor; [now constructor|].
      constructor; [exact E|].
      eapply Forall_impl; [|exact Hb]. unfold Spec.noNewer. intros c Hc. lia.
Qed.

Lemma sort_sorted (l : list A) :
  StronglySorted (Spec.noNewer time) (JSArray.sort comparefn l).
Proof.
  induction l as [|a l IH]; cbn [JSArray.sort fold_right]; [constructor|].
  now apply insert_sorted.
Qed.

Lemma insert_filter (p : A -> bool) (a : A) (l : list A) :
  StronglySorted (Spec.noNewer time) l ->
  filter p (JSArray.insert comparefn a l)
  = if p a then JSArray.insert comparefn a (filter p l) else filter p l.
Proof.
  induction 1 as [|b l Hs IH Hb]; cbn [JSArray.insert filter].
  - now destruct (p a).
  - rewrite comparefn_time. destruct (time a <? time b) eqn:E.
    + cbn [filter]. rewrite IH. destruct (p b), (p a); try reflexivity.
      cbn [JSArray.insert]. now rewrite comparefn_time, E.
    + cbn [filter]. destruct (p a) eqn:Ea; [|reflexivity].
      destruct (p b) eqn:Eb.
      * cbn [JSArray.insert]. now rewrite comparefn_time, E.
      * (* the elements behind [b] are no newer than [b], so [a] stays
           in front of them *)
        apply Z.ltb_ge in E.
        assert (Hl : Forall (fun c => time c <= time a) (filter p l)).
        { apply Forall_forall. intros c Hc. apply filter_In in Hc.
          rewrite Forall_forall in Hb. specialize (Hb c (proj1 Hc)).
          unfold Spec.noNewer in Hb. lia. }
        destruct (filter p l) as [|c rest]; [reflexivity|].
        cbn [JSArray.insert]. rewrite comparefn_time.
        inversion Hl as [|? ? Hc _]; subst.
        apply Z.ltb_ge in Hc. now rewrite Hc.
Qed.

Lemma sort_filter (p : A -> bool) (l : list A) :
  JSArray.sort comparefn (filter p l) = filter p (JSArray.sort comparefn l).
Proof.
  induction l as [|a l IH]; [reflexivity|].
  cbn [filter JSArray.sort fold_right]. fold (JSArray.sort comparefn l).
  rewrite insert_filter by apply sort_sorted.
  destruct (p a); [|exact IH].
  cbn [JSArray.sort fold_right]. fold (JSArray.sort comparefn (filter p l)).
  now rewrite IH.
Qed.

End SortFacts.

(** ** Activity names *)

Section Names.

Import Text Activities Validation.

Local Open Scope list_scope.

Lemma firstn_trim_head (s : text) (n : nat) :
  trim s <> [] -> (0 < n)%nat -> trim (firstn n (trim s)) <> [].
Proof.
  intros Hs Hn H. destruct (trim s) as [|c rest] eqn:E; [congruence|].
  destruct n as [|n]; [lia|]. cbn [firstn] in H.
  apply trim_blank in H. cbn [forallb] in H.
  rewrite (trim_head s c rest E) in H. discriminate.
Qed.

(** X12. Sanitizing the name of metadata that [validateActivityMetadata]
    accepts gives a name of at most 100 code units with which the metadata
    is still accepted. *)
Theorem sanitized_name_stays_valid (metadata : Metadata.ActivityMetadata) :
  validateActivityMetadata metadata = true ->
  let name := sanitizeActivityName (Metadata.name metadata) in
  (List.length name <= 100)%nat
  /\ validateActivityMetadata
       (Metadata.mkActivityMetadata name (Metadata.type metadata)
          (Metadata.createdBy metadata) (Metadata.duration metadata)
          (Metadata.isPublic metadata)) = true.
Proof.
  intros Hv name. split.
  - unfold name, sanitizeActivityName, slice0. apply firstn_le_length.
  - unfold validateActivityMetadata in *.
    cbn [Metadata.name Metadata.createdBy].
    apply andb_true_iff in Hv. destruct Hv as [Hn ->]. rewrite andb_true_r.
    apply Nat.ltb_lt in Hn. apply Nat.ltb_lt.
    assert (H : trim name <> []).
    { apply firstn_trim_head; [|lia].
      intros E. rewrite E in Hn. cbn in Hn. lia. }
    destruct (trim name); [congruence | cbn; lia].
Qed.

Lemma sanitized_name_stays_valid_witness :
  (List.length (sanitizeActivityName (Metadata.name longNameMetadata)) <= 100)%nat
  /\ validateActivityMetadata
       (Metadata.mkActivityMetadata
          (sanitizeActivityName (Metadata.name longNameMetadata))
          (Metadata.type longNameMetadata)
          (Metadata.createdBy longNameMetadata)
          (Metadata.duration longNameMetadata)
          (Metadata.isPublic longNameMetadata)) = true.
Proof.
  apply (sanitized_name_stays_valid longNameMetadata).
  vm_compute. reflexivity.
Defined.

(** The cut can leave a blank at the end, so sanitizing twice may differ
    from sanitizing once. *)
Example sanitizeActivityName_not_idempotent :
  sanitizeActivityName (sanitizeActivityName longName)
  <> sanitizeActivityName longName.
Proof. vm_compute. discriminate. Qed.

End Names.

(** ** The activity store *)

Section Store.

Import Text Activities Validation ActivityService History.

Local Open Scope list_scope.

Lemma newestFirst_time (a b : Activity) :
  gtb (newestFirst a b) (Fin 0) = (createdAt a <? createdAt b)%Z.
Proof.
  unfold newestFirst, getTime, gtb. cbn [sub fin].
  destruct (createdAt a <? createdAt b)%Z eqn:E.
  - apply ltb_Fin. rewrite Qred_correct. apply Z.ltb_lt in E.
    rewrite Zlt_Qlt in E. lra.
  - apply ltb_Fin_false. rewrite Qred_correct. apply Z.ltb_ge in E.
    rewrite Zle_Qle in E. lra.
Qed.

Lemma copyItem_id (item : Item) : copyItem item = item.
Proof. destruct item as [[]|[]]; reflexivity. Qed.

Lemma copy_id (activity : Activity) : copy activity = activity.
Proof.
  destruct activity as [i t n c ca d p ls pd md]. unfold copy. cbn.
  f_equal. rewrite <- (map_id ls) at 2. apply map_ext, copyItem_id.
Qed.

Lemma created_activity_valid (n : N) (c : ascii) (rest : string)
    (metadata : Metadata.ActivityMetadata) (type : ActivityType) (now : Date)
    (duration : option number) (items : list Item) :
  isWhiteSpace (N_of_ascii c) = false ->
  validateActivityMetadata metadata = true ->
  validateActivity
    (mkActivity (lit (String c rest) ++ of_N n) type (Metadata.name metadata)
                (Metadata.createdBy metadata) now duration
                (Metadata.isPublic metadata) items None None) = true.
Proof.
  intros Hc Hm. unfold validateActivity. cbn [id name createdBy].
  unfold validateActivityMetadata in Hm. apply andb_true_iff in Hm.
  destruct Hm as [-> ->]. rewrite !andb_true_r.
  change (lit (String c rest) ++ of_N n)
    with (N_of_ascii c :: (lit rest ++ of_N n)).
  now apply trim_starts.
Qed.

Lemma createPoseActivity_resolved (now : Date) (landmarks : arg PoseLandmark)
    (metadata : Metadata.ActivityMetadata) (this this' : Service) (id : text) :
  createPoseActivity now landmarks metadata this = (Resolved id, this') ->
  exists elems,
    landmarks = Arr elems
    /\ elems <> []
    /\ validateActivityMetadata metadata = true
    /\ Metadata.type metadata = pose
    /\ id = lit "pose_" ++ of_N (nextId this)
    /\ this' = mkService
                 (JSMap.set id (poseActivity now (nextId this) elems metadata)
                            (activities this))
                 (increment (nextId this)).
Proof.
  unfold createPoseActivity.
  destruct landmarks as [|elems]; [discriminate|].
  destruct elems as [|e elems]; [discriminate|]. cbn [List.length Nat.eqb].
  destruct (validateActivityMetadata metadata) eqn:Hm; [|discriminate].
  cbn [negb]. destruct (Metadata.type metadata) eqn:Ht; [|discriminate].
  unfold bind, postIncrement.
  rewrite (created_activity_valid (nextId this) "p" "ose_" metadata pose now
             None (map PoseItem (e :: elems)) eq_refl Hm).
  cbn [negb]. unfold saveActivity.
  rewrite (created_activity_valid (nextId this) "p" "ose_" metadata pose now
             None (map PoseItem (e :: elems)) eq_refl Hm).
  cbn [negb ret]. rewrite copy_id. cbn [Activities.id activities nextId].
  intros [= <- <-]. exists (e :: elems).
  repeat split; try reflexivity. discriminate.
Qed.

Lemma checkedFrames_frames (elems : list FrameObject)
    (frames : list Typed.TimestampedLandmarks) :
  checkedFrames elems = Some frames ->
  elems = map (fun frame =>
                 mkFrameObject (Some (Typed.timestamp frame))
                               (Arr (Typed.landmarks frame)))
              frames.
Proof.
  revert frames. induction elems as [|[[t|] [|ls]] elems IH]; intros frames;
    cbn [checkedFrames checkedFrame prop_timestamp prop_landmarks];
    try discriminate.
  - now intros [= <-].
  - destruct (checkedFrames elems) as [fs|]; [|discriminate].
    intros [= <-]. cbn [map Typed.timestamp Typed.landmarks].
    now rewrite <- (IH fs eq_refl).
Qed.

Lemma createMovementActivity_resolved (now : Date)
    (landmarkSequence : arg FrameObject)
    (metadata : Metadata.ActivityMetadata) (this this' : Service)
    (activityId : text) :
  createMovementActivity now landmarkSequence metadata this
  = (Resolved activityId, this') ->
  exists elems frames,
    landmarkSequence = Arr elems
    /\ elems <> []
    /\ checkedFrames elems = Some frames
    /\ validateActivityMetadata metadata = true
    /\ Metadata.type metadata = movement
    /\ activityId = lit "movement_" ++ of_N (nextId this)
    /\ this' = mkService
                 (JSMap.set activityId
                    (movementActivity now (nextId this) frames metadata)
                    (activities this))
                 (increment (nextId this)).
Proof.
  unfold createMovementActivity.
  destruct landmarkSequence as [|elems]; [discriminate|].
  destruct elems as [|e elems]; [discriminate|]. cbn [List.length Nat.eqb].
  destruct (validateActivityMetadata metadata) eqn:Hm; [|discriminate].
  cbn [negb]. destruct (Metadata.type metadata) eqn:Ht; [discriminate|].
  destruct (checkedFrames (e :: elems)) as [frames|] eqn:Hf; [|discriminate].
  unfold bind, postIncrement.
  rewrite (created_activity_valid (nextId this) "m" "ovement_" metadata movement
             now (Metadata.duration metadata) (map FrameItem frames) eq_refl Hm).
  cbn [negb]. unfold saveActivity.
  rewrite (created_activity_valid (nextId this) "m" "ovement_" metadata movement
             now (Metadata.duration metadata) (map FrameItem frames) eq_refl Hm).
  cbn [negb ret]. rewrite copy_id. cbn [Activities.id activities nextId].
  intros [= <- <-]. exists (e :: elems), frames.
  repeat split; try reflexivity; [discriminate | exact Hf].
Qed.

Lemma createPoseActivity_rejected (now : Date) (landmarks : arg PoseLandmark)
    (metadata : Metadata.ActivityMetadata) (this this' : Service)
    (error : ActivityError) :
  createPoseActivity now landmarks metadata this = (Rejected error, this') ->
  this' = this
  /\ In (code error) ["INVALID_LANDMARKS"; "INVALID_METADATA"; "INVALID_TYPE"]%string.
Proof.
  unfold createPoseActivity, throw.
  destruct landmarks as [|elems]; [intros [= <- <-]; cbn; auto|].
  destruct (List.length elems =? 0)%nat; [intros [= <- <-]; cbn; auto|].
  destruct (validateActivityMetadata metadata) eqn:Hm;
    [|intros [= <- <-]; cbn; auto].
  cbn [negb]. destruct (Metadata.type metadata);
    [|intros [= <- <-]; cbn; auto].
  unfold bind, postIncrement.
  rewrite (created_activity_valid (nextId this) "p" "ose_" metadata pose now
             None (map PoseItem elems) eq_refl Hm).
  cbn [negb]. unfold saveActivity.
  rewrite (created_activity_valid (nextId this) "p" "ose_" metadata pose now
             None (map PoseItem elems) eq_refl Hm).
  discriminate.
Qed.

Lemma createMovementActivity_rejected (now : Date)
    (landmarkSequence : arg FrameObject)
    (metadata : Metadata.ActivityMetadata) (this this' : Service)
    (error : ActivityError) :
  createMovementActivity now landmarkSequence metadata this
  = (Rejected error, this') ->
  this' = this
  /\ In (code error)
        ["INVALID_SEQUENCE"; "INVALID_METADATA"; "INVALID_TYPE";
         "INVALID_SEQUENCE_STRUCTURE"]%string.
Proof.
  unfold createMovementActivity, throw.
  destruct landmarkSequence as [|elems]; [intros [= <- <-]; cbn; auto|].
  destruct (List.length elems =? 0)%nat; [intros [= <- <-]; cbn; auto|].
  destruct (validateActivityMetadata metadata) eqn:Hm;
    [|intros [= <- <-]; cbn; auto].
  cbn [negb]. destruct (Metadata.type metadata);
    [intros [= <- <-]; cbn; auto|].
  destruct (checkedFrames elems) as [frames|];
    [|intros [= <- <-]; cbn; auto 6].
  unfold bind, postIncrement.
  rewrite (created_activity_valid (nextId this) "m" "ovement_" metadata movement
             now (Metadata.duration metadata) (map FrameItem frames) eq_refl Hm).
  cbn [negb]. unfold saveActivity.
  rewrite (created_activity_valid (nextId this) "m" "ovement_" metadata movement
             now (Metadata.duration metadata) (map FrameItem frames) eq_refl Hm).
  discriminate.
Qed.

Lemma getActivityById_stored (activityId : text) (activity : Activity)
    (this : Service) :
  activityId <> [] ->
  JSMap.get activityId (activities this) = Some activity ->
  getActivityById activityId this = (Resolved activity, this).
Proof.
  intros Hid Hget. unfold getActivityById.
  destruct activityId as [|c rest]; [congruence|]. cbn [List.length Nat.eqb].
  rewrite Hget. unfold ret. now rewrite copy_id.
Qed.

(** X13. A pose activity that [createPoseActivity] accepted can be read
    back: the identifier is [pose_] followed by the counter, and
    [getActivityById] returns the activity with the metadata's name,
    creator and visibility, the creation time, the landmarks as given, and
    no duration, whatever the metadata's duration was. *)
Theorem created_pose_is_stored (now : Date) (landmarks : arg PoseLandmark)
    (metadata : Metadata.ActivityMetadata) (this this' : Service)
    (activityId : text) :
  createPoseActivity now landmarks metadata this = (Resolved activityId, this') ->
  exists elems,
    landmarks = Arr elems
    /\ activityId = lit "pose_" ++ of_N (nextId this)
    /\ getActivityById activityId this'
       = (Resolved
            (mkActivity activityId pose (Metadata.name metadata)
                        (Metadata.createdBy metadata) now None
                        (Metadata.isPublic metadata) (map PoseItem elems)
                        None None),
          this').
Proof.
  intros H.
  destruct (createPoseActivity_resolved _ _ _ _ _ _ H)
    as (elems & -> & _ & _ & _ & -> & ->).
  exists elems. split; [reflexivity|]. split; [reflexivity|].
  apply getActivityById_stored; [discriminate|].
  cbn [activities]. apply get_set_same.
Qed.

(** X14. A movement activity that [createMovementActivity] accepted can be
    read back: the identifier is [movement_] followed by the counter, every
    given frame had a numeric timestamp and an array of landmarks, and
    [getActivityById] returns the activity with the metadata's fields,
    duration included, and the frames as given. *)
Theorem created_movement_is_stored (now : Date)
    (landmarkSequence : arg FrameObject)
    (metadata : Metadata.ActivityMetadata) (this this' : Service)
    (activityId : text) :
  createMovementActivity now landmarkSequence metadata this
  = (Resolved activityId, this') ->
  exists frames,
    landmarkSequence
    = Arr (map (fun frame =>
                  mkFrameObject (Some (Typed.timestamp frame))
                                (Arr (Typed.landmarks frame)))
               frames)
    /\ activityId = lit "movement_" ++ of_N (nextId this)
    /\ getActivityById activityId this'
       = (Resolved
            (mkActivity activityId movement (Metadata.name metadata)
                        (Metadata.createdBy metadata) now
                        (Metadata.duration metadata)
                        (Metadata.isPublic metadata) (map FrameItem frames)
                        None None),
          this').
Proof.
  intros H.
  destruct (createMovementActivity_resolved _ _ _ _ _ _ H)
    as (elems & frames & -> & _ & Hf & _ & _ & -> & ->).
  exists frames. split; [now rewrite (checkedFrames_frames _ _ Hf)|].
  split; [reflexivity|].
  apply getActivityById_stored; [discriminate|].
  cbn [activities]. apply get_set_same.
Qed.

(** X15. A creation that is rejected leaves the service as it was, counter
    included, and the reason is one of the input checks; the re-validation
    of the built activity ("VALIDATION_FAILED") never rejects. *)
Theorem rejected_creation_changes_nothing (now : Date)
    (landmarks : arg PoseLandmark) (landmarkSequence : arg FrameObject)
    (metadata : Metadata.ActivityMetadata) (this this' : Service)
    (error : ActivityError) :
  createPoseActivity now landmarks metadata this = (Rejected error, this')
  \/ createMovementActivity now landmarkSequence metadata this
     = (Rejected error, this') ->
  this' = this
  /\ In (code error)
        ["INVALID_LANDMARKS"; "INVALID_SEQUENCE"; "INVALID_METADATA";
         "INVALID_TYPE"; "INVALID_SEQUENCE_STRUCTURE"]%string.
Proof.
  intros [H|H].
  - destruct (createPoseActivity_rejected _ _ _ _ _ _ H) as [-> Hc].
    split; [reflexivity|]. cbn in Hc |- *. tauto.
  - destruct (createMovementActivity_rejected _ _ _ _ _ _ H) as [-> Hc].
    split; [reflexivity|]. cbn in Hc |- *. tauto.
Qed.

Lemma lit_inj (s t : string) : lit s = lit t -> s = t.
Proof.
  unfold lit. intros H.
  rewrite <- (string_of_list_ascii_of_string s),
          <- (string_of_list_ascii_of_string t).
  f_equal. revert H.
  generalize (list_ascii_of_string s) as a, (list_ascii_of_string t) as b.
  induction a as [|c a IH]; intros [|d b]; cbn [map]; try discriminate;
    [reflexivity|].
  intros [= Hc Hr]. f_equal; [|now apply IH].
  rewrite <- (ascii_N_embedding c), <- (ascii_N_embedding d). now rewrite Hc.
Qed.

Lemma of_N_inj (n m : N) : of_N n = of_N m -> n = m.
Proof.
  unfold of_N. intros H. apply lit_inj in H.
  assert (Hnil : forall k, N.to_uint k <> Decimal.Nil).
  { intros [|p]; [discriminate|]. apply DecimalPos.Unsigned.to_uint_nonnil. }
  apply DecimalN.Unsigned.to_uint_inj.
  pose proof (NilZero.usu _ (Hnil n)) as Hn.
  pose proof (NilZero.usu _ (Hnil m)) as Hm'.
  rewrite H in Hn. congruence.
Qed.

Lemma issued_set (this : Service) (prefix : string) (activity : Activity) :
  prefix = "pose_"%string \/ prefix = "movement_"%string ->
  (nextId this < 2 ^ 53)%N ->
  issued this ->
  issued (mkService
            (JSMap.set (lit prefix ++ of_N (nextId this)) activity (activities this))
            (increment (nextId this))).
Proof.
  intros Hp Hn Hi key. cbn [activities nextId]. rewrite has_set.
  unfold increment. apply N.ltb_lt in Hn as Hn'. rewrite Hn'.
  destruct (Text.eqb key _) eqn:E.
  - apply text_eqb_eq in E. intros _. exists (nextId this).
    split; [lia|]. destruct Hp as [-> | ->]; auto.
  - cbn [orb]. intros H. destruct (Hi key H) as (n & Hlt & Hk).
    exists n. split; [lia | exact Hk].
Qed.

Lemma increment_below (n : N) : (increment n < 2 ^ 53)%N -> (n < 2 ^ 53)%N.
Proof.
  unfold increment. destruct (n <? 2 ^ 53)%N eqn:E; [|easy].
  intros _. now apply N.ltb_lt.
Qed.

Lemma perform_issued (this : Service) (call : Call) :
  ((nextId this < 2 ^ 53)%N -> issued this) ->
  (nextId (perform this call) < 2 ^ 53)%N -> issued (perform this call).
Proof.
  intros Hi. destruct call as [now landmarks metadata
                              |now landmarkSequence metadata|key|];
    cbn [perform].
  - destruct (createPoseActivity now landmarks metadata this)
      as [[activityId|error] this'] eqn:H; cbn [snd].
    + destruct (createPoseActivity_resolved _ _ _ _ _ _ H)
        as (elems & _ & _ & _ & _ & -> & ->).
      cbn [nextId]. intros Hn. apply increment_below in Hn.
      apply issued_set; auto.
    + destruct (createPoseActivity_rejected _ _ _ _ _ _ H) as [-> _].
      exact Hi.
  - destruct (createMovementActivity now landmarkSequence metadata this)
      as [[activityId|error] this'] eqn:H; cbn [snd].
    + destruct (createMovementActivity_resolved _ _ _ _ _ _ H)
        as (elems & frames & _ & _ & _ & _ & _ & -> & ->).
      cbn [nextId]. intros Hn. apply increment_below in Hn.
      apply issued_set; auto.
    + destruct (createMovementActivity_rejected _ _ _ _ _ _ H) as [-> _].
      exact Hi.
  - unfold deleteActivity, throw.
    destruct (List.length key =? 0)%nat; [exact Hi|].
    destruct (JSMap.has key (activities this)); cbn [negb snd]; [|exact Hi].
    cbn [nextId]. intros Hn other Ho. cbn [activities] in Ho.
    apply has_delete in Ho. exact (Hi Hn other Ho).
  - intros _ key. discriminate.
Qed.

Lemma replay_issued (history : list Call) :
  (nextId (replay history) < 2 ^ 53)%N -> issued (replay history).
Proof.
  unfold replay.
  assert (H : forall this,
             ((nextId this < 2 ^ 53)%N -> issued this) ->
             (nextId (fold_left perform history this) < 2 ^ 53)%N ->
             issued (fold_left perform history this)).
  { induction history as [|call history IH]; intros this Hi; [exact Hi|].
    cbn [fold_left]. apply IH. now apply perform_issued. }
  apply H. intros _ key. discriminate.
Qed.

Lemma issued_fresh (this : Service) (prefix : string) :
  prefix = "pose_"%string \/ prefix = "movement_"%string ->
  issued this ->
  JSMap.has (lit prefix ++ of_N (nextId this)) (activities this) = false.
Proof.
  intros Hp Hi.
  destruct (JSMap.has _ (activities this)) eqn:H; [|reflexivity].
  exfalso. destruct (Hi _ H) as (n & Hlt & Hk).
  destruct Hp as [-> | ->], Hk as [Hk|Hk]; try discriminate Hk.
  - apply (app_inv_head (lit "pose_")), of_N_inj in Hk. lia.
  - apply (app_inv_head (lit "movement_")), of_N_inj in Hk. lia.
Qed.

(** X16. In a service driven from its start through the two creations,
    [deleteActivity] and [clearAll] only, and while the counter is below
    2^53, a creation issues an identifier that is not in use: the number of
    activities grows by one and every activity stored before reads back as
    before. *)
Theorem created_ids_are_fresh (history : list Call) (now : Date)
    (landmarks : arg PoseLandmark) (landmarkSequence : arg FrameObject)
    (metadata : Metadata.ActivityMetadata) (this' : Service)
    (activityId : text) :
  (nextId (replay history) < 2 ^ 53)%N ->
  createPoseActivity now landmarks metadata (replay history)
  = (Resolved activityId, this')
  \/ createMovementActivity now landmarkSequence metadata (replay history)
     = (Resolved activityId, this') ->
  JSMap.has activityId (activities (replay history)) = false
  /\ totalActivities (getActivityStats this')
     = S (totalActivities (getActivityStats (replay history)))
  /\ forall other,
       JSMap.has other (activities (replay history)) = true ->
       getActivityById other this'
       = (fst (getActivityById other (replay history)), this').
Proof.
  intros Hn Hc. pose proof (replay_issued history Hn) as Hi.
  set (this := replay history) in *.
  assert (H : exists prefix activity,
             (prefix = "pose_"%string \/ prefix = "movement_"%string)
             /\ activityId = lit prefix ++ of_N (nextId this)
             /\ this' = mkService (JSMap.set activityId activity (activities this))
                                  (increment (nextId this))).
  { destruct Hc as [H|H].
    - destruct (createPoseActivity_resolved _ _ _ _ _ _ H)
        as (elems & _ & _ & _ & _ & E & ->).
      exists "pose_"%string. eexists. split; [now left|]. split; [exact E|].
      reflexivity.
    - destruct (createMovementActivity_resolved _ _ _ _ _ _ H)
        as (elems & frames & _ & _ & _ & _ & _ & E & ->).
      exists "movement_"%string. eexists. split; [now right|].
      split; [exact E|]. reflexivity. }
  destruct H as (prefix & activity & Hp & -> & ->).
  pose proof (issued_fresh this prefix Hp Hi) as Hfresh.
  split; [exact Hfresh|]. split.
  - unfold getActivityStats. cbn [totalActivities activities].
    rewrite (values_set_new _ _ _ Hfresh), length_app. cbn. lia.
  - intros other Ho.
    assert (Hne : other <> lit prefix ++ of_N (nextId this)) by congruence.
    unfold getActivityById. destruct (List.length other =? 0)%nat;
      [reflexivity|].
    cbn [activities]. rewrite (get_set_other _ _ _ _ Hne).
    now destruct (JSMap.get other (activities this)).
Qed.

(** X17. [getActivities] never rejects and leaves the service unchanged;
    it lists exactly the public activities, each once, newest first, as
    many as the statistics count as public. *)
Theorem getActivities_newest_first (this : Service) :
  exists listed,
    getActivities this = (Resolved listed, this)
    /\ Forall (fun activity => isPublic activity = true) listed
    /\ StronglySorted (Spec.noNewer createdAt) listed
    /\ Permutation listed
         (filter (fun activity => isPublic activity)
                 (JSMap.values (activities this)))
    /\ List.length listed = publicActivities (getActivityStats this).
Proof.
  eexists. split; [reflexivity|].
  pose proof (sort_perm _ newestFirst
                (filter (fun activity => isPublic activity)
                        (JSMap.values (activities this)))) as Hp.
  split; [|split; [|split]].
  - apply Forall_forall. intros a Ha.
    apply (Permutation_in _ Hp), filter_In in Ha. apply Ha.
  - apply (sort_sorted _ newestFirst createdAt newestFirst_time).
  - exact Hp.
  - now rewrite (Permutation_length Hp).
Qed.

Lemma filter_filter_andb {A : Type} (p q : A -> bool) (l : list A) :
  filter p (filter q l) = filter (fun a => q a && p a) l.
Proof.
  induction l as [|a l IH]; [reflexivity|]. cbn [filter].
  destruct (q a); cbn [filter andb]; rewrite IH; reflexivity.
Qed.

(** X18. The listing by type is the public listing restricted to that
    type, in the same order; the listing by creator, which also holds the
    creator's private activities, agrees with the public listing on the
    public ones. *)
Theorem listings_agree (this : Service) (type : ActivityType) (creator : text) :
  exists listed typed mine,
    getActivities this = (Resolved listed, this)
    /\ getActivitiesByType type this = (Resolved typed, this)
    /\ getActivitiesByCreator creator this = (Resolved mine, this)
    /\ typed = filter (fun a => typeEq (Activities.type a) type) listed
    /\ filter (fun a => isPublic a) mine
       = filter (fun a => Text.eqb (createdBy a) creator) listed.
Proof.
  do 3 eexists. split; [reflexivity|]. split; [reflexivity|].
  split; [reflexivity|].
  rewrite <- !(sort_filter _ newestFirst createdAt newestFirst_time).
  rewrite !filter_filter_andb. split; f_equal; apply filter_ext; intros a.
  - apply andb_comm.
  - apply andb_comm.
Qed.

(** X19. [deleteActivity] resolves exactly for an identifier in use; the
    activity can then no longer be read ("NOT_FOUND"), the others read as
    before and the counter is not set back.  It rejects an empty
    identifier with "INVALID_ID" and an unknown one with "NOT_FOUND", and
    then changes nothing. *)
Theorem deleteActivity_removes (activityId : text) (this : Service) :
  match deleteActivity activityId this with
  | (Resolved _, this') =>
      JSMap.has activityId (activities this) = true
      /\ (exists error,
            getActivityById activityId this' = (Rejected error, this')
            /\ code error = "NOT_FOUND"%string)
      /\ nextId this' = nextId this
      /\ forall other,
           other <> activityId ->
           getActivityById other this'
           = (fst (getActivityById other this), this')
  | (Rejected error, this') =>
      this' = this
      /\ (activityId = [] /\ code error = "INVALID_ID"%string
          \/ activityId <> []
             /\ JSMap.has activityId (activities this) = false
             /\ code error = "NOT_FOUND"%string)
  end.
Proof.
  unfold deleteActivity, throw.
  destruct activityId as [|c rest]; cbn [List.length Nat.eqb].
  - split; [reflexivity|]. now left.
  - destruct (JSMap.has (c :: rest) (activities this)) eqn:H; cbn [negb].
    + split; [reflexivity|]. split; [|split; [reflexivity|]].
      * eexists. unfold getActivityById, throw. cbn [List.length Nat.eqb activities].
        rewrite get_delete_same. split; reflexivity.
      * intros other Hne. unfold getActivityById.
        destruct (List.length other =? 0)%nat; [reflexivity|].
        cbn [activities]. rewrite (get_delete_other _ _ _ Hne).
        now destruct (JSMap.get other (activities this)).
    + split; [reflexivity|]. right. now split.
Qed.

(** X20. [saveActivity] of an activity that [validateActivity] accepts
    inserts or replaces: the activity reads back as given, the number of
    activities grows by one unless the identifier was in use, the other
    activities and the counter are untouched. *)
Theorem saveActivity_upserts (activity : Activity) (this : Service) :
  validateActivity activity = true ->
  exists this',
    saveActivity activity this = (Resolved tt, this')
    /\ getActivityById (id activity) this' = (Resolved activity, this')
    /\ nextId this' = nextId this
    /\ totalActivities (getActivityStats this')
       = (if JSMap.has (id activity) (activities this)
          then totalActivities (getActivityStats this)
          else S (totalActivities (getActivityStats this)))
    /\ forall other,
         other <> id activity ->
         getActivityById other this' = (fst (getActivityById other this), this').
Proof.
  intros Hv. unfold saveActivity. rewrite Hv. cbn [negb].
  eexists. split; [reflexivity|]. rewrite copy_id.
  split; [|split; [reflexivity|split]].
  - apply getActivityById_stored; [|cbn [activities]; apply get_set_same].
    unfold validateActivity in Hv.
    destruct (id activity); [discriminate Hv | discriminate].
  - unfold getActivityStats. cbn [totalActivities activities].
    destruct (JSMap.has (id activity) (activities this)) eqn:H.
    + now apply length_set_present.
    + rewrite (values_set_new _ _ _ H), length_app. cbn. lia.
  - intros other Hne. unfold getActivityById.
    destruct (List.length other =? 0)%nat; [reflexivity|].
    cbn [activities]. rewrite (get_set_other _ _ _ _ Hne).
    now destruct (JSMap.get other (activities this)).
Qed.


(** X21. The statistics agree with one another and with the listings:
    pose and movement activities add up to the total, so do public and
    private ones, and the two listings by type together hold as many
    activities as are counted public. *)
Theorem getActivityStats_consistent (this : Service) :
  let stats := getActivityStats this in
  (poseActivities stats + movementActivities stats = totalActivities stats)%nat
  /\ (publicActivities stats + privateActivities stats = totalActivities stats)%nat
  /\ exists poses movements,
       getActivitiesByType pose this = (Resolved poses, this)
       /\ getActivitiesByType movement this = (Resolved movements, this)
       /\ (List.length poses + List.length movements = publicActivities stats)%nat.
Proof.
  unfold getActivityStats.
  cbn [totalActivities poseActivities movementActivities publicActivities
       privateActivities].
  split; [|split].
  - rewrite <- (filter_length (fun a => typeEq (type a) pose)
                  (JSMap.values (activities this))).
    f_equal. f_equal. apply filter_ext. intros a. now destruct (type a).
  - apply filter_length.
  - unfold getActivitiesByType, ret. do 2 eexists.
    split; [reflexivity|]. split; [reflexivity|].
    rewrite !(Permutation_length (sort_perm _ newestFirst _)).
    generalize (JSMap.values (activities this)) as l.
    induction l as [|a l IH]; [reflexivity|]. cbn [filter].
    destruct (type a), (isPublic a); cbn [typeEq andb List.length]; lia.
Qed.

Lemma created_pose_is_stored_witness :
  exists elems,
    Arr mockPoseLandmarks = Arr elems
    /\ lit "pose_1" = lit "pose_" ++ of_N (nextId ActivityService.initial)
    /\ getActivityById (lit "pose_1")
         (snd (createPoseActivity 1000%Z (Arr mockPoseLandmarks) mockPoseMetadata
                 ActivityService.initial))
       = (Resolved
            (mkActivity (lit "pose_1") pose (Metadata.name mockPoseMetadata)
                        (Metadata.createdBy mockPoseMetadata) 1000%Z None
                        (Metadata.isPublic mockPoseMetadata)
                        (map PoseItem elems) None None),
          snd (createPoseActivity 1000%Z (Arr mockPoseLandmarks) mockPoseMetadata
                 ActivityService.initial)).
Proof.
  apply (created_pose_is_stored 1000%Z (Arr mockPoseLandmarks) mockPoseMetadata
           ActivityService.initial).
  vm_compute. reflexivity.
Defined.

Lemma created_movement_is_stored_witness :
  exists frames,
    Arr mockMovementSequence
    = Arr (map (fun frame =>
                  mkFrameObject (Some (Typed.timestamp frame))
                                (Arr (Typed.landmarks frame)))
               frames)
    /\ lit "movement_1" = lit "movement_" ++ of_N (nextId ActivityService.initial)
    /\ getActivityById (lit "movement_1")
         (snd (createMovementActivity 1000%Z (Arr mockMovementSequence)
                 mockMovementMetadata ActivityService.initial))
       = (Resolved
            (mkActivity (lit "movement_1") movement
                        (Metadata.name mockMovementMetadata)
                        (Metadata.createdBy mockMovementMetadata) 1000%Z
                        (Metadata.duration mockMovementMetadata)
                        (Metadata.isPublic mockMovementMetadata)
                        (map FrameItem frames) None None),
          snd (createMovementActivity 1000%Z (Arr mockMovementSequence)
                 mockMovementMetadata ActivityService.initial)).
Proof.
  apply (created_movement_is_stored 1000%Z (Arr mockMovementSequence)
           mockMovementMetadata ActivityService.initial).
  vm_compute. reflexivity.
Defined.

Lemma rejected_creation_changes_nothing_witness :
  ActivityService.initial = ActivityService.initial
  /\ In (code (mkActivityError "Invalid landmarks data" "INVALID_LANDMARKS"))
        ["INVALID_LANDMARKS"; "INVALID_SEQUENCE"; "INVALID_METADATA";
         "INVALID_TYPE"; "INVALID_SEQUENCE_STRUCTURE"]%string.
Proof.
  apply (rejected_creation_changes_nothing 1000%Z (Arr []) NotArray mockPoseMetadata
           ActivityService.initial).
  left. vm_compute. reflexivity.
Defined.

Lemma created_ids_are_fresh_witness :
  JSMap.has (lit "movement_3") (activities (replay history)) = false
  /\ totalActivities
       (getActivityStats
          (snd (createMovementActivity 1020%Z (Arr mockMovementSequence)
                  mockMovementMetadata (replay history))))
     = S (totalActivities (getActivityStats (replay history)))
  /\ forall other,
       JSMap.has other (activities (replay history)) = true ->
       getActivityById other
         (snd (createMovementActivity 1020%Z (Arr mockMovementSequence)
                 mockMovementMetadata (replay history)))
       = (fst (getActivityById other (replay history)),
          snd (createMovementActivity 1020%Z (Arr mockMovementSequence)
                 mockMovementMetadata (replay history))).
Proof.
  apply (created_ids_are_fresh history 1020%Z NotArray (Arr mockMovementSequence)
           mockMovementMetadata _ (lit "movement_3")).
  - vm_compute. reflexivity.
  - right. vm_compute. reflexivity.
Defined.

(** Both hypotheses are needed.  An activity saved directly under an
    identifier of the service's own form is replaced by the next creation. *)
Example direct_save_is_overwritten :
  let this := snd (saveActivity savedActivity ActivityService.initial) in
  let created := createPoseActivity 1000%Z (Arr mockPoseLandmarks) mockPoseMetadata this in
  fst created = Resolved (lit "pose_1")
  /\ JSMap.has (lit "pose_1") (activities this) = true
  /\ totalActivities (getActivityStats (snd created)) = 1%nat.
Proof. repeat split; vm_compute; reflexivity. Qed.

(** At 2^53 the counter stops, and two creations get the same identifier. *)
Example counter_saturates :
  let this := mkService [] (2 ^ 53) in
  let first := createPoseActivity 1000%Z (Arr mockPoseLandmarks) mockPoseMetadata this in
  let second :=
    createPoseActivity 1010%Z (Arr mockPoseLandmarks) mockPoseMetadata (snd first) in
  fst first = fst second
  /\ totalActivities (getActivityStats (snd second)) = 1%nat.
Proof. split; vm_compute; reflexivity. Qed.

Lemma saveActivity_upserts_witness :
  exists this',
    saveActivity savedActivity ActivityService.initial = (Resolved tt, this')
    /\ getActivityById (id savedActivity) this' = (Resolved savedActivity, this')
    /\ nextId this' = nextId ActivityService.initial
    /\ totalActivities (getActivityStats this')
       = (if JSMap.has (id savedActivity) (activities ActivityService.initial)
          then totalActivities (getActivityStats ActivityService.initial)
          else S (totalActivities (getActivityStats ActivityService.initial)))
    /\ forall other,
         other <> id savedActivity ->
         getActivityById other this'
         = (fst (getActivityById other ActivityService.initial), this').
Proof.
  apply (saveActivity_upserts savedActivity ActivityService.initial).
  vm_compute. reflexivity.
Defined.

End Store.

(** ** The repository's tests, replayed on the embedding *)

Section Tests.

Import MediaPipeService Validation.
Local Open Scope Q_scope.
Local Open Scope string_scope.

Example empty_arrays_score_zero :
  calculateSimilarityScore (Arr []) (Arr []) = Fin 0
  /\ calculateSimilarityScore NotArray (Arr base) = Fin 0
  /\ calculateSimilarityScore (Arr base) NotArray = Fin 0.
Proof. repeat split. Qed.

Example different_lengths_are_compared :
  calculateSimilarityScore (Arr (firstn 20 base)) (Arr base) = Fin 1.
Proof. vm_compute. reflexivity. Qed.

Example different_poses_score_lower :
  percent (calculateSimilarityScore (Arr base)
             (Arr (createTestLandmarks 0.7 0.3 0.2))) = "40.0".
Proof. vm_compute. reflexivity. Qed.

Example low_visibility_is_ignored :
  calculateSimilarityScore
    (Arr base) (Arr (setVisibility (setVisibility base 0 0.1) 1 0.2)) = Fin 1
  /\ pairDistance (get base 0) (get (setVisibility base 0 0.1) 0) = None.
Proof. split; vm_compute; reflexivity. Qed.

Example thresholds_differ_by_difficulty :
  let current := Arr (createTestLandmarks 0.55 0.52 0.12) in
  isMatch (comparePoses (Arr base) current soft) = true
  /\ isMatch (comparePoses (Arr base) current hard) = false
  /\ feedback (comparePoses (Arr base) current hard)
     = ["Pose similarity: 88.5% (target: 90.0%)"].
Proof. repeat split; vm_compute; reflexivity. Qed.

Example malformed_landmarks_do_not_match :
  isMatch (comparePoses (Arr malformedLandmarks) (Arr base) medium) = false
  /\ score (comparePoses (Arr malformedLandmarks) (Arr base) medium) = Fin 0.
Proof. split; vm_compute; reflexivity. Qed.

Example null_landmark_is_caught :
  comparePoses (Arr [None]) (Arr base) medium
  = mkComparisonResult false (Fin 0)
      ["Error comparing poses"]
      ["Try again with better lighting and pose visibility"].
Proof. vm_compute. reflexivity. Qed.

Example identical_sequences_match :
  let frame := mkTimestampedLandmarks (Fin 0) base in
  let sequence := Arr [frame; frame; frame] in
  compareMovementSequence exp_taylor sequence sequence medium
  = mkComparisonResult true (Fin 1)
      ["Excellent movement! Overall similarity: 100.0%"]
      ["Focus on smooth, controlled movements";
       "Try to maintain consistent timing throughout the sequence"].
Proof. vm_compute. reflexivity. Qed.

Example shorter_attempt_is_flagged :
  let frame := mkTimestampedLandmarks (Fin 0) base in
  In "Try to complete the full movement sequence"
     (suggestions
        (compareMovementSequence exp_taylor
           (Arr [frame; frame; frame; frame]) (Arr [frame; frame]) medium)).
Proof. vm_compute. now left. Qed.

Example one_landmark_is_not_a_pose :
  validatePoseQuality [mkPoseLandmark (Fin 0.5) (Fin 0.5) (Fin 0.1) (Some (Fin 0.9))]
  = mkPoseQuality false ["Expected 33 landmarks, got 1"].
Proof. vm_compute. reflexivity. Qed.

Example dim_key_landmarks_are_reported :
  validatePoseQuality dimKeyLandmarks
  = mkPoseQuality false ["Too many key landmarks have low visibility"].
Proof. vm_compute. reflexivity. Qed.

Example out_of_bounds_values_are_clamped :
  normalizeLandmark (mkPoseLandmark (Fin 1.2) (Fin (-0.1)) (Fin 0.2) (Some (Fin 1.5)))
  = mkPoseLandmark (Fin 1) (Fin 0) (Fin 0.2) (Some (Fin 1)).
Proof. vm_compute. reflexivity. Qed.

Example extraction_normalizes :
  extractLandmarks mockResult
  = [ visibleLandmark;
      mkPoseLandmark (Fin 1) (Fin 0) (Fin 0.2) (Some (Fin 1)) ]
  /\ extractLandmarks (Detection.mkPoseLandmarkerResult (Some [])) = [].
Proof. split; vm_compute; reflexivity. Qed.

Example confidence_of_visible_landmarks :
  getPoseConfidence
    [ mkPoseLandmark (Fin 0.5) (Fin 0.5) (Fin 0.1) (Some (Fin 0.9));
      mkPoseLandmark (Fin 0.5) (Fin 0.5) (Fin 0.1) (Some (Fin 0.7));
      mkPoseLandmark (Fin 0.5) (Fin 0.5) (Fin 0.1) (Some (Fin 0.8)) ] = fin 0.8
  /\ getPoseConfidence [] = Fin 0
  /\ getPoseConfidence
       [ mkPoseLandmark (Fin 0.5) (Fin 0.5) (Fin 0.1) None;
         mkPoseLandmark (Fin 0.5) (Fin 0.5) (Fin 0.1) (Some (Fin 0.8)) ] = fin 0.8.
Proof. repeat split; vm_compute; reflexivity. Qed.

Example good_sequence_is_valid :
  let result := Sequence.validateMovementSequence goodSequence in
  Sequence.isValid result = true
  /\ Sequence.totalFrames (Sequence.stats result) = 60%nat
  /\ gtb (Sequence.frameRate (Sequence.stats result)) (Fin 25) = true.
Proof. repeat split; vm_compute; reflexivity. Qed.

Example short_sequence_is_reported :
  Sequence.isValid (Sequence.validateMovementSequence shortSequence) = false
  /\ In "Movement sequence too short (minimum 1 second)"
        (Sequence.issues (Sequence.validateMovementSequence shortSequence))
  /\ Sequence.issues (Sequence.validateMovementSequence [])
     = ["No movement data recorded"].
Proof. repeat split; vm_compute; auto. Qed.

End Tests.

(** ** The tests of the activity service, replayed *)

Section ActivityTests.

Import Text Activities Validation ActivityService History.
Local Open Scope list_scope.

Example pose_activity_is_created :
  createPoseActivity 1000%Z (Arr mockPoseLandmarks) mockPoseMetadata
                     ActivityService.initial
  = (Resolved (lit "pose_1"),
     mkService
       [(lit "pose_1",
         mkActivity (lit "pose_1") pose (lit "Test Pose") (lit "testuser")
                    1000%Z None true (map PoseItem mockPoseLandmarks)
                    None None)]
       2).
Proof. vm_compute. reflexivity. Qed.

Example pose_creation_is_rejected :
  fst (createPoseActivity 1000%Z (Arr []) mockPoseMetadata ActivityService.initial)
  = Rejected (mkActivityError "Invalid landmarks data" "INVALID_LANDMARKS")
  /\ fst (createPoseActivity 1000%Z NotArray mockPoseMetadata ActivityService.initial)
     = Rejected (mkActivityError "Invalid landmarks data" "INVALID_LANDMARKS")
  /\ code_of (createPoseActivity 1000%Z (Arr mockPoseLandmarks)
                mockMovementMetadata ActivityService.initial)
     = Some "INVALID_TYPE"%string
  /\ code_of (createPoseActivity 1000%Z (Arr mockPoseLandmarks)
                (Metadata.mkActivityMetadata (lit "  ") pose (lit "testuser")
                                             None true)
                ActivityService.initial)
     = Some "INVALID_METADATA"%string.
Proof. repeat split; vm_compute; reflexivity. Qed.

Example movement_activity_is_created :
  let created :=
    createMovementActivity 1000%Z (Arr mockMovementSequence) mockMovementMetadata
                           ActivityService.initial in
  fst created = Resolved (lit "movement_1")
  /\ option_map (fun activity =>
                   (type activity, duration activity,
                    List.length (landmarks activity)))
       (JSMap.get (lit "movement_1") (activities (snd created)))
     = Some (movement, Some (Fin 3000), 3%nat).
Proof. split; vm_compute; reflexivity. Qed.

Example movement_creation_is_rejected :
  code_of (createMovementActivity 1000%Z (Arr []) mockMovementMetadata
             ActivityService.initial)
  = Some "INVALID_SEQUENCE"%string
  /\ code_of (createMovementActivity 1000%Z NotArray mockMovementMetadata
                ActivityService.initial)
     = Some "INVALID_SEQUENCE"%string
  /\ code_of (createMovementActivity 1000%Z
                (Arr [mkFrameObject None (Arr mockPoseLandmarks)])
                mockMovementMetadata ActivityService.initial)
     = Some "INVALID_SEQUENCE_STRUCTURE"%string
  /\ code_of (createMovementActivity 1000%Z (Arr mockMovementSequence)
                mockPoseMetadata ActivityService.initial)
     = Some "INVALID_TYPE"%string.
Proof. repeat split; vm_compute; reflexivity. Qed.

Example only_public_activities_are_listed :
  fst (getActivities ActivityService.initial) = Resolved []
  /\ option_map (map id)
       (value_of
          (getActivities
             (replay
                [CreatePose 1000%Z (Arr mockPoseLandmarks) mockPoseMetadata;
                 CreatePose 1000%Z (Arr mockPoseLandmarks)
                   (Metadata.mkActivityMetadata (lit "Test Pose") pose
                      (lit "testuser") None false)])))
     = Some [lit "pose_1"].
Proof. split; vm_compute; reflexivity. Qed.

Example newest_activity_is_listed_first :
  option_map (map id)
    (value_of
       (getActivities
          (replay
             [CreatePose 1000%Z (Arr mockPoseLandmarks) mockPoseMetadata;
              CreatePose 1010%Z (Arr mockPoseLandmarks) mockPoseMetadata])))
  = Some [lit "pose_2"; lit "pose_1"].
Proof. vm_compute. reflexivity. Qed.

Example unknown_identifiers_are_rejected :
  code_of (getActivityById [] ActivityService.initial) = Some "INVALID_ID"%string
  /\ code_of (getActivityById (lit "nonexistent") ActivityService.initial)
     = Some "NOT_FOUND"%string
  /\ code_of (deleteActivity [] ActivityService.initial) = Some "INVALID_ID"%string
  /\ code_of (deleteActivity (lit "nonexistent") ActivityService.initial)
     = Some "NOT_FOUND"%string.
Proof. repeat split; vm_compute; reflexivity. Qed.

Example activity_without_identifier_is_not_saved :
  saveActivity
    (mkActivity [] pose (lit "Test") (lit "testuser") 0%Z None true
                (map PoseItem mockPoseLandmarks) None None)
    ActivityService.initial
  = (Rejected (mkActivityError "Activity validation failed" "VALIDATION_FAILED"),
     ActivityService.initial).
Proof. vm_compute. reflexivity. Qed.

Example deleted_activity_is_gone :
  code_of (getActivityById (lit "pose_1")
             (replay
                [CreatePose 1000%Z (Arr mockPoseLandmarks) mockPoseMetadata;
                 Delete (lit "pose_1")]))
  = Some "NOT_FOUND"%string.
Proof. vm_compute. reflexivity. Qed.

Example statistics_are_counted :
  getActivityStats
    (replay
       [CreatePose 1000%Z (Arr mockPoseLandmarks) mockPoseMetadata;
        CreateMovement 1000%Z (Arr mockMovementSequence) mockMovementMetadata;
        CreatePose 1000%Z (Arr mockPoseLandmarks)
          (Metadata.mkActivityMetadata (lit "Test Pose") pose (lit "testuser")
                                       None false)])
  = mkStats 3 2 1 2 1
  /\ getActivityStats ActivityService.initial = mkStats 0 0 0 0 0
  /\ replay
       [CreatePose 1000%Z (Arr mockPoseLandmarks) mockPoseMetadata; ClearAll]
     = ActivityService.initial.
Proof. repeat split; vm_compute; reflexivity. Qed.

End ActivityTests.

(** ** The tests of the validation utilities, replayed *)

Section ValidationTests.

Import Validation.
Local Open Scope string_scope.

Example complete_pose_is_valid :
  validatePoseData (Arr base) = PoseData.mkValidity true [].
Proof. vm_compute. reflexivity. Qed.

Example unusable_pose_data_is_rejected :
  validatePoseData NotArray
  = PoseData.mkValidity false ["Landmarks must be an array"]
  /\ validatePoseData (Arr [])
     = PoseData.mkValidity false ["Landmarks array cannot be empty"]
  /\ validatePoseData (Arr [to_slot visibleLandmark])
     = PoseData.mkValidity false
         ["Expected 33 landmarks for complete pose, got 1"]
  /\ In "Invalid landmark at index 1"
        (PoseData.errors
           (validatePoseData
              (Arr [ to_slot visibleLandmark;
                     Some (mkLandmarkObject None (Some (Fin 0.5))
                                            (Some (Fin 0.1)) (Some (Fin 0.9))) ]))).
Proof. repeat split; vm_compute; auto. Qed.

End ValidationTests.
